(** * SSM password manager: a shallow embedding and its verified contract

  The development follows the layout of the repository:

  - [Py]              the Python builtins the code relies on (truthiness,
                      slicing, [str.strip], [sorted], [str] of numbers);
  - [Botocore]        the [ClientError] raised by the AWS client;
  - [Exceptions]      [ssm_password_manager/exceptions.py];
  - [SSM]             the remote parameter service behind [boto3.client('ssm')];
  - [Secrets]         the [secrets] module (draws from the system entropy);
  - [PasswordManager] [ssm_password_manager/password_manager.py];
  - [App]             the [/login] handler of [app.py].

  Code that raises is embedded in a state-and-exception monad whose state
  outlives a raised exception, as the effects of a remote call do. *)

From Stdlib Require Import String Ascii List ZArith Lia Bool Arith.
From Stdlib Require Import Sorting.Sorted Sorting.Permutation Sorting.Mergesort.
From Stdlib Require Import Structures.Orders Numbers.DecimalString.
Import ListNotations.

Local Open Scope list_scope.
Local Open Scope string_scope.

(* ===================================================================== *)
(** ** Python builtins *)
(* ===================================================================== *)

Module Py.

(** [bool(s)] for a [str]: the empty string is falsy. *)
Definition truthy (s : string) : bool :=
  match s with
  | EmptyString => false
  | String _ _ => true
  end.

(** [len(s)]. *)
Definition len (s : string) : nat := String.length s.

(** [s[n:]]: the slice that drops the first [n] characters. *)
Fixpoint slice_from (n : nat) (s : string) : string :=
  match n, s with
  | 0, _ => s
  | S _, EmptyString => EmptyString
  | S k, String _ rest => slice_from k rest
  end.

(** [s[i]] for [0 <= i], [None] standing for [IndexError]. *)
Definition item (i : nat) (s : string) : option ascii := String.get i s.

(** [str(n)] for a non-negative [int]. *)
Definition str_of_nat (n : nat) : string :=
  NilEmpty.string_of_uint (Nat.to_uint n).

(** [str(b)] for a [bool]. *)
Definition str_of_bool (b : bool) : string :=
  if b then "True" else "False".

(** [c.isspace()] on the code points below 256. *)
Definition isspace (c : ascii) : bool :=
  let n := nat_of_ascii c in
  (((9 <=? n) && (n <=? 13)) || ((28 <=? n) && (n <=? 32))
   || (n =? 133) || (n =? 160))%nat.

(** [s.lstrip()]. *)
Fixpoint lstrip (s : string) : string :=
  match s with
  | EmptyString => EmptyString
  | String c rest => if isspace c then lstrip rest else s
  end.

(** [s.rstrip()]: a character stays when something that is not white
    space follows it or it is not white space itself. *)
Fixpoint rstrip (s : string) : string :=
  match s with
  | EmptyString => EmptyString
  | String c rest =>
      match rstrip rest with
      | EmptyString => if isspace c then EmptyString else String c EmptyString
      | kept => String c kept
      end
  end.

(** [s.strip()]. *)
Definition strip (s : string) : string := rstrip (lstrip s).

(** [d.get(key, default)] on a dictionary with string keys. *)
Fixpoint dict_get {V : Type} (d : list (string * V)) (key : string)
         (default : V) : V :=
  match d with
  | [] => default
  | (k, v) :: rest => if String.eqb k key then v else dict_get rest key default
  end.

(** The order [sorted] uses on [str]: code point by code point. *)
Module StringOrder <: TotalLeBool.
Definition t := string.
Definition leb := String.leb.
Definition leb_total :
  forall a1 a2, leb a1 a2 = true \/ leb a2 a1 = true := String.leb_total.
End StringOrder.

Module StringSort := Sort StringOrder.

(** [sorted(l)] for a list of [str]. *)
Definition sorted (l : list string) : list string := StringSort.sort l.

End Py.

(* ===================================================================== *)
(** ** botocore.exceptions.ClientError *)
(* ===================================================================== *)

Module Botocore.

(** [e.response['Error']] together with the operation name. *)
Record ClientError : Type := mkClientError {
  Code : string;
  Message : string;
  operation_name : string
}.

(** [str(e)], the message botocore builds for a [ClientError]. *)
Definition str (e : ClientError) : string :=
  "An error occurred (" ++ Code e ++ ") when calling the "
    ++ operation_name e ++ " operation: " ++ Message e.

End Botocore.

(* ===================================================================== *)
(** ** exceptions.py *)
(* ===================================================================== *)

Module Exceptions.

(** The four subclasses of [PasswordManagerError], and the exceptions of
    other libraries that the code meets. *)
Inductive Exception : Type :=
| ValidationError (msg : string)
| LoginNotFoundError (msg : string)
| LoginAlreadyExistsError (msg : string)
| AWSError (msg : string)
| ClientError (e : Botocore.ClientError)
| IndexError (msg : string).

(** [isinstance(e, PasswordManagerError)]. *)
Definition is_PasswordManagerError (e : Exception) : bool :=
  match e with
  | ValidationError _ | LoginNotFoundError _
  | LoginAlreadyExistsError _ | AWSError _ => true
  | ClientError _ | IndexError _ => false
  end.

(** [str(e)]. *)
Definition str (e : Exception) : string :=
  match e with
  | ValidationError m | LoginNotFoundError m
  | LoginAlreadyExistsError m | AWSError m | IndexError m => m
  | ClientError ce => Botocore.str ce
  end.

End Exceptions.

(* ===================================================================== *)
(** ** The state-and-exception monad *)
(* ===================================================================== *)

Inductive Result (A : Type) : Type :=
| Ok (a : A)
| Raise (e : Exceptions.Exception).
Arguments Ok {A} a.
Arguments Raise {A} e.

(** A computation over a state [S]: the state it leaves is the one reached
  when it returned or raised. *)
Definition M (S A : Type) : Type := S -> Result A * S.

Definition ret {S A : Type} (a : A) : M S A := fun s => (Ok a, s).

Definition raise {S A : Type} (e : Exceptions.Exception) : M S A :=
fun s => (Raise e, s).

Definition bind {S A B : Type} (c : M S A) (k : A -> M S B) : M S B :=
fun s =>
  match c s with
  | (Ok a, s') => k a s'
  | (Raise e, s') => (Raise e, s')
  end.

(** [try: body except ...: handler]; the handler answers [None] for an
  exception that none of its [except] clauses matches, which then
  propagates. *)
Definition try_except {S A : Type} (body : M S A)
         (handler : Exceptions.Exception -> option (M S A)) : M S A :=
fun s =>
  match body s with
  | (Ok a, s') => (Ok a, s')
  | (Raise e, s') =>
      match handler e with
      | Some h => h s'
      | None => (Raise e, s')
      end
  end.

Declare Scope py_scope.
Delimit Scope py_scope with py.
Notation "x <- c ;; k" := (bind c (fun x => k))
(at level 100, c at next level, right associativity) : py_scope.
Notation "c ;;; k" := (bind c (fun _ => k))
(at level 100, right associativity) : py_scope.

(* ===================================================================== *)
(** ** The remote parameter service *)
(* ===================================================================== *)

(** The service behind [boto3.client('ssm')] is not part of the repository.
    It is modelled as an in-memory table of parameters (the way the test
    suite runs it under [moto]) with the behaviour its API documents for the
    five requests the code sends.  A schedule of outages says which of the
    coming requests the service refuses with an error of its own
    (credentials, throttling, network), so that the [else] branches of the
    error translation are exercised too. *)

Module SSM.

(** A [datetime] as the client returns it. *)
Record DateTime : Type := mkDateTime {
  year : nat; month : nat; day : nat;
  hour : nat; minute : nat; second : nat
}.

(** Two decimal digits at least, as [isoformat] prints a field. *)
Definition two_digits (n : nat) : string :=
  if (n <? 10)%nat then "0" ++ Py.str_of_nat n else Py.str_of_nat n.

(** Four decimal digits at least, for the year. *)
Definition four_digits (n : nat) : string :=
  if (n <? 10)%nat then "000" ++ Py.str_of_nat n
  else if (n <? 100)%nat then "00" ++ Py.str_of_nat n
  else if (n <? 1000)%nat then "0" ++ Py.str_of_nat n
  else Py.str_of_nat n.

(** [d.isoformat()] (whole seconds, no zone offset). *)
Definition isoformat (d : DateTime) : string :=
  four_digits (year d) ++ "-" ++ two_digits (month d) ++ "-"
    ++ two_digits (day d) ++ "T" ++ two_digits (hour d) ++ ":"
    ++ two_digits (minute d) ++ ":" ++ two_digits (second d).

(** A tag list [[{'Key': k, 'Value': v}, ...]]. *)
Definition TagList : Type := list (string * string).

(** A stored parameter. *)
Record Stored : Type := mkStored {
  Name : string;
  Value : string;
  Type_ : string;
  Description : option string;
  Tags : TagList;
  Version : nat;
  LastModifiedDate : DateTime
}.

(** The two shapes of [ParameterFilters] entry the code sends, both on the
    key ['Name']: with ['Option': 'BeginsWith'], and without an option
    (which the service reads as equality). *)
Inductive ParameterFilter : Type :=
| NameBeginsWith (Values : list string)
| NameEquals (Values : list string).

(** The requests, with their keyword arguments. *)
Inductive Request : Type :=
| PutParameter (Name Value Type_ : string) (Overwrite : bool)
               (Description : string) (Tags : TagList)
| AddTagsToResource (ResourceType ResourceId : string) (Tags : TagList)
| DeleteParameter (Name : string)
| GetParameter (Name : string) (WithDecryption : bool)
| DescribeParameters (ParameterFilters : list ParameterFilter)
                     (paginated : bool).

(** The operation name botocore reports for a request. *)
Definition operation (r : Request) : string :=
  match r with
  | PutParameter _ _ _ _ _ _ => "PutParameter"
  | AddTagsToResource _ _ _ => "AddTagsToResource"
  | DeleteParameter _ => "DeleteParameter"
  | GetParameter _ _ => "GetParameter"
  | DescribeParameters _ _ => "DescribeParameters"
  end.

(** The service: its table, the outages scheduled for the coming requests
    ([None]: the request is served; [Some (code, message)]: it is refused),
    the requests received so far, its clock and its page size. *)
Record Service : Type := mkService {
  parameters : list Stored;
  outages : list (option (string * string));
  received : list Request;
  now : DateTime;
  page_size : nat
}.

Definition set_parameters (ps : list Stored) (s : Service) : Service :=
  mkService ps (outages s) (received s) (now s) (page_size s).

(** The service takes a request off the wire: it is recorded, and the head
    of the schedule decides whether it is served. *)
Definition receive (r : Request) (s : Service)
  : option Botocore.ClientError * Service :=
  (match hd None (outages s) with
   | Some (code, message) =>
       Some (Botocore.mkClientError code message (operation r))
   | None => None
   end,
   mkService (parameters s) (tl (outages s)) (received s ++ [r])%list
             (now s) (page_size s)).

(** The record stored under a name, if any. *)
Definition lookup (name : string) (ps : list Stored) : option Stored :=
  find (fun p => String.eqb (Name p) name) ps.

(** The table without the records of a name. *)
Definition remove (name : string) (ps : list Stored) : list Stored :=
  filter (fun p => negb (String.eqb (Name p) name)) ps.

(** The table with the record(s) of a name rewritten by [f]. *)
Definition amend (name : string) (f : Stored -> Stored)
           (ps : list Stored) : list Stored :=
  map (fun p => if String.eqb (Name p) name then f p else p) ps.

(** [tags] laid over [old]: a key of [tags] replaces the same key of [old]. *)
Definition merge_tags (old tags : TagList) : TagList :=
  (filter (fun kv => negb (existsb (fun kv' => String.eqb (fst kv') (fst kv))
                                   tags)) old ++ tags)%list.

(** A service error for request [r]. *)
Definition refuse {A : Type} (r : Request) (code message : string)
  : Result A :=
  Raise (Exceptions.ClientError
           (Botocore.mkClientError code message (operation r))).

(** [put_parameter(Name=, Value=, Type=, Overwrite=, Description=, Tags=)];
    answers the version stored.  A new name is appended; an existing one is
    rejected unless [Overwrite], which rewrites value, type and description
    in place and may not come with tags. *)
Definition put_parameter (name value type_ : string) (overwrite : bool)
           (description : string) (tags : TagList) : M Service nat :=
  fun s =>
    let r := PutParameter name value type_ overwrite description tags in
    match receive r s with
    | (Some e, s') => (Raise (Exceptions.ClientError e), s')
    | (None, s') =>
        match lookup name (parameters s') with
        | None =>
            (Ok 1,
             set_parameters
               (parameters s' ++
                  [mkStored name value type_ (Some description) tags 1
                            (now s')])%list s')
        | Some p =>
            if negb overwrite then
              (refuse r "ParameterAlreadyExists"
                      "The parameter already exists. To overwrite this value, set the overwrite option in the request to true.",
               s')
            else
              match tags with
              | _ :: _ =>
                  (refuse r "ValidationException"
                          "Invalid request: tags and overwrite can't be used together.",
                   s')
              | [] =>
                  (Ok (S (Version p)),
                   set_parameters
                     (amend name
                        (fun q => mkStored (Name q) value type_
                                    (Some description) (Tags q)
                                    (S (Version q)) (now s'))
                        (parameters s')) s')
              end
        end
    end.

(** [add_tags_to_resource(ResourceType='Parameter', ResourceId=, Tags=)]. *)
Definition add_tags_to_resource (resource_type resource_id : string)
           (tags : TagList) : M Service unit :=
  fun s =>
    let r := AddTagsToResource resource_type resource_id tags in
    match receive r s with
    | (Some e, s') => (Raise (Exceptions.ClientError e), s')
    | (None, s') =>
        match lookup resource_id (parameters s') with
        | None =>
            (refuse r "InvalidResourceId"
                    "The resource ID is not valid. Verify that you entered the correct ID and try again.",
             s')
        | Some _ =>
            (Ok tt,
             set_parameters
               (amend resource_id
                  (fun q => mkStored (Name q) (Value q) (Type_ q)
                              (Description q) (merge_tags (Tags q) tags)
                              (Version q) (LastModifiedDate q))
                  (parameters s')) s')
        end
    end.

(** [delete_parameter(Name=)]. *)
Definition delete_parameter (name : string) : M Service unit :=
  fun s =>
    let r := DeleteParameter name in
    match receive r s with
    | (Some e, s') => (Raise (Exceptions.ClientError e), s')
    | (None, s') =>
        match lookup name (parameters s') with
        | None => (refuse r "ParameterNotFound" "Parameter not found.", s')
        | Some _ => (Ok tt, set_parameters (remove name (parameters s')) s')
        end
    end.

(** [get_parameter(Name=, WithDecryption=True)]: the stored record, its
    value in the clear. *)
Definition get_parameter (name : string) (with_decryption : bool)
  : M Service Stored :=
  fun s =>
    let r := GetParameter name with_decryption in
    match receive r s with
    | (Some e, s') => (Raise (Exceptions.ClientError e), s')
    | (None, s') =>
        match lookup name (parameters s') with
        | None => (refuse r "ParameterNotFound" "Parameter not found.", s')
        | Some p => (Ok p, s')
        end
    end.

(** Whether a record passes one filter. *)
Definition passes (f : ParameterFilter) (p : Stored) : bool :=
  match f with
  | NameBeginsWith values =>
      existsb (fun v => String.prefix v (Name p)) values
  | NameEquals values =>
      existsb (fun v => String.eqb v (Name p)) values
  end.

(** The records that pass every filter, in table order. *)
Definition matching (fs : list ParameterFilter) (ps : list Stored)
  : list Stored :=
  filter (fun p => forallb (fun f => passes f p) fs) ps.

(** [l] cut into consecutive pages of [size] entries (the last one may be
    shorter); [fuel] bounds the number of pages. *)
Fixpoint pages_of {A : Type} (fuel size : nat) (l : list A)
  : list (list A) :=
  match fuel, l with
  | 0, _ => []
  | _, [] => []
  | S fuel', _ :: _ =>
      firstn size l :: pages_of fuel' size (skipn size l)
  end.

(** The pages of a listing: at least one entry per page. *)
Definition paging (s : Service) (l : list Stored)
  : list (list Stored) :=
  pages_of (length l) (Nat.max 1 (page_size s)) l.

(** [describe_parameters(ParameterFilters=)]: the ['Parameters'] of the
    first page of matches. *)
Definition describe_parameters (filters : list ParameterFilter)
  : M Service (list Stored) :=
  fun s =>
    match receive (DescribeParameters filters false) s with
    | (Some e, s') => (Raise (Exceptions.ClientError e), s')
    | (None, s') =>
        (Ok (hd [] (paging s' (matching filters (parameters s')))), s')
    end.

(** [get_paginator('describe_parameters').paginate(ParameterFilters=)]:
    the ['Parameters'] of every page, page by page. *)
Definition paginate (filters : list ParameterFilter)
  : M Service (list (list Stored)) :=
  fun s =>
    match receive (DescribeParameters filters true) s with
    | (Some e, s') => (Raise (Exceptions.ClientError e), s')
    | (None, s') =>
        (Ok (paging s' (matching filters (parameters s'))), s')
    end.

End SSM.

(* ===================================================================== *)
(** ** The [secrets] module *)
(* ===================================================================== *)

Module Secrets.

(** The system's entropy: the raw draw it hands out at each position, and
    the position of the next draw. *)
Record Source : Type := mkSource {
  bits : nat -> nat;
  position : nat
}.

(** [secrets.randbelow(n)] for [0 < n]: the raw draw at the current
    position, brought into the range. *)
Definition randbelow (n : nat) : M Source nat :=
  fun s => (Ok (bits s (position s) mod n),
            mkSource (bits s) (S (position s))).

(** [secrets.choice(seq)] on a [str]. *)
Definition choice (seq : string) : M Source ascii :=
  if negb (Py.truthy seq) then
    raise (Exceptions.IndexError "Cannot choose from an empty sequence")
  else
    (i <- randbelow (Py.len seq) ;;
     match Py.item i seq with
     | Some c => ret c
     | None => raise (Exceptions.IndexError "string index out of range")
     end)%py.

End Secrets.

(* ===================================================================== *)
(** ** What a manager acts on *)
(* ===================================================================== *)

(** The remote service and the entropy source. *)
Record World : Type := mkWorld {
  ssm : SSM.Service;
  entropy : Secrets.Source
}.

(** A request to the service, run in the world. *)
Definition remote {A : Type} (c : M SSM.Service A) : M World A :=
  fun w =>
    match c (ssm w) with
    | (r, s') => (r, mkWorld s' (entropy w))
    end.

(** A draw from the entropy source, run in the world. *)
Definition draw {A : Type} (c : M Secrets.Source A) : M World A :=
  fun w =>
    match c (entropy w) with
    | (r, e') => (r, mkWorld (ssm w) e')
    end.

(* ===================================================================== *)
(** ** password_manager.py: class PasswordManager *)
(* ===================================================================== *)

Module PasswordManager.

Import Exceptions.

(** The attributes [__init__] sets ([self.ssm] is the client of the world's
    service). *)
Record self : Type := mkSelf {
  prefix : string
}.

(** [string.ascii_letters]. *)
Definition ascii_letters : string :=
  "abcdefghijklmnopqrstuvwxyzABCDEFGHIJKLMNOPQRSTUVWXYZ".

(** [string.digits]. *)
Definition digits : string := "0123456789".

(** [alphabet] of [_generate_password]. *)
Definition alphabet : string := ascii_letters ++ digits ++ "!@#$%^&*".

(** [''.join(secrets.choice(alphabet) for _ in range(n))]. *)
Fixpoint join_choices (n : nat) : M World string :=
  match n with
  | 0 => ret ""
  | S k =>
      (c <- draw (Secrets.choice alphabet) ;;
       rest <- join_choices k ;;
       ret (String c rest))%py
  end.

(** [_generate_password(self, length=16)]; [None] is the omitted
    argument. *)
Definition _generate_password (this : self) (length : option Z)
  : M World string :=
  let length := match length with Some l => l | None => 16%Z end in
  let length := if (length <? 8)%Z then 8%Z else length in
  join_choices (Z.to_nat length).

(** The tags written with a login. *)
Definition login_tags (login : string) : SSM.TagList :=
  [("Type", "Password"); ("Login", login)].

(** [list_logins(self)]. *)
Definition list_logins (this : self) : M World (list string) :=
  try_except
    (pages <- remote (SSM.paginate [SSM.NameBeginsWith [prefix this]]) ;;
     let logins :=
       fold_left
         (fun logins page =>
            fold_left
              (fun logins param =>
                 (logins ++ [Py.slice_from (Py.len (prefix this))
                                           (SSM.Name param)])%list)
              page logins)
         pages [] in
     ret (Py.sorted logins))%py
    (fun e =>
       match e with
       | ClientError ce =>
           Some (raise (AWSError ("Failed to list logins: "
                                    ++ Botocore.str ce)))
       | _ => None
       end).

(** [create_login(self, login, password=None)]. *)
Definition create_login (this : self) (login : string)
           (password : option string) : M World string :=
  if negb (Py.truthy login) then
    raise (ValidationError "Login cannot be empty")
  else
    let param_name := prefix this ++ login in
    (password <- match password with
                 | None => _generate_password this None
                 | Some p => ret p
                 end ;;
     try_except
       (remote (SSM.put_parameter param_name password "SecureString" false
                  ("Password for login: " ++ login) (login_tags login)) ;;;
        ret password)
       (fun e =>
          match e with
          | ClientError ce =>
              Some (if String.eqb (Botocore.Code ce) "ParameterAlreadyExists"
                    then raise (LoginAlreadyExistsError
                                  ("Login '" ++ login
                                     ++ "' already exists. Use update to modify existing login."))
                    else raise (AWSError ("Failed to create login: "
                                            ++ Botocore.str ce)))
          | _ => None
          end))%py.

(** [update_login(self, login, password)]. *)
Definition update_login (this : self) (login password : string)
  : M World unit :=
  if negb (Py.truthy login) then
    raise (ValidationError "Login cannot be empty")
  else if negb (Py.truthy password) then
    raise (ValidationError "Password cannot be empty")
  else
    let param_name := prefix this ++ login in
    try_except
      (remote (SSM.put_parameter param_name password "SecureString" true
                 ("Password for login: " ++ login) []) ;;;
       remote (SSM.add_tags_to_resource "Parameter" param_name
                 (login_tags login)))%py
      (fun e =>
         match e with
         | ClientError ce =>
             Some (raise (AWSError ("Failed to update login: "
                                      ++ Botocore.str ce)))
         | _ => None
         end).

(** [delete_login(self, login)]. *)
Definition delete_login (this : self) (login : string) : M World unit :=
  if negb (Py.truthy login) then
    raise (ValidationError "Login cannot be empty")
  else
    let param_name := prefix this ++ login in
    try_except
      (remote (SSM.delete_parameter param_name))
      (fun e =>
         match e with
         | ClientError ce =>
             Some (if String.eqb (Botocore.Code ce) "ParameterNotFound"
                   then raise (LoginNotFoundError
                                 ("Login '" ++ login ++ "' not found"))
                   else raise (AWSError ("Failed to delete login: "
                                           ++ Botocore.str ce)))
         | _ => None
         end).

(** [get_password(self, login)]. *)
Definition get_password (this : self) (login : string) : M World string :=
  if negb (Py.truthy login) then
    raise (ValidationError "Login cannot be empty")
  else
    let param_name := prefix this ++ login in
    try_except
      (response <- remote (SSM.get_parameter param_name true) ;;
       ret (SSM.Value response))%py
      (fun e =>
         match e with
         | ClientError ce =>
             Some (if String.eqb (Botocore.Code ce) "ParameterNotFound"
                   then raise (LoginNotFoundError
                                 ("Login '" ++ login ++ "' not found"))
                   else raise (AWSError ("Failed to get password: "
                                           ++ Botocore.str ce)))
         | _ => None
         end).

(** [rotate_password(self, login, length=16)]; [None] is the omitted
    length. *)
Definition rotate_password (this : self) (login : string)
           (length : option Z) : M World string :=
  if negb (Py.truthy login) then
    raise (ValidationError "Login cannot be empty")
  else
    let length := match length with Some l => l | None => 16%Z end in
    (get_password this login ;;;
     new_password <- _generate_password this (Some length) ;;
     update_login this login new_password ;;;
     ret new_password)%py.

(** [login_exists(self, login)]. *)
Definition login_exists (this : self) (login : string) : M World bool :=
  if negb (Py.truthy login) then
    raise (ValidationError "Login cannot be empty")
  else
    try_except
      (get_password this login ;;; ret true)%py
      (fun e =>
         match e with
         | LoginNotFoundError _ => Some (ret false)
         | _ => None
         end).

(** The dictionary [get_login_info] returns. *)
Record LoginInfo : Type := mkLoginInfo {
  name : string;
  description : string;
  type : string;
  last_modified : string;
  version : nat
}.

(** [get_login_info(self, login)]. *)
Definition get_login_info (this : self) (login : string)
  : M World LoginInfo :=
  if negb (Py.truthy login) then
    raise (ValidationError "Login cannot be empty")
  else
    let param_name := prefix this ++ login in
    try_except
      (response <- remote (SSM.describe_parameters
                             [SSM.NameEquals [param_name]]) ;;
       match response with
       | [] => raise (LoginNotFoundError
                        ("Login '" ++ login ++ "' not found"))
       | param :: _ =>
           ret (mkLoginInfo
                  (SSM.Name param)
                  (match SSM.Description param with
                   | Some d => d
                   | None => ""
                   end)
                  (SSM.Type_ param)
                  (SSM.isoformat (SSM.LastModifiedDate param))
                  (SSM.Version param))
       end)%py
      (fun e =>
         match e with
         | ClientError ce =>
             Some (raise (AWSError ("Failed to get login info: "
                                      ++ Botocore.str ce)))
         | _ => None
         end).

End PasswordManager.

(* ===================================================================== *)
(** ** app.py: the [/login] route *)
(* ===================================================================== *)

Module App.

(** The two keys the handler keeps in the signed session cookie. *)
Record Session : Type := mkSession {
  logged_in : option bool;
  username : option string
}.

(** What a request handler acts on: the manager's world, the session, the
    messages flashed to the next page (message, category) and the server
    log (level, message). *)
Record AppState : Type := mkAppState {
  world : World;
  session : Session;
  flashes : list (string * string);
  log : list (string * string)
}.

(** [request.method] and [request.form]. *)
Record Request : Type := mkRequest {
  method : string;
  form : list (string * string)
}.

(** What a view returns. *)
Inductive Response : Type :=
| render_template (template : string)
| redirect (endpoint : string).

(** [logger.<level>(message)]. *)
Definition logger (level message : string) : M AppState unit :=
  fun s => (Ok tt, mkAppState (world s) (session s) (flashes s)
                              (log s ++ [(level, message)])%list).

(** [flash(message, category)]. *)
Definition flash (message category : string) : M AppState unit :=
  fun s => (Ok tt, mkAppState (world s) (session s)
                              (flashes s ++ [(message, category)])%list
                              (log s)).

(** [session['logged_in'] = True; session['username'] = username]. *)
Definition set_session (user : string) : M AppState unit :=
  fun s => (Ok tt, mkAppState (world s) (mkSession (Some true) (Some user))
                              (flashes s) (log s)).

(** A call into the manager, run in the handler's state. *)
Definition manager {A : Type} (c : M World A) : M AppState A :=
  fun s =>
    match c (world s) with
    | (r, w') => (r, mkAppState w' (session s) (flashes s) (log s))
    end.

(** [len(stored_password) if stored_password else 0], printed. *)
Definition printed_length (stored_password : string) : string :=
  Py.str_of_nat (if Py.truthy stored_password then Py.len stored_password
                 else 0).

(** The body of the [try] of [login]; [Some r] is [return r], [None] is
    falling out of the block. *)
Definition login_try (pm : PasswordManager.self) (user password : string)
  : M AppState (option Response) :=
  (logger "info" ("Checking if login exists: '" ++ user ++ "'") ;;;
   exists_ <- manager (PasswordManager.login_exists pm user) ;;
   logger "info" ("Login exists result for '" ++ user ++ "': "
                    ++ Py.str_of_bool exists_) ;;;
   if exists_ then
     (logger "info" ("Attempting to get password for '" ++ user ++ "'") ;;;
      stored_password <- manager (PasswordManager.get_password pm user) ;;
      logger "info" ("Retrieved password for '" ++ user ++ "' (length: "
                       ++ printed_length stored_password ++ ")") ;;;
      if String.eqb password stored_password then
        (logger "info" ("Successful login for '" ++ user ++ "'") ;;;
         set_session user ;;;
         flash ("Welcome, " ++ user ++ "!") "success" ;;;
         ret (Some (redirect "index")))
      else
        (logger "warning"
                ("Password mismatch for '" ++ user ++ "' - provided: "
                   ++ Py.str_of_nat (Py.len password) ++ " chars, stored: "
                   ++ printed_length stored_password ++ " chars") ;;;
         flash "Invalid username or password" "error" ;;;
         ret None))
   else
     (logger "warning" ("Login does not exist: '" ++ user ++ "'") ;;;
      flash "Invalid username or password" "error" ;;;
      ret None))%py.

(** The two [except] clauses of [login]. *)
Definition login_except (user : string) (e : Exceptions.Exception)
  : option (M AppState (option Response)) :=
  if Exceptions.is_PasswordManagerError e then
    Some (logger "error" ("PasswordManagerError during login for '" ++ user
                            ++ "': " ++ Exceptions.str e) ;;;
          flash ("Authentication error: " ++ Exceptions.str e) "error" ;;;
          ret None)%py
  else
    Some (logger "error" ("Unexpected error during login for '" ++ user
                            ++ "': " ++ Exceptions.str e) ;;;
          flash "System error occurred. Please try again." "error" ;;;
          ret None)%py.

(** [login()]: [pm] is the module-level manager, [None] when its
    construction failed.  The rate limit that decorates the route acts
    before the view is entered and is not part of it. *)
Definition login (pm : option PasswordManager.self) (request : Request)
  : M AppState Response :=
  if String.eqb (method request) "POST" then
    let user := Py.strip (Py.dict_get (form request) "username" "") in
    let password := Py.strip (Py.dict_get (form request) "password" "") in
    (logger "info" ("Login attempt for username: '" ++ user ++ "'") ;;;
     match pm with
     | None =>
         logger "error" "PasswordManager not initialized" ;;;
         flash "System error: Password manager not available" "error" ;;;
         ret (render_template "login.html")
     | Some pm =>
         if negb (Py.truthy user) || negb (Py.truthy password) then
           logger "warning"
                  ("Empty credentials provided - username: '" ++ user
                     ++ "', password: "
                     ++ (if Py.truthy password then "***" else "empty")) ;;;
           flash "Please enter both username and password" "error" ;;;
           ret (render_template "login.html")
         else
           returned <- try_except (login_try pm user password)
                                  (login_except user) ;;
           match returned with
           | Some response => ret response
           | None => ret (render_template "login.html")
           end
     end)%py
  else
    ret (render_template "login.html").

End App.

(* ===================================================================== *)
(** ** Vocabulary of the contract *)
(* ===================================================================== *)

Import Exceptions.

(** The key of a login: [f"{self.prefix}{login}"]. *)
Definition key (pm : PasswordManager.self) (login : string) : string :=
  PasswordManager.prefix pm ++ login.

(** The record the store holds under a key. *)
Definition record (w : World) (k : string) : option SSM.Stored :=
  SSM.lookup k (SSM.parameters (ssm w)).

(** Whether the store holds a key. *)
Definition holds (w : World) (k : string) : bool :=
  match record w k with
  | Some _ => true
  | None => false
  end.

(** The value stored under a key. *)
Definition stored_value (w : World) (k : string) : option string :=
  option_map SSM.Value (record w k).

(** The tags stored under a key. *)
Definition stored_tags (w : World) (k : string) : SSM.TagList :=
  match record w k with
  | Some p => SSM.Tags p
  | None => []
  end.

(** How many records the store keeps under a key. *)
Definition records (w : World) (k : string) : nat :=
  length (filter (fun p => String.eqb (SSM.Name p) k)
                 (SSM.parameters (ssm w))).

(** The keys of the store, in table order. *)
Definition keys (w : World) : list string :=
  map SSM.Name (SSM.parameters (ssm w)).

(** The requests the service has received. *)
Definition requests (w : World) : list SSM.Request :=
  SSM.received (ssm w).

(** The service serves the next [n] requests: none of them meets an
    outage. *)
Definition served (n : nat) (w : World) : bool :=
  forallb (fun o => match o with None => true | Some _ => false end)
          (firstn n (SSM.outages (ssm w))).

(** The service refuses the next request with [code] and [message]. *)
Definition refused (code message : string) (w : World) : Prop :=
  hd None (SSM.outages (ssm w)) = Some (code, message).

(** The world once the service has taken [r] off the wire, the table
    untouched. *)
Definition heard (r : SSM.Request) (w : World) : World :=
  mkWorld (snd (SSM.receive r (ssm w))) (entropy w).

(** The world with another table. *)
Definition with_table (ps : list SSM.Stored) (w : World) : World :=
  mkWorld (SSM.set_parameters ps (ssm w)) (entropy w).

(** The description written with a login. *)
Definition description_of (login : string) : string :=
  "Password for login: " ++ login.

(** The request [create_login] sends. *)
Definition create_request (pm : PasswordManager.self)
           (login password : string) : SSM.Request :=
  SSM.PutParameter (key pm login) password "SecureString" false
                   (description_of login) (PasswordManager.login_tags login).

(** The two requests [update_login] sends. *)
Definition update_request (pm : PasswordManager.self)
           (login password : string) : SSM.Request :=
  SSM.PutParameter (key pm login) password "SecureString" true
                   (description_of login) [].

Definition tag_request (pm : PasswordManager.self) (login : string)
  : SSM.Request :=
  SSM.AddTagsToResource "Parameter" (key pm login)
                        (PasswordManager.login_tags login).

(** The request [get_password] sends. *)
Definition get_request (pm : PasswordManager.self) (login : string)
  : SSM.Request :=
  SSM.GetParameter (key pm login) true.

(** The request [delete_login] sends. *)
Definition delete_request (pm : PasswordManager.self) (login : string)
  : SSM.Request :=
  SSM.DeleteParameter (key pm login).

(** The request [list_logins] sends. *)
Definition list_request (pm : PasswordManager.self) : SSM.Request :=
  SSM.DescribeParameters [SSM.NameBeginsWith [PasswordManager.prefix pm]]
                         true.

(** The world after a served [create_login] of a new login. *)
Definition created (pm : PasswordManager.self) (login password : string)
           (w : World) : World :=
  with_table
    (SSM.parameters (ssm w) ++
       [SSM.mkStored (key pm login) password "SecureString"
                     (Some (description_of login))
                     (PasswordManager.login_tags login) 1
                     (SSM.now (ssm w))])%list
    (heard (create_request pm login password) w).

(** The world after the served value write of [update_login]. *)
Definition overwritten (pm : PasswordManager.self) (login password : string)
           (w : World) : World :=
  with_table
    (match record w (key pm login) with
     | None =>
         (SSM.parameters (ssm w) ++
            [SSM.mkStored (key pm login) password "SecureString"
                          (Some (description_of login)) [] 1
                          (SSM.now (ssm w))])%list
     | Some _ =>
         SSM.amend (key pm login)
           (fun q => SSM.mkStored (SSM.Name q) password "SecureString"
                       (Some (description_of login)) (SSM.Tags q)
                       (S (SSM.Version q)) (SSM.now (ssm w)))
           (SSM.parameters (ssm w))
     end)
    (heard (update_request pm login password) w).

(** The world after the served tag write of [update_login]. *)
Definition tagged (pm : PasswordManager.self) (login : string) (w : World)
  : World :=
  with_table
    (SSM.amend (key pm login)
       (fun q => SSM.mkStored (SSM.Name q) (SSM.Value q) (SSM.Type_ q)
                   (SSM.Description q)
                   (SSM.merge_tags (SSM.Tags q)
                                   (PasswordManager.login_tags login))
                   (SSM.Version q) (SSM.LastModifiedDate q))
       (SSM.parameters (ssm w)))
    (heard (tag_request pm login) w).

(** The world after a served [delete_login] of a held login. *)
Definition deleted (pm : PasswordManager.self) (login : string) (w : World)
  : World :=
  with_table (SSM.remove (key pm login) (SSM.parameters (ssm w)))
             (heard (delete_request pm login) w).

(** The names under the prefix of a manager, the prefix stripped, in table
    order. *)
Definition listed (pm : PasswordManager.self) (w : World) : list string :=
  map (fun p => Py.slice_from (Py.len (PasswordManager.prefix pm))
                              (SSM.Name p))
      (filter (fun p => String.prefix (PasswordManager.prefix pm)
                                      (SSM.Name p))
              (SSM.parameters (ssm w))).


(** The world after [n] draws from the entropy source. *)
Definition drawn (n : nat) (w : World) : World :=
  mkWorld (ssm w)
          (Secrets.mkSource (Secrets.bits (entropy w))
                            (n + Secrets.position (entropy w))).

(** The index the [i]-th coming draw selects in a sequence of [m]
    items. *)
Definition pick (w : World) (m i : nat) : nat :=
  Secrets.bits (entropy w) (i + Secrets.position (entropy w)) mod m.

(** The password spelt by a list of indices into the alphabet. *)
Fixpoint spell (indices : list nat) : string :=
  match indices with
  | [] => ""
  | i :: rest =>
      match Py.item i PasswordManager.alphabet with
      | Some c => String c (spell rest)
      | None => spell rest
      end
  end.



(** Every character of a string is in the alphabet. *)
Definition over_alphabet (s : string) : bool :=
  forallb (fun c => existsb (Ascii.eqb c)
                            (list_ascii_of_string PasswordManager.alphabet))
          (list_ascii_of_string s).

(** The length [_generate_password] enforces for a requested one. *)
Definition enforced (length : option Z) : nat :=
  Z.to_nat (Z.max (match length with Some l => l | None => 16%Z end) 8).

(** The operations of the manager. *)
Inductive Operation : Type :=
| List_
| Create (login : string) (password : option string)
| Update (login password : string)
| Delete (login : string)
| Get (login : string)
| Exists (login : string)
| Rotate (login : string) (length : option Z)
| Info (login : string).

(** The exception a result carries, if any. *)
Definition raised {A : Type} (r : Result A) : option Exception :=
  match r with
  | Ok _ => None
  | Raise e => Some e
  end.

(** One operation run by a manager: the exception it raised, if any, and
    the world it left. *)
Definition run (pm : PasswordManager.self) (op : Operation) (w : World)
  : option Exception * World :=
  match op with
  | List_ => let (r, w') := PasswordManager.list_logins pm w in (raised r, w')
  | Create login password =>
      let (r, w') := PasswordManager.create_login pm login password w in
      (raised r, w')
  | Update login password =>
      let (r, w') := PasswordManager.update_login pm login password w in
      (raised r, w')
  | Delete login =>
      let (r, w') := PasswordManager.delete_login pm login w in (raised r, w')
  | Get login =>
      let (r, w') := PasswordManager.get_password pm login w in (raised r, w')
  | Exists login =>
      let (r, w') := PasswordManager.login_exists pm login w in (raised r, w')
  | Rotate login length =>
      let (r, w') := PasswordManager.rotate_password pm login length w in
      (raised r, w')
  | Info login =>
      let (r, w') := PasswordManager.get_login_info pm login w in
      (raised r, w')
  end.

(** A required argument of the operation is empty. *)
Definition has_empty_argument (op : Operation) : bool :=
  match op with
  | List_ => false
  | Create login _ | Delete login | Get login | Exists login
  | Rotate login _ | Info login => negb (Py.truthy login)
  | Update login password =>
      negb (Py.truthy login) || negb (Py.truthy password)
  end.

(** A sequence of operations, each by a manager of its own prefix. *)
Fixpoint run_all (script : list (PasswordManager.self * Operation))
         (w : World) : World :=
  match script with
  | [] => w
  | (pm, op) :: rest => run_all rest (snd (run pm op w))
  end.

(** [needle in haystack] on [str]. *)
Definition contains (haystack needle : string) : bool :=
  match String.index 0 needle haystack with
  | Some _ => true
  | None => false
  end.

(** The messages flashed by a handler run. *)
Definition flashed (s s' : App.AppState) : list (string * string) :=
  skipn (length (App.flashes s)) (App.flashes s').

(** Sample values: the manager of the default prefix, a service with an
    empty table and no outage, an entropy source that always draws 0, and
    the world made of them. *)
Definition sample_manager : PasswordManager.self :=
  PasswordManager.mkSelf "/passwords/".

Definition sample_service : SSM.Service :=
  SSM.mkService [] [] [] (SSM.mkDateTime 2024 1 1 0 0 0) 10.

Definition sample_source : Secrets.Source :=
  Secrets.mkSource (fun _ => 0) 0.

Definition sample_world : World := mkWorld sample_service sample_source.

(** The sample world with a table and a schedule of outages. *)
Definition sample_with (ps : list SSM.Stored)
           (outages : list (option (string * string))) : World :=
  mkWorld (SSM.mkService ps outages [] (SSM.mkDateTime 2024 1 1 0 0 0) 10)
          sample_source.

(** A record as [create_login] writes it in the sample world. *)
Definition sample_record (login password : string) : SSM.Stored :=
  SSM.mkStored (key sample_manager login) password "SecureString"
               (Some (description_of login))
               (PasswordManager.login_tags login) 1
               (SSM.mkDateTime 2024 1 1 0 0 0).

(** A handler state over a world: nobody logged in, nothing flashed or
    logged yet. *)
Definition fresh_state (w : World) : App.AppState :=
  App.mkAppState w (App.mkSession None None) [] [].

(** A login POST with the two form fields. *)
Definition login_post (user password : string) : App.Request :=
  App.mkRequest "POST" [("username", user); ("password", password)].

(** The state of [login] when it enters its [try] block: the attempt has
    been logged. *)
Definition attempted (user : string) (s : App.AppState) : App.AppState :=
  snd (App.logger "info" ("Login attempt for username: '" ++ user ++ "'") s).

(** The state [login] leaves after an [except] clause ran on [s1]: one
    entry logged, one message flashed. *)
Definition reported (entry message : string) (s1 : App.AppState)
  : App.AppState :=
  App.mkAppState (App.world s1) (App.session s1)
                 (App.flashes s1 ++ [(message, "error")])%list
                 (App.log s1 ++ [("error", entry)])%list.

(** [c] returns values in [good] and raises exceptions in [bad]. *)
Definition yields {S A : Type} (c : M S A) (good : A -> Prop)
           (bad : Exception -> Prop) : Prop :=
  forall s, match fst (c s) with
            | Ok a => good a
            | Raise e => bad e
            end.

(** [c] keeps the property [P] of the state, however it ends. *)
Definition preserves {S A : Type} (P : S -> Prop) (c : M S A) : Prop :=
  forall s, P s -> P (snd (c s)).

Definition anything {A : Type} : A -> Prop := fun _ => True.

Definition nothing {A : Type} : A -> Prop := fun _ => False.

(** Being a [ClientError], the only thing a request raises. *)
Definition client_error (e : Exception) : Prop :=
  match e with
  | ClientError _ => True
  | _ => False
  end.

(** The kinds of exception a manager lets out. *)
Definition transport_error (e : Exception) : Prop :=
  match e with
  | AWSError _ => True
  | _ => False
  end.

Definition absent_or_transport (e : Exception) : Prop :=
  match e with
  | LoginNotFoundError _ | AWSError _ => True
  | _ => False
  end.

Definition duplicate_or_transport (e : Exception) : Prop :=
  match e with
  | LoginAlreadyExistsError _ | AWSError _ => True
  | _ => False
  end.

(** The table has one record per name at most. *)
Definition unique (w : World) : Prop := NoDup (keys w).

(** The login an operation is about, if any. *)
Definition subject (op : Operation) : option string :=
  match op with
  | List_ => None
  | Create login _ | Update login _ | Delete login | Get login
  | Exists login | Rotate login _ | Info login => Some login
  end.



(** The user name and the password [login] reads from the form. *)
Definition submitted_user (request : App.Request) : string :=
  Py.strip (Py.dict_get (App.form request) "username" "").

Definition submitted_password (request : App.Request) : string :=
  Py.strip (Py.dict_get (App.form request) "password" "").

(* ===================================================================== *)
(** ** password_manager.py (the command line): [main] *)
(* ===================================================================== *)

Module CLI.

(** What [boto3.client] finds when a manager is built: with no
    credentials it raises [NoCredentialsError]. *)
Record Environment : Type := mkEnvironment {
  credentials : bool
}.

(** [PasswordManager.__init__(self, prefix, region)]: the client is
    requested with the region when one is given and without it otherwise;
    a [NoCredentialsError] becomes an [AWSError]. *)
Definition __init__ (env : Environment) (prefix : string)
           (region : option string) : Result PasswordManager.self :=
  let client :=
    match region with
    | Some r => if Py.truthy r then credentials env else credentials env
    | None => credentials env
    end in
  if client then Ok (PasswordManager.mkSelf prefix)
  else Raise (AWSError
                "AWS credentials not configured. Please configure AWS CLI or set environment variables.").

(** The subcommand chosen, with the arguments of its parser. *)
Inductive Command : Type :=
| list_
| create (login : string) (password : option string)
| update (login password : string)
| delete (login : string)
| rotate (login : string) (length : Z)
| exists_ (login : string)
| info (login : string).

(** The namespace [parser.parse_args()] returns. *)
Record Namespace : Type := mkNamespace {
  prefix : string;
  region : option string;
  command : option Command
}.

(** What a run acts on: the manager's world and the lines printed. *)
Record Terminal : Type := mkTerminal {
  world : World;
  stdout : list string
}.

(** [print(line)]. *)
Definition print (line : string) : M Terminal unit :=
  fun t => (Ok tt, mkTerminal (world t) (stdout t ++ [line])%list).

(** A call into the manager, run at the terminal. *)
Definition manager {A : Type} (c : M World A) : M Terminal A :=
  fun t =>
    match c (world t) with
    | (r, w') => (r, mkTerminal w' (stdout t))
    end.

(** [for login in logins: print(f"  - {login}")]. *)
Fixpoint print_logins (logins : list string) : M Terminal unit :=
  match logins with
  | [] => ret tt
  | login :: rest => (print ("  - " ++ login) ;;; print_logins rest)%py
  end.

(** The branch of [main] for one subcommand. *)
Definition dispatch (pm : PasswordManager.self) (cmd : Command)
  : M Terminal unit :=
  match cmd with
  | list_ =>
      (logins <- manager (PasswordManager.list_logins pm) ;;
       match logins with
       | _ :: _ => print "Available logins:" ;;; print_logins logins
       | [] => print "No logins found"
       end)%py
  | create login password =>
      (stored <- manager (PasswordManager.create_login pm login password) ;;
       if match password with
          | Some p => Py.truthy p
          | None => false
          end
       then print ("Login '" ++ login ++ "' created successfully")
       else print ("Login '" ++ login
                     ++ "' created with generated password: " ++ stored))%py
  | update login password =>
      (manager (PasswordManager.update_login pm login password) ;;;
       print ("Password for login '" ++ login ++ "' updated successfully"))%py
  | delete login =>
      (manager (PasswordManager.delete_login pm login) ;;;
       print ("Login '" ++ login ++ "' deleted successfully"))%py
  | rotate login length =>
      (new_password <-
         manager (PasswordManager.rotate_password pm login (Some length)) ;;
       print ("Password for login '" ++ login
                ++ "' rotated. New password: " ++ new_password))%py
  | exists_ login =>
      (found <- manager (PasswordManager.login_exists pm login) ;;
       if found then print ("Login '" ++ login ++ "' exists")
       else print ("Login '" ++ login ++ "' does not exist"))%py
  | info login =>
      (details <- manager (PasswordManager.get_login_info pm login) ;;
       print ("Login information for '" ++ login ++ "':") ;;;
       print ("  Name: " ++ PasswordManager.name details) ;;;
       print ("  Description: " ++ PasswordManager.description details) ;;;
       print ("  Type: " ++ PasswordManager.type details) ;;;
       print ("  Last Modified: " ++ PasswordManager.last_modified details) ;;;
       print ("  Version: "
                ++ Py.str_of_nat (PasswordManager.version details)))%py
  end.

(** The [try] block of [main]. *)
Definition main_try (env : Environment) (args : Namespace) (cmd : Command)
  : M Terminal unit :=
  fun t =>
    match __init__ env (prefix args) (region args) with
    | Ok pm => dispatch pm cmd t
    | Raise e => (Raise e, t)
    end.

(** [main()], after the arguments are parsed: the exit status (0 when
    [main] returns, 1 from [sys.exit(1)]) and the terminal it leaves.
    [usage] is the text [parser.print_help()] prints. *)
Definition main (env : Environment) (usage : string) (args : Namespace)
           (t : Terminal) : nat * Terminal :=
  match command args with
  | None => (0, snd (print usage t))
  | Some cmd =>
      match main_try env args cmd t with
      | (Ok _, t') => (0, t')
      | (Raise e, t') =>
          if is_PasswordManagerError e
          then (1, snd (print ("Error: " ++ Exceptions.str e) t'))
          else (1, snd (print ("Unexpected error: " ++ Exceptions.str e) t'))
      end
  end.

(** The operation of the manager behind a subcommand. *)
Definition operation (cmd : Command) : Operation :=
  match cmd with
  | list_ => List_
  | create login password => Create login password
  | update login password => Update login password
  | delete login => Delete login
  | rotate login length => Rotate login (Some length)
  | exists_ login => Exists login
  | info login => Info login
  end.

End CLI.

(* ===================================================================== *)
(** ** The compute service *)
(* ===================================================================== *)

(** The service behind [boto3.client('ec2')], modelled the way the
    parameter service is: a table of instances, a schedule of outages and
    the requests received.  An instance that is [stopped] goes to
    [pending] when it is started; status checks are reported for running
    instances only. *)

Module EC2.

(** An instance as [describe_instances] shows it, with the two status
    checks [describe_instance_status] reports. *)
Record Instance : Type := mkInstance {
  InstanceId : string;
  State : string;
  InstanceType : option string;
  LaunchTime : option SSM.DateTime;
  PrivateIpAddress : option string;
  PublicIpAddress : option string;
  SystemStatus : string;
  InstanceStatus : string
}.

(** The requests, each with its [InstanceIds]. *)
Inductive Request : Type :=
| DescribeInstances (InstanceIds : list string)
| StartInstances (InstanceIds : list string)
| DescribeInstanceStatus (InstanceIds : list string).

Definition operation (r : Request) : string :=
  match r with
  | DescribeInstances _ => "DescribeInstances"
  | StartInstances _ => "StartInstances"
  | DescribeInstanceStatus _ => "DescribeInstanceStatus"
  end.

(** The service; [shown] is the text Python prints for the response to a
    start. *)
Record Service : Type := mkService {
  instances : list Instance;
  outages : list (option (string * string));
  received : list Request;
  shown : string
}.

Definition set_instances (l : list Instance) (s : Service) : Service :=
  mkService l (outages s) (received s) (shown s).

Definition receive (r : Request) (s : Service)
  : option Botocore.ClientError * Service :=
  (match hd None (outages s) with
   | Some (code, message) =>
       Some (Botocore.mkClientError code message (operation r))
   | None => None
   end,
   mkService (instances s) (tl (outages s)) (received s ++ [r])%list
             (shown s)).

Definition lookup (id : string) (l : list Instance) : option Instance :=
  find (fun i => String.eqb (InstanceId i) id) l.

(** The instances of a list of ids, [None] when one of them is unknown. *)
Fixpoint lookup_all (ids : list string) (l : list Instance)
  : option (list Instance) :=
  match ids with
  | [] => Some []
  | id :: rest =>
      match lookup id l, lookup_all rest l with
      | Some i, Some others => Some (i :: others)
      | _, _ => None
      end
  end.

Definition refuse {A : Type} (r : Request) (code message : string)
  : Result A :=
  Raise (Exceptions.ClientError
           (Botocore.mkClientError code message (operation r))).

Definition not_found {A : Type} (r : Request) : Result A :=
  refuse r "InvalidInstanceID.NotFound" "The instance ID does not exist".

(** [describe_instances(InstanceIds=)]: the ['Reservations'], one per
    instance, each with its ['Instances']. *)
Definition describe_instances (ids : list string)
  : M Service (list (list Instance)) :=
  fun s =>
    let r := DescribeInstances ids in
    match receive r s with
    | (Some e, s') => (Raise (Exceptions.ClientError e), s')
    | (None, s') =>
        match lookup_all ids (instances s') with
        | None => (not_found r, s')
        | Some found => (Ok (map (fun i => [i]) found), s')
        end
    end.

(** An instance with another state. *)
Definition with_state (state : string) (i : Instance) : Instance :=
  mkInstance (InstanceId i) state (InstanceType i) (LaunchTime i)
             (PrivateIpAddress i) (PublicIpAddress i)
             (SystemStatus i) (InstanceStatus i).

(** Whether an instance can be started as it is. *)
Definition startable (i : Instance) : bool :=
  String.eqb (State i) "stopped" || String.eqb (State i) "pending"
  || String.eqb (State i) "running".

(** [start_instances(InstanceIds=)]: the text of the response.  A stopped
    instance becomes pending; one that is pending or running stays as it
    is; in any other state the request is refused. *)
Definition start_instances (ids : list string) : M Service string :=
  fun s =>
    let r := StartInstances ids in
    match receive r s with
    | (Some e, s') => (Raise (Exceptions.ClientError e), s')
    | (None, s') =>
        match lookup_all ids (instances s') with
        | None => (not_found r, s')
        | Some found =>
            if forallb startable found then
              (Ok (shown s'),
               set_instances
                 (map (fun i =>
                         if existsb (String.eqb (InstanceId i)) ids
                            && String.eqb (State i) "stopped"
                         then with_state "pending" i else i)
                      (instances s')) s')
            else
              (refuse r "IncorrectInstanceState"
                      "The instance is not in a state from which it can be started.",
               s')
        end
    end.

(** [describe_instance_status(InstanceIds=)]: the ['InstanceStatuses'],
    the pair of [SystemStatus] and [InstanceStatus] of each running
    instance. *)
Definition describe_instance_status (ids : list string)
  : M Service (list (string * string)) :=
  fun s =>
    let r := DescribeInstanceStatus ids in
    match receive r s with
    | (Some e, s') => (Raise (Exceptions.ClientError e), s')
    | (None, s') =>
        match lookup_all ids (instances s') with
        | None => (not_found r, s')
        | Some found =>
            (Ok (map (fun i => (SystemStatus i, InstanceStatus i))
                     (filter (fun i => String.eqb (State i) "running")
                             found)),
             s')
        end
    end.

End EC2.

(* ===================================================================== *)
(** ** app.py: the dashboard, [get_instance_status] and [/logout] *)
(* ===================================================================== *)

Module Dashboard.

(** A value of the status dictionary. *)
Inductive Value : Type :=
| Str (s : string)
| Bool (b : bool)
| Date (d : SSM.DateTime).

(** A dictionary, keys in insertion order. *)
Definition Dict : Type := list (string * Value).

(** [d[key]] when the key is there. *)
Fixpoint item (d : Dict) (key : string) : option Value :=
  match d with
  | [] => None
  | (k, v) :: rest => if String.eqb k key then Some v else item rest key
  end.

(** What the views act on: the handler state of [App] and the compute
    service. *)
Record Site : Type := mkSite {
  app : App.AppState;
  ec2 : EC2.Service
}.

(** [logger.<level>(message)]. *)
Definition logger (level message : string) : M Site unit :=
  fun s => (Ok tt,
            mkSite (snd (App.logger level message (app s))) (ec2 s)).

(** [flash(message, category)]. *)
Definition flash (message category : string) : M Site unit :=
  fun s => (Ok tt,
            mkSite (snd (App.flash message category (app s))) (ec2 s)).

(** A request to the compute service. *)
Definition client {A : Type} (c : M EC2.Service A) : M Site A :=
  fun s =>
    match c (ec2 s) with
    | (r, e') => (r, mkSite (app s) e')
    end.

(** [l[0]]. *)
Definition first {A S : Type} (l : list A) : M S A :=
  match l with
  | x :: _ => ret x
  | [] => raise (Exceptions.IndexError "list index out of range")
  end.

(** [d.get(key, 'N/A')] on an instance, for a string field. *)
Definition or_na (field : option string) : Value :=
  match field with
  | Some v => Str v
  | None => Str "N/A"
  end.

(** The [try] block of [get_instance_status]. *)
Definition status_try (instance_id : string) : M Site Dict :=
  (logger "info" ("Checking status for instance: " ++ instance_id) ;;;
   reservations <- client (EC2.describe_instances [instance_id]) ;;
   match reservations with
   | [] =>
       ret [("status", Str "not_found"); ("state", Str "N/A");
            ("error", Str ("Instance " ++ instance_id ++ " not found"))]
   | reservation :: _ =>
       instance <- first reservation ;;
       let instance_state := EC2.State instance in
       started <-
         (if String.eqb instance_state "stopped" then
            logger "info" ("Instance " ++ instance_id
                             ++ " is stopped. Attempting to start it automatically.") ;;;
            try_except
              (start_response <- client (EC2.start_instances [instance_id]) ;;
               logger "info" ("Start command sent for instance "
                                ++ instance_id ++ ": " ++ start_response) ;;;
               ret ("pending", true))
              (fun e =>
                 match e with
                 | Exceptions.ClientError start_error =>
                     Some (logger "error"
                                  ("Failed to auto-start instance "
                                     ++ instance_id ++ ": "
                                     ++ Botocore.str start_error) ;;;
                           ret (instance_state, false))
                 | _ => None
                 end)
          else ret (instance_state, false)) ;;
       let instance_state := fst started in
       let auto_started := snd started in
       statuses <- client (EC2.describe_instance_status [instance_id]) ;;
       let status_info :=
         [("instance_id", Str instance_id);
          ("state", Str instance_state);
          ("instance_type", or_na (EC2.InstanceType instance));
          ("launch_time", match EC2.LaunchTime instance with
                          | Some d => Date d
                          | None => Str "N/A"
                          end);
          ("private_ip", or_na (EC2.PrivateIpAddress instance));
          ("public_ip", or_na (EC2.PublicIpAddress instance));
          ("status", Str (if String.eqb instance_state "running"
                          then "running" else instance_state));
          ("auto_started", Bool auto_started)] in
       let status_info :=
         match statuses with
         | status_check :: _ =>
             (status_info
                ++ [("system_status", Str (fst status_check));
                    ("instance_status", Str (snd status_check))])%list
         | [] =>
             (status_info
                ++ [("system_status", Str "N/A");
                    ("instance_status", Str "N/A")])%list
         end in
       logger "info" ("Instance " ++ instance_id ++ " status: "
                        ++ instance_state) ;;;
       ret status_info
   end)%py.

(** The two [except] clauses of [get_instance_status]. *)
Definition status_except (instance_id : string) (e : Exceptions.Exception)
  : option (M Site Dict) :=
  match e with
  | Exceptions.ClientError ce =>
      let error_code := Botocore.Code ce in
      let error_msg :=
        if String.eqb error_code "InvalidInstanceID.NotFound"
        then "Instance " ++ instance_id ++ " not found"
        else if String.eqb error_code "UnauthorizedOperation"
        then "Access denied - insufficient permissions to describe instances"
        else "AWS error: " ++ Botocore.Message ce in
      Some (logger "error" ("Error checking instance " ++ instance_id
                              ++ ": " ++ error_msg) ;;;
            ret [("status", Str "error"); ("state", Str "N/A");
                 ("error", Str error_msg)])%py
  | _ =>
      Some (logger "error" ("Unexpected error checking instance "
                              ++ instance_id ++ ": " ++ Exceptions.str e) ;;;
            ret [("status", Str "error"); ("state", Str "N/A");
                 ("error", Str ("Unexpected error: " ++ Exceptions.str e))])%py
  end.

(** [get_instance_status(instance_id)]; [ec2_client] says whether the
    module-level client was built. *)
Definition get_instance_status (ec2_client : bool) (instance_id : string)
  : M Site Dict :=
  if negb ec2_client || negb (Py.truthy instance_id) then
    ret [("status", Str "unknown"); ("state", Str "N/A");
         ("error",
          Str "EC2 client not available or instance ID not configured")]
  else
    try_except (status_try instance_id) (status_except instance_id).

(** What the dashboard views return. *)
Inductive Response : Type :=
| dashboard (username : option string) (instance_status : option Dict)
            (control_instance_id : option string)
| redirect (endpoint : string).

(** [index()]; [control_instance_id] is
    [os.environ.get('CONTROL_INSTANCE_ID')]. *)
Definition index (ec2_client : bool) (control_instance_id : option string)
  : M Site Response :=
  fun s =>
    match App.logged_in (App.session (app s)) with
    | Some true =>
        (instance_status <-
           match control_instance_id with
           | Some id =>
               if Py.truthy id then
                 (status <- get_instance_status ec2_client id ;;
                  ret (Some status))
               else
                 (logger "warning"
                         "CONTROL_INSTANCE_ID environment variable not set" ;;;
                  ret None)
           | None =>
               (logger "warning"
                       "CONTROL_INSTANCE_ID environment variable not set" ;;;
                ret None)
           end ;;
         ret (dashboard (App.username (App.session (app s)))
                        instance_status control_instance_id))%py s
    | _ => (Ok (redirect "login"), s)
    end.

(** [session.clear()]: the two keys of the session are dropped
    ([App.flashes] records the calls to [flash] and keeps them). *)
Definition session_clear : M Site unit :=
  fun s =>
    (Ok tt,
     mkSite (App.mkAppState (App.world (app s)) (App.mkSession None None)
                            (App.flashes (app s)) (App.log (app s)))
            (ec2 s)).

(** [logout()]. *)
Definition logout : M Site Response :=
  (session_clear ;;;
   flash "You have been logged out" "info" ;;;
   ret (redirect "login"))%py.

(** [login()], run on the site. *)
Definition login (pm : option PasswordManager.self) (request : App.Request)
  : M Site App.Response :=
  fun s =>
    match App.login pm request (app s) with
    | (r, a') => (r, mkSite a' (ec2 s))
    end.

End Dashboard.

(** A running and a stopped instance, and a site over them. *)
Definition sample_instance (id state : string) : EC2.Instance :=
  EC2.mkInstance id state (Some "t3.micro") None (Some "10.0.0.5") None
                 "ok" "ok".

Definition sample_site (instances : list EC2.Instance)
           (outages : list (option (string * string)))
           (session : App.Session) : Dashboard.Site :=
  Dashboard.mkSite
    (App.mkAppState sample_world session [] [])
    (EC2.mkService instances outages [] "{'StartingInstances': [...]}").

(** The requests the compute service has received. *)
Definition compute_requests (s : Dashboard.Site) : list EC2.Request :=
  EC2.received (Dashboard.ec2 s).

(** The state of an instance in the compute service. *)
Definition instance_state (s : Dashboard.Site) (id : string)
  : option string :=
  option_map EC2.State (EC2.lookup id (EC2.instances (Dashboard.ec2 s))).

(** The compute service serves the next [n] requests. *)
Definition compute_served (n : nat) (s : Dashboard.Site) : bool :=
  forallb (fun o => match o with None => true | Some _ => false end)
          (firstn n (EC2.outages (Dashboard.ec2 s))).

(** The instance the compute service keeps under an id. *)
Definition instance_of (s : Dashboard.Site) (id : string)
  : option EC2.Instance :=
  EC2.lookup id (EC2.instances (Dashboard.ec2 s)).

(** The three requests of a status read. *)
Definition describe_request (id : string) : EC2.Request :=
  EC2.DescribeInstances [id].

Definition start_request (id : string) : EC2.Request :=
  EC2.StartInstances [id].

Definition checks_request (id : string) : EC2.Request :=
  EC2.DescribeInstanceStatus [id].

(** Whether a request is a start. *)
Definition is_start (r : EC2.Request) : bool :=
  match r with
  | EC2.StartInstances _ => true
  | _ => false
  end.

(** The site once the compute service has taken [r] off the wire. *)
Definition asked (r : EC2.Request) (s : Dashboard.Site) : Dashboard.Site :=
  Dashboard.mkSite (Dashboard.app s) (snd (EC2.receive r (Dashboard.ec2 s))).

(** The site once the stopped instance [id] was set to pending. *)
Definition booted (id : string) (s : Dashboard.Site) : Dashboard.Site :=
  Dashboard.mkSite
    (Dashboard.app s)
    (EC2.set_instances
       (map (fun i => if existsb (String.eqb (EC2.InstanceId i)) [id]
                         && String.eqb (EC2.State i) "stopped"
                      then EC2.with_state "pending" i else i)
            (EC2.instances (Dashboard.ec2 s)))
       (Dashboard.ec2 s)).

(** The site with one more line in the server log. *)
Definition noted (level message : string) (s : Dashboard.Site)
  : Dashboard.Site :=
  snd (Dashboard.logger level message s).

(** The dictionary [get_instance_status] builds for an instance. *)
Definition status_of (id state : string) (auto_started : bool)
           (i : EC2.Instance) (checks : string * string) : Dashboard.Dict :=
  [("instance_id", Dashboard.Str id);
   ("state", Dashboard.Str state);
   ("instance_type", Dashboard.or_na (EC2.InstanceType i));
   ("launch_time", match EC2.LaunchTime i with
                   | Some d => Dashboard.Date d
                   | None => Dashboard.Str "N/A"
                   end);
   ("private_ip", Dashboard.or_na (EC2.PrivateIpAddress i));
   ("public_ip", Dashboard.or_na (EC2.PublicIpAddress i));
   ("status", Dashboard.Str state);
   ("auto_started", Dashboard.Bool auto_started);
   ("system_status", Dashboard.Str (fst checks));
   ("instance_status", Dashboard.Str (snd checks))].

(** A status dictionary says what it is about: it has a ['status'] and a
    ['state'], both text. *)
Definition reports (d : Dashboard.Dict) : Prop :=
  (exists v, Dashboard.item d "status" = Some (Dashboard.Str v))
  /\ (exists v, Dashboard.item d "state" = Some (Dashboard.Str v)).

(** The message [get_instance_status] gives for an error code of the
    compute service. *)
Definition compute_error (id code message : string) : string :=
  if String.eqb code "InvalidInstanceID.NotFound"
  then "Instance " ++ id ++ " not found"
  else if String.eqb code "UnauthorizedOperation"
  then "Access denied - insufficient permissions to describe instances"
  else "AWS error: " ++ message.

(** The dictionary for an error. *)
Definition error_status (text : string) : Dashboard.Dict :=
  [("status", Dashboard.Str "error"); ("state", Dashboard.Str "N/A");
   ("error", Dashboard.Str text)].

(** Everything of a site but the server log and the compute service. *)
Definition visible (s : Dashboard.Site)
  : World * App.Session * list (string * string) :=
  (App.world (Dashboard.app s), App.session (Dashboard.app s),
   App.flashes (Dashboard.app s)).

(* ===================================================================== *)
(** ** The service, request by request *)
(* ===================================================================== *)

Section Service.

Variables (pm : PasswordManager.self) (w : World).

Lemma served_head n :
  served (S n) w = true -> hd None (SSM.outages (ssm w)) = None.
Proof.
  unfold served. destruct (SSM.outages (ssm w)) as [|[o|] rest]; simpl; auto.
  discriminate.
Qed.

Lemma served_tail n (w' : World) :
  served (S n) w = true ->
  SSM.outages (ssm w') = tl (SSM.outages (ssm w)) ->
  served n w' = true.
Proof.
  unfold served. intros H E. rewrite E.
  destruct (SSM.outages (ssm w)) as [|[o|] rest]; simpl in *.
  - now destruct n.
  - discriminate.
  - exact H.
Qed.

Lemma receive_served r :
  hd None (SSM.outages (ssm w)) = None ->
  SSM.receive r (ssm w) = (None, ssm (heard r w)).
Proof.
  intros H. unfold heard, SSM.receive. simpl. rewrite H. reflexivity.
Qed.

Lemma receive_refused r code message :
  refused code message w ->
  SSM.receive r (ssm w)
  = (Some (Botocore.mkClientError code message (SSM.operation r)),
     ssm (heard r w)).
Proof.
  unfold refused. intros H. unfold heard, SSM.receive. simpl.
  rewrite H. reflexivity.
Qed.

Lemma heard_parameters r :
  SSM.parameters (ssm (heard r w)) = SSM.parameters (ssm w).
Proof. reflexivity. Qed.

Lemma heard_outages r :
  SSM.outages (ssm (heard r w)) = tl (SSM.outages (ssm w)).
Proof. reflexivity. Qed.

Lemma heard_received r :
  requests (heard r w) = (requests w ++ [r])%list.
Proof. reflexivity. Qed.

Lemma heard_entropy r : entropy (heard r w) = entropy w.
Proof. reflexivity. Qed.

Lemma heard_record r k : record (heard r w) k = record w k.
Proof. unfold record. now rewrite heard_parameters. Qed.

Lemma get_password_served login :
  Py.truthy login = true ->
  hd None (SSM.outages (ssm w)) = None ->
  PasswordManager.get_password pm login w
  = (match record w (key pm login) with
     | Some p => Ok (SSM.Value p)
     | None => Raise (LoginNotFoundError ("Login '" ++ login ++ "' not found"))
     end,
     heard (SSM.GetParameter (key pm login) true) w).
Proof.
  intros Hl Hs. unfold PasswordManager.get_password. rewrite Hl. simpl.
  unfold try_except, bind, remote, SSM.get_parameter.
  rewrite (receive_served _ Hs). rewrite heard_parameters.
  fold (key pm login). fold (record w (key pm login)).
  destruct (record w (key pm login)); reflexivity.
Qed.

End Service.

(* ===================================================================== *)
(** ** Reasoning about computations *)
(* ===================================================================== *)

Section Computations.

Context {S A B : Type}.

Lemma yields_ret (a : A) (good : A -> Prop) bad :
  good a -> yields (S := S) (ret a) good bad.
Proof. intros H s. exact H. Qed.

Lemma yields_raise e (good : A -> Prop) (bad : Exception -> Prop) :
  bad e -> yields (S := S) (raise e) good bad.
Proof. intros H s. exact H. Qed.

Lemma yields_bind (c : M S A) (k : A -> M S B) mid good bad :
  yields c mid bad ->
  (forall a, mid a -> yields (k a) good bad) ->
  yields (bind c k) good bad.
Proof.
  intros Hc Hk s. unfold bind. specialize (Hc s).
  destruct (c s) as [[a|e] s']; simpl in *.
  - apply Hk, Hc.
  - exact Hc.
Qed.

Lemma yields_try (body : M S A) handler good caught bad :
  yields body good caught ->
  (forall e, caught e ->
             match handler e with
             | Some h => yields h good bad
             | None => bad e
             end) ->
  yields (try_except body handler) good bad.
Proof.
  intros Hb Hh s. unfold try_except. specialize (Hb s).
  destruct (body s) as [[a|e] s']; simpl in *.
  - exact Hb.
  - specialize (Hh e Hb). destruct (handler e) as [h|].
    + apply Hh.
    + exact Hh.
Qed.

Lemma yields_weaken (c : M S A) (good good' : A -> Prop)
      (bad bad' : Exception -> Prop) :
  yields c good bad ->
  (forall a, good a -> good' a) -> (forall e, bad e -> bad' e) ->
  yields c good' bad'.
Proof.
  intros H Hg Hb s. specialize (H s). destruct (fst (c s)); auto.
Qed.

Lemma preserves_ret (P : S -> Prop) (a : A) : preserves P (ret a).
Proof. intros s H. exact H. Qed.

Lemma preserves_raise (P : S -> Prop) e : preserves P (raise (A := A) e).
Proof. intros s H. exact H. Qed.

Lemma preserves_bind (P : S -> Prop) (c : M S A) (k : A -> M S B) :
  preserves P c -> (forall a, preserves P (k a)) -> preserves P (bind c k).
Proof.
  intros Hc Hk s H. unfold bind. specialize (Hc s H).
  destruct (c s) as [[a|e] s']; simpl in *.
  - apply Hk, Hc.
  - exact Hc.
Qed.

Lemma preserves_try (P : S -> Prop) (body : M S A) handler :
  preserves P body ->
  (forall e h, handler e = Some h -> preserves P h) ->
  preserves P (try_except body handler).
Proof.
  intros Hb Hh s H. unfold try_except. specialize (Hb s H).
  destruct (body s) as [[a|e] s']; simpl in *.
  - exact Hb.
  - destruct (handler e) as [h|] eqn:E.
    + apply (Hh e h E), Hb.
    + exact Hb.
Qed.

End Computations.

Lemma preserves_if {S A : Type} (P : S -> Prop) (b : bool) (c d : M S A) :
  preserves P c -> preserves P d -> preserves P (if b then c else d).
Proof. now destruct b. Qed.

Lemma yields_if {S A : Type} (b : bool) (c d : M S A) good bad :
  (b = true -> yields c good bad) -> (b = false -> yields d good bad) ->
  yields (if b then c else d) good bad.
Proof. destruct b; auto. Qed.

(* ===================================================================== *)
(** ** Password generation *)
(* ===================================================================== *)

Section Generation.

Import PasswordManager.

Lemma get_nth_error (s : string) (i : nat) :
  String.get i s = nth_error (list_ascii_of_string s) i.
Proof.
  revert i. induction s as [|c s IH]; intros [|i]; simpl; auto.
Qed.

Lemma length_list_ascii (s : string) :
  length (list_ascii_of_string s) = String.length s.
Proof. induction s; simpl; auto. Qed.

Lemma item_below (s : string) (i : nat) :
  i < String.length s -> exists c, Py.item i s = Some c.
Proof.
  intros H. unfold Py.item. rewrite get_nth_error.
  destruct (nth_error (list_ascii_of_string s) i) as [c|] eqn:E.
  - now exists c.
  - apply nth_error_None in E. rewrite length_list_ascii in E. lia.
Qed.

Lemma alphabet_length : String.length alphabet = 70.
Proof. reflexivity. Qed.




Lemma pick_below (w : World) (i : nat) : pick w 70 i < 70.
Proof. unfold pick. apply Nat.mod_upper_bound. discriminate. Qed.

Lemma drawn_zero (w : World) : drawn 0 w = w.
Proof. destruct w as [s [b p]]. reflexivity. Qed.

Lemma drawn_succ (n : nat) (w : World) : drawn n (drawn 1 w) = drawn (S n) w.
Proof.
  unfold drawn. simpl. f_equal. f_equal. lia.
Qed.

Lemma pick_drawn (w : World) (m i : nat) :
  pick (drawn 1 w) m i = pick w m (S i).
Proof. unfold pick, drawn. simpl. f_equal. f_equal. lia. Qed.

Lemma choice_spec (items : string) (s : Secrets.Source) (c : ascii) :
  Py.truthy items = true ->
  Py.item (Secrets.bits s (Secrets.position s) mod Py.len items) items
  = Some c ->
  Secrets.choice items s
  = (Ok c, Secrets.mkSource (Secrets.bits s) (S (Secrets.position s))).
Proof.
  intros Ht Hc. unfold Secrets.choice. rewrite Ht. cbn [negb].
  unfold bind, Secrets.randbelow. rewrite Hc. reflexivity.
Qed.

(** One draw selects the alphabet's character at the picked index. *)
Lemma choice_alphabet (w : World) :
  exists c, Py.item (pick w 70 0) alphabet = Some c
            /\ draw (Secrets.choice alphabet) w = (Ok c, drawn 1 w).
Proof.
  destruct (item_below alphabet (pick w 70 0)) as [c Hc].
  { rewrite alphabet_length. apply pick_below. }
  exists c. split; [exact Hc|].
  unfold draw. rewrite (choice_spec alphabet (entropy w) c).
  - reflexivity.
  - reflexivity.
  - exact Hc.
Qed.

Lemma join_choices_spec (n : nat) (w : World) :
  join_choices n w
  = (Ok (spell (map (pick w 70) (seq 0 n))), drawn n w).
Proof.
  revert w. induction n as [|n IH]; intros w.
  - simpl. unfold ret. now rewrite drawn_zero.
  - cbn [join_choices]. unfold bind at 1.
    destruct (choice_alphabet w) as [c [Hc Hd]]. rewrite Hd.
    unfold bind at 1. rewrite IH. unfold ret. rewrite drawn_succ.
    cbn [seq map spell]. rewrite Hc. rewrite <- seq_shift, map_map.
    rewrite (map_ext _ _ (pick_drawn w 70)). reflexivity.
Qed.

Lemma enforced_floor (length : option Z) :
  (let l := match length with Some l => l | None => 16%Z end in
   Z.to_nat (if (l <? 8)%Z then 8%Z else l)) = enforced length.
Proof.
  unfold enforced. cbv zeta.
  destruct (Z.ltb_spec (match length with Some l => l | None => 16%Z end) 8);
    f_equal; lia.
Qed.

Lemma generate_password_spec (pm : self) (length : option Z) (w : World) :
  _generate_password pm length w
  = (Ok (spell (map (pick w 70) (seq 0 (enforced length)))),
     drawn (enforced length) w).
Proof.
  unfold _generate_password. cbv zeta.
  rewrite <- join_choices_spec. f_equal. apply (enforced_floor length).
Qed.

Lemma enforced_at_least_8 (length : option Z) : 8 <= enforced length.
Proof. unfold enforced. lia. Qed.

Lemma spell_cons (d : nat) (ds : list nat) :
  d < 70 ->
  exists c, Py.item d alphabet = Some c /\ spell (d :: ds) = String c (spell ds).
Proof.
  intros H. destruct (item_below alphabet d) as [c Hc].
  { now rewrite alphabet_length. }
  exists c. split; [exact Hc|]. cbn [spell]. now rewrite Hc.
Qed.

Lemma spell_length (ds : list nat) :
  Forall (fun d => d < 70) ds -> String.length (spell ds) = length ds.
Proof.
  induction 1 as [|d ds Hd _ IH].
  - reflexivity.
  - destruct (spell_cons d ds Hd) as [c [_ E]]. rewrite E. simpl.
    now rewrite IH.
Qed.


Lemma spell_over_alphabet (ds : list nat) :
  Forall (fun d => d < 70) ds -> over_alphabet (spell ds) = true.
Proof.
  induction 1 as [|d ds Hd _ IH].
  - reflexivity.
  - destruct (spell_cons d ds Hd) as [c [Hc E]]. rewrite E.
    unfold over_alphabet in *. cbn [list_ascii_of_string forallb].
    rewrite IH, andb_true_r.
    apply existsb_exists. exists c. split; [|apply Ascii.eqb_refl].
    unfold Py.item in Hc. rewrite get_nth_error in Hc.
    eapply nth_error_In, Hc.
Qed.

Lemma picks_below (w : World) (n : nat) :
  Forall (fun d => d < 70) (map (pick w 70) (seq 0 n)).
Proof.
  apply Forall_forall. intros d Hd. apply in_map_iff in Hd.
  destruct Hd as [i [<- _]]. apply pick_below.
Qed.




End Generation.



(* ===================================================================== *)
(** ** The parameter table *)
(* ===================================================================== *)

Section Table.

Implicit Types (ps : list SSM.Stored) (k name : string).

Lemma lookup_app k ps qs :
  SSM.lookup k (ps ++ qs)%list
  = match SSM.lookup k ps with
    | Some p => Some p
    | None => SSM.lookup k qs
    end.
Proof.
  unfold SSM.lookup. induction ps as [|p ps IH]; simpl; auto.
  now destruct (String.eqb (SSM.Name p) k).
Qed.

Lemma lookup_name k ps p :
  SSM.lookup k ps = Some p -> SSM.Name p = k /\ In p ps.
Proof.
  unfold SSM.lookup. intros H. apply find_some in H. destruct H as [Hin E].
  apply String.eqb_eq in E. auto.
Qed.

Lemma lookup_absent k ps :
  SSM.lookup k ps = None <-> ~ In k (map SSM.Name ps).
Proof.
  unfold SSM.lookup. split.
  - intros H Hin. apply in_map_iff in Hin. destruct Hin as [p [E Hp]].
    pose proof (find_none _ _ H p Hp) as N. simpl in N.
    rewrite E, String.eqb_refl in N. discriminate.
  - intros H. destruct (find _ ps) as [p|] eqn:E; [|reflexivity].
    apply find_some in E. destruct E as [Hin E]. apply String.eqb_eq in E.
    exfalso. apply H. rewrite <- E. now apply in_map.
Qed.

Lemma lookup_present k ps :
  (exists p, SSM.lookup k ps = Some p) <-> In k (map SSM.Name ps).
Proof.
  split.
  - intros [p H]. apply lookup_name in H. destruct H as [<- H].
    now apply in_map.
  - intros H. destruct (SSM.lookup k ps) as [p|] eqn:E; [now exists p|].
    apply lookup_absent in E. contradiction.
Qed.

Lemma lookup_amend k name (f : SSM.Stored -> SSM.Stored) ps :
  (forall p, SSM.Name (f p) = SSM.Name p) ->
  SSM.lookup k (SSM.amend name f ps)
  = if String.eqb k name then option_map f (SSM.lookup k ps)
    else SSM.lookup k ps.
Proof.
  intros Hf. unfold SSM.lookup, SSM.amend.
  induction ps as [|p ps IH]; simpl.
  - now destruct (String.eqb k name).
  - destruct (String.eqb_spec (SSM.Name p) name) as [En|En].
    + rewrite Hf. destruct (String.eqb_spec (SSM.Name p) k) as [Ek|Ek].
      * assert (k = name) as -> by congruence.
        now rewrite String.eqb_refl.
      * exact IH.
    + destruct (String.eqb_spec (SSM.Name p) k) as [Ek|Ek].
      * assert (k <> name) as N by congruence.
        apply String.eqb_neq in N. now rewrite N.
      * exact IH.
Qed.

Lemma lookup_remove k name ps :
  SSM.lookup k (SSM.remove name ps)
  = if String.eqb k name then None else SSM.lookup k ps.
Proof.
  unfold SSM.lookup, SSM.remove. induction ps as [|p ps IH]; simpl.
  - now destruct (String.eqb k name).
  - destruct (String.eqb_spec (SSM.Name p) name) as [En|En]; simpl.
    + rewrite IH. destruct (String.eqb_spec k name) as [E|E]; [reflexivity|].
      destruct (String.eqb_spec (SSM.Name p) k); [congruence|reflexivity].
    + destruct (String.eqb_spec (SSM.Name p) k) as [Ek|Ek].
      * assert (k <> name) as N by congruence.
        apply String.eqb_neq in N. now rewrite N.
      * exact IH.
Qed.

Lemma names_amend name (f : SSM.Stored -> SSM.Stored) ps :
  (forall p, SSM.Name (f p) = SSM.Name p) ->
  map SSM.Name (SSM.amend name f ps) = map SSM.Name ps.
Proof.
  intros Hf. unfold SSM.amend. rewrite map_map. apply map_ext.
  intros p. destruct (String.eqb (SSM.Name p) name); auto.
Qed.

Lemma names_remove name ps :
  map SSM.Name (SSM.remove name ps)
  = filter (fun k => negb (String.eqb k name)) (map SSM.Name ps).
Proof.
  unfold SSM.remove. induction ps as [|p ps IH]; simpl; auto.
  destruct (String.eqb (SSM.Name p) name); simpl; now rewrite IH.
Qed.

Lemma names_append ps p :
  NoDup (map SSM.Name ps) ->
  SSM.lookup (SSM.Name p) ps = None ->
  NoDup (map SSM.Name (ps ++ [p])%list).
Proof.
  intros N H. apply lookup_absent in H. rewrite map_app. simpl.
  apply (Permutation_NoDup (l := SSM.Name p :: map SSM.Name ps)).
  - apply Permutation_cons_append.
  - now constructor.
Qed.

Lemma one_record k ps :
  NoDup (map SSM.Name ps) ->
  length (filter (fun p => String.eqb (SSM.Name p) k) ps) <= 1.
Proof.
  induction ps as [|p ps IH]; simpl; intros N.
  - lia.
  - inversion N as [|? ? Hnot N']. subst.
    destruct (String.eqb_spec (SSM.Name p) k) as [E|E].
    + simpl. assert (filter (fun q => String.eqb (SSM.Name q) k) ps = [])
        as ->; [|simpl; lia].
      destruct (filter _ ps) as [|q qs] eqn:F; [reflexivity|].
      assert (In q (filter (fun q => String.eqb (SSM.Name q) k) ps)) as Hq.
      { rewrite F. now left. }
      apply filter_In in Hq. destruct Hq as [Hq Eq].
      apply String.eqb_eq in Eq. exfalso. apply Hnot. rewrite E, <- Eq.
      now apply in_map.
    + now apply IH.
Qed.

End Table.

(* ===================================================================== *)
(** ** The operations when the service answers *)
(* ===================================================================== *)

Section Operations.

Variable pm : PasswordManager.self.

Lemma with_table_record ps (w : World) k :
  record (with_table ps w) k = SSM.lookup k ps.
Proof. reflexivity. Qed.

Lemma with_table_requests ps (w : World) :
  requests (with_table ps w) = requests w.
Proof. reflexivity. Qed.

Lemma with_table_outages ps (w : World) :
  SSM.outages (ssm (with_table ps w)) = SSM.outages (ssm w).
Proof. reflexivity. Qed.


Lemma create_login_given (login password : string) (w : World) :
  Py.truthy login = true ->
  hd None (SSM.outages (ssm w)) = None ->
  PasswordManager.create_login pm login (Some password) w
  = match record w (key pm login) with
    | None => (Ok password, created pm login password w)
    | Some _ =>
        (Raise (LoginAlreadyExistsError
                  ("Login '" ++ login
                     ++ "' already exists. Use update to modify existing login.")),
         heard (create_request pm login password) w)
    end.
Proof.
  intros Hl Hs. unfold PasswordManager.create_login. rewrite Hl.
  cbn [negb]. unfold bind at 1. unfold ret at 1.
  unfold try_except, bind, ret, remote, SSM.put_parameter.
  fold (key pm login). fold (description_of login).
  fold (create_request pm login password).
  rewrite (receive_served _ _ Hs). rewrite heard_parameters.
  fold (record w (key pm login)).
  destruct (record w (key pm login)); reflexivity.
Qed.

Lemma create_login_generated (login : string) (w : World) :
  Py.truthy login = true ->
  PasswordManager.create_login pm login None w
  = PasswordManager.create_login pm login
      (Some (spell (map (pick w 70) (seq 0 16)))) (drawn 16 w).
Proof.
  intros Hl. unfold PasswordManager.create_login. rewrite Hl. cbn [negb].
  unfold bind at 1. rewrite generate_password_spec.
  unfold bind at 2. unfold ret at 2. reflexivity.
Qed.

Lemma update_login_served (login password : string) (w : World) :
  Py.truthy login = true ->
  Py.truthy password = true ->
  served 2 w = true ->
  PasswordManager.update_login pm login password w
  = (Ok tt, tagged pm login (overwritten pm login password w)).
Proof.
  intros Hl Hp Hs. unfold PasswordManager.update_login.
  rewrite Hl, Hp. cbn [negb].
  pose proof (served_head _ _ Hs) as H1.
  assert (served 1 (overwritten pm login password w) = true) as Hs'.
  { apply (served_tail w 1 _ Hs). unfold overwritten.
    rewrite with_table_outages. apply heard_outages. }
  pose proof (served_head _ _ Hs') as H2.
  unfold try_except, bind at 1.
  assert (remote (SSM.put_parameter (PasswordManager.prefix pm ++ login)
                    password "SecureString" true
                    ("Password for login: " ++ login) []) w
          = (Ok (match record w (key pm login) with
                 | None => 1
                 | Some p => S (SSM.Version p)
                 end),
             overwritten pm login password w)) as E1.
  { unfold remote, SSM.put_parameter.
    fold (key pm login). fold (description_of login).
    fold (update_request pm login password).
    rewrite (receive_served _ _ H1). rewrite heard_parameters.
    unfold overwritten. fold (record w (key pm login)).
    destruct (record w (key pm login)); reflexivity. }
  rewrite E1.
  assert (exists p, record (overwritten pm login password w) (key pm login)
                    = Some p) as [p Hp'].
  { unfold overwritten. rewrite with_table_record.
    destruct (record w (key pm login)) as [q|] eqn:R.
    - rewrite lookup_amend by reflexivity. rewrite String.eqb_refl.
      unfold record in R. rewrite R. simpl. eauto.
    - rewrite lookup_app. unfold record in R. rewrite R.
      unfold SSM.lookup. simpl. rewrite String.eqb_refl. eauto. }
  unfold remote, SSM.add_tags_to_resource.
  fold (key pm login). fold (tag_request pm login).
  rewrite (receive_served _ _ H2). rewrite heard_parameters.
  fold (record (overwritten pm login password w) (key pm login)).
  rewrite Hp'. reflexivity.
Qed.

Lemma delete_login_served (login : string) (w : World) :
  Py.truthy login = true ->
  hd None (SSM.outages (ssm w)) = None ->
  PasswordManager.delete_login pm login w
  = match record w (key pm login) with
    | None =>
        (Raise (LoginNotFoundError ("Login '" ++ login ++ "' not found")),
         heard (delete_request pm login) w)
    | Some _ => (Ok tt, deleted pm login w)
    end.
Proof.
  intros Hl Hs. unfold PasswordManager.delete_login. rewrite Hl.
  cbn [negb]. unfold try_except, remote, SSM.delete_parameter.
  fold (key pm login). fold (delete_request pm login).
  rewrite (receive_served _ _ Hs). rewrite heard_parameters.
  fold (record w (key pm login)).
  destruct (record w (key pm login)); reflexivity.
Qed.

(** What the store holds after the operations. *)


Lemma overwritten_value (login password : string) (w : World) :
  stored_value (overwritten pm login password w) (key pm login)
  = Some password.
Proof.
  unfold stored_value, overwritten. rewrite with_table_record.
  destruct (record w (key pm login)) as [q|] eqn:R; unfold record in R.
  - rewrite lookup_amend by reflexivity.
    rewrite String.eqb_refl, R. reflexivity.
  - rewrite lookup_app, R. unfold SSM.lookup. simpl.
    now rewrite String.eqb_refl.
Qed.

Lemma tagged_record (login : string) (w : World) k :
  record (tagged pm login w) k
  = if String.eqb k (key pm login)
    then option_map
           (fun q => SSM.mkStored (SSM.Name q) (SSM.Value q) (SSM.Type_ q)
                       (SSM.Description q)
                       (SSM.merge_tags (SSM.Tags q)
                                       (PasswordManager.login_tags login))
                       (SSM.Version q) (SSM.LastModifiedDate q))
           (record w k)
    else record w k.
Proof.
  unfold tagged. rewrite with_table_record.
  now rewrite lookup_amend by reflexivity.
Qed.

Lemma tagged_value (login : string) (w : World) k :
  stored_value (tagged pm login w) k = stored_value w k.
Proof.
  unfold stored_value. rewrite tagged_record.
  destruct (String.eqb k (key pm login)); [|reflexivity].
  now destruct (record w k).
Qed.

Lemma deleted_record (login : string) (w : World) k :
  record (deleted pm login w) k
  = if String.eqb k (key pm login) then None else record w k.
Proof. unfold deleted. rewrite with_table_record. apply lookup_remove. Qed.

End Operations.

(* ===================================================================== *)
(** ** create *)
(* ===================================================================== *)

Lemma drawn_record n (w : World) k : record (drawn n w) k = record w k.
Proof. reflexivity. Qed.

Lemma holds_false (w : World) k : holds w k = false <-> record w k = None.
Proof. unfold holds. destruct (record w k); split; congruence. Qed.

Lemma holds_true (w : World) k :
  holds w k = true <-> exists p, record w k = Some p.
Proof.
  unfold holds. destruct (record w k) as [p|]; split; try congruence.
  - eauto.
  - intros [? ?]. congruence.
Qed.





(* ===================================================================== *)
(** ** What the requests and the operations may raise *)
(* ===================================================================== *)

Section Raising.

Variable pm : PasswordManager.self.

Ltac request_cases :=
  intros w; unfold remote;
  match goal with
  | |- context [SSM.put_parameter] => unfold SSM.put_parameter
  | |- context [SSM.add_tags_to_resource] => unfold SSM.add_tags_to_resource
  | |- context [SSM.delete_parameter] => unfold SSM.delete_parameter
  | |- context [SSM.get_parameter] => unfold SSM.get_parameter
  | |- context [SSM.describe_parameters] => unfold SSM.describe_parameters
  | |- context [SSM.paginate] => unfold SSM.paginate
  end;
  unfold SSM.receive, SSM.refuse;
  destruct (hd None (SSM.outages (ssm w))) as [[code message]|];
  cbn [fst snd]; try exact I;
  repeat match goal with
         | |- context [match SSM.lookup ?k ?ps with _ => _ end] =>
             destruct (SSM.lookup k ps)
         | |- context [if negb ?b then _ else _] => destruct b; cbn [negb]
         | |- context [match ?t with [] => _ | _ :: _ => _ end] =>
             destruct t
         end;
  cbn [fst snd]; exact I.

Lemma put_parameter_raises name value type_ overwrite description tags :
  yields (remote (SSM.put_parameter name value type_ overwrite description
                                    tags))
         anything client_error.
Proof. request_cases. Qed.

Lemma add_tags_raises resource_type resource_id tags :
  yields (remote (SSM.add_tags_to_resource resource_type resource_id tags))
         anything client_error.
Proof. request_cases. Qed.

Lemma delete_parameter_raises name :
  yields (remote (SSM.delete_parameter name)) anything client_error.
Proof. request_cases. Qed.

Lemma get_parameter_raises name with_decryption :
  yields (remote (SSM.get_parameter name with_decryption))
         anything client_error.
Proof. request_cases. Qed.

Lemma describe_parameters_raises filters :
  yields (remote (SSM.describe_parameters filters)) anything client_error.
Proof. request_cases. Qed.

Lemma paginate_raises filters :
  yields (remote (SSM.paginate filters)) anything client_error.
Proof. request_cases. Qed.

Lemma generate_password_yields requested :
  yields (PasswordManager._generate_password pm requested)
         (fun p => Py.truthy p = true) nothing.
Proof.
  intros w. rewrite generate_password_spec. cbn [fst].
  pose proof (enforced_at_least_8 requested) as H.
  destruct (enforced requested) as [|n]; [lia|].
  cbn [seq map]. destruct (spell_cons (pick w 70 0)
                             (map (pick w 70) (seq 1 n))) as [c [_ E]].
  { apply pick_below. }
  rewrite E. reflexivity.
Qed.

Lemma update_login_yields login password :
  Py.truthy login = true -> Py.truthy password = true ->
  yields (PasswordManager.update_login pm login password)
         anything transport_error.
Proof.
  intros Hl Hp. unfold PasswordManager.update_login. rewrite Hl, Hp.
  cbn [negb]. eapply yields_try.
  - eapply yields_bind.
    + apply put_parameter_raises.
    + intros _ _. apply add_tags_raises.
  - intros [] H; try contradiction. apply yields_raise. exact I.
Qed.

Lemma get_password_yields login :
  Py.truthy login = true ->
  yields (PasswordManager.get_password pm login)
         anything absent_or_transport.
Proof.
  intros Hl. unfold PasswordManager.get_password. rewrite Hl.
  cbn [negb]. eapply yields_try.
  - eapply yields_bind.
    + apply get_parameter_raises.
    + intros a _. apply yields_ret. exact I.
  - intros [] H; try contradiction.
    destruct (String.eqb _ _); apply yields_raise; exact I.
Qed.

Lemma create_login_yields login password :
  Py.truthy login = true ->
  yields (PasswordManager.create_login pm login password)
         anything duplicate_or_transport.
Proof.
  intros Hl. unfold PasswordManager.create_login. rewrite Hl.
  cbn [negb]. eapply yields_bind with (mid := anything).
  - destruct password.
    + apply yields_ret. exact I.
    + eapply yields_weaken; [apply generate_password_yields| |].
      * intros; exact I.
      * intros e [].
  - intros p _. eapply yields_try.
    + eapply yields_bind.
      * apply put_parameter_raises.
      * intros a _. apply yields_ret. exact I.
    + intros [] H; try contradiction.
      destruct (String.eqb _ _); apply yields_raise; exact I.
Qed.

Lemma delete_login_yields login :
  Py.truthy login = true ->
  yields (PasswordManager.delete_login pm login)
         anything absent_or_transport.
Proof.
  intros Hl. unfold PasswordManager.delete_login. rewrite Hl.
  cbn [negb]. eapply yields_try.
  - apply delete_parameter_raises.
  - intros [] H; try contradiction.
    destruct (String.eqb _ _); apply yields_raise; exact I.
Qed.

Lemma login_exists_yields login :
  Py.truthy login = true ->
  yields (PasswordManager.login_exists pm login) anything transport_error.
Proof.
  intros Hl. unfold PasswordManager.login_exists. rewrite Hl.
  cbn [negb]. eapply yields_try.
  - eapply yields_bind.
    + apply (get_password_yields login Hl).
    + intros a _. apply yields_ret. exact I.
  - intros [] H; try contradiction.
    + apply yields_ret. exact I.
    + exact I.
Qed.

Lemma rotate_password_yields login requested :
  Py.truthy login = true ->
  yields (PasswordManager.rotate_password pm login requested)
         anything absent_or_transport.
Proof.
  intros Hl. unfold PasswordManager.rotate_password. rewrite Hl.
  cbn [negb]. eapply yields_bind.
  - apply (get_password_yields login Hl).
  - intros _ _. eapply yields_bind.
    + eapply yields_weaken; [apply generate_password_yields| |].
      * intros a H. exact H.
      * intros e [].
    + intros p Hp. eapply yields_bind.
      * eapply yields_weaken; [apply (update_login_yields login p Hl Hp)| |].
        -- intros a H. exact H.
        -- intros [] H; try contradiction. exact I.
      * intros _ _. apply yields_ret. exact I.
Qed.

Lemma get_login_info_yields login :
  Py.truthy login = true ->
  yields (PasswordManager.get_login_info pm login)
         anything absent_or_transport.
Proof.
  intros Hl. unfold PasswordManager.get_login_info. rewrite Hl.
  cbn [negb].
  eapply yields_try with
    (caught := fun e => client_error e \/ absent_or_transport e).
  - eapply yields_bind.
    + eapply yields_weaken; [apply describe_parameters_raises| |].
      * intros a H. exact H.
      * intros e H. now left.
    + intros [|param rest] _.
      * apply yields_raise. right. exact I.
      * apply yields_ret. exact I.
  - intros [] [H|H]; try contradiction; try exact I.
    apply yields_raise. exact I.
Qed.

Lemma list_logins_yields :
  yields (PasswordManager.list_logins pm) anything transport_error.
Proof.
  unfold PasswordManager.list_logins. eapply yields_try.
  - eapply yields_bind.
    + apply paginate_raises.
    + intros a _. apply yields_ret. exact I.
  - intros [] H; try contradiction. apply yields_raise. exact I.
Qed.

End Raising.

(* ===================================================================== *)
(** ** update *)
(* ===================================================================== *)

Lemma merge_tags_new (old tags : SSM.TagList) (t : string * string) :
  In t tags -> In t (SSM.merge_tags old tags).
Proof. intros H. unfold SSM.merge_tags. apply in_or_app. now right. Qed.

(** The overwriting write is the first request [update_login] sends. *)
Lemma update_login_first_request
      (pm : PasswordManager.self) (login password : string) (w : World) :
  Py.truthy login = true -> Py.truthy password = true ->
  exists rest,
    requests (snd (PasswordManager.update_login pm login password w))
    = (requests w ++ update_request pm login password :: rest)%list.
Proof.
  intros Hl Hp. unfold PasswordManager.update_login. rewrite Hl, Hp.
  cbn [negb]. unfold try_except, bind, remote at 1, SSM.put_parameter.
  fold (key pm login). fold (description_of login).
  fold (update_request pm login password).
  unfold SSM.receive at 1.
  destruct (hd None (SSM.outages (ssm w))) as [[code message]|].
  - exists []. reflexivity.
  - cbn [SSM.parameters negb].
    match goal with
    | |- context [match SSM.lookup ?k ?ps with _ => _ end] =>
        destruct (SSM.lookup k ps)
    end;
      unfold remote, SSM.add_tags_to_resource, SSM.receive;
      cbn [ssm SSM.outages SSM.set_parameters SSM.parameters SSM.received
               SSM.now SSM.page_size];
      match goal with
      | |- context [hd None ?o] => destruct (hd None o) as [[code message]|]
      end;
      try (exists [tag_request pm login]; unfold requests; cbn;
           now rewrite <- app_assoc);
      match goal with
      | |- context [match SSM.lookup ?k ?ps with _ => _ end] =>
          destruct (SSM.lookup k ps)
      end;
      exists [tag_request pm login]; unfold requests; cbn;
      now rewrite <- app_assoc.
Qed.

(** C8: [update_login] raises [ValidationError] when either argument is
    empty.  For non-empty arguments it checks nothing about the store: the
    first request it sends is the overwriting write, and it never raises
    [LoginNotFoundError].  When the service answers its two requests the
    value stored under the name is the new password, whether or not the name
    was held before (an absent record is created), and the request that
    follows the value write lays the tags [Type=Password] and [Login=<name>]
    on the record. *)
Theorem update_overwrites
        (pm : PasswordManager.self) (login password : string) (w : World) :
  (Py.truthy login = false ->
   PasswordManager.update_login pm login password w
   = (Raise (ValidationError "Login cannot be empty"), w))
  /\ (Py.truthy login = true -> Py.truthy password = false ->
      PasswordManager.update_login pm login password w
      = (Raise (ValidationError "Password cannot be empty"), w))
  /\ (Py.truthy login = true -> Py.truthy password = true ->
      (forall msg,
          fst (PasswordManager.update_login pm login password w)
          <> Raise (LoginNotFoundError msg))
      /\ (exists rest,
             requests (snd (PasswordManager.update_login pm login password w))
             = (requests w ++ update_request pm login password :: rest)%list)
      /\ (served 2 w = true ->
          let w' := tagged pm login (overwritten pm login password w) in
          PasswordManager.update_login pm login password w = (Ok tt, w')
          /\ stored_value w' (key pm login) = Some password
          /\ holds w' (key pm login) = true
          /\ In ("Type", "Password") (stored_tags w' (key pm login))
          /\ In ("Login", login) (stored_tags w' (key pm login))
          /\ requests w'
             = (requests w ++ [update_request pm login password;
                               tag_request pm login])%list)).
Proof.
  split; [|split].
  - intros Hl. unfold PasswordManager.update_login. now rewrite Hl.
  - intros Hl Hp. unfold PasswordManager.update_login. now rewrite Hl, Hp.
  - intros Hl Hp. split; [|split].
    + intros msg E. pose proof (update_login_yields pm login password Hl Hp w)
        as Y. rewrite E in Y. exact Y.
    + now apply update_login_first_request.
    + intros Hs w'. split; [now apply update_login_served|].
      assert (stored_value w' (key pm login) = Some password) as V.
      { unfold w'. rewrite tagged_value. apply overwritten_value. }
      split; [exact V|].
      assert (exists q, record (overwritten pm login password w)
                               (key pm login) = Some q) as [q Hq].
      { pose proof (overwritten_value pm login password w) as O.
        unfold stored_value in O.
        destruct (record (overwritten pm login password w) (key pm login))
          as [q|]; [eauto|discriminate]. }
      assert (record w' (key pm login)
              = Some (SSM.mkStored
                        (SSM.Name q) (SSM.Value q) (SSM.Type_ q)
                        (SSM.Description q)
                        (SSM.merge_tags (SSM.Tags q)
                                        (PasswordManager.login_tags login))
                        (SSM.Version q) (SSM.LastModifiedDate q))) as R.
      { unfold w'. rewrite tagged_record, String.eqb_refl, Hq. reflexivity. }
      split; [apply holds_true; eauto|].
      unfold stored_tags. rewrite R. cbn [SSM.Tags].
      split; [apply merge_tags_new; now left|].
      split; [apply merge_tags_new; right; now left|].
      unfold w', tagged, overwritten.
      rewrite !with_table_requests, !heard_received.
      rewrite with_table_requests, heard_received.
      now rewrite <- app_assoc.
Qed.

Lemma update_overwrites_witness :
  PasswordManager.update_login sample_manager "alice" "NewPass1!"
                               sample_world
  = (Ok tt, tagged sample_manager "alice"
                   (overwritten sample_manager "alice" "NewPass1!"
                                sample_world))
  /\ stored_value (tagged sample_manager "alice"
                          (overwritten sample_manager "alice" "NewPass1!"
                                       sample_world))
                  (key sample_manager "alice") = Some "NewPass1!".
Proof.
  destruct (update_overwrites sample_manager "alice" "NewPass1!"
                              sample_world) as [_ [_ H]].
  destruct H as [_ [_ H]]; try reflexivity.
  destruct H as [E [V _]]; try reflexivity.
  split; [exact E|exact V].
Defined.

(* ===================================================================== *)
(** ** One record per name *)
(* ===================================================================== *)

Section Uniqueness.

Variable pm : PasswordManager.self.

Lemma put_parameter_unique name value type_ overwrite description tags :
  preserves unique
            (remote (SSM.put_parameter name value type_ overwrite
                                       description tags)).
Proof.
  intros w U. unfold remote, SSM.put_parameter, SSM.receive, SSM.refuse.
  destruct (hd None (SSM.outages (ssm w))) as [[code message]|];
    [exact U|].
  cbn [SSM.parameters].
  destruct (SSM.lookup name (SSM.parameters (ssm w))) as [p|] eqn:L.
  - destruct overwrite; cbn [negb]; [|exact U].
    destruct tags; [|exact U].
    unfold unique, keys. cbn. now rewrite names_amend.
  - unfold unique, keys. cbn. now apply names_append.
Qed.

Lemma add_tags_unique resource_type resource_id tags :
  preserves unique
            (remote (SSM.add_tags_to_resource resource_type resource_id
                                              tags)).
Proof.
  intros w U. unfold remote, SSM.add_tags_to_resource, SSM.receive,
                SSM.refuse.
  destruct (hd None (SSM.outages (ssm w))) as [[code message]|];
    [exact U|].
  cbn [SSM.parameters].
  destruct (SSM.lookup resource_id (SSM.parameters (ssm w))); [|exact U].
  unfold unique, keys. cbn. now rewrite names_amend.
Qed.

Lemma delete_parameter_unique name :
  preserves unique (remote (SSM.delete_parameter name)).
Proof.
  intros w U. unfold remote, SSM.delete_parameter, SSM.receive, SSM.refuse.
  destruct (hd None (SSM.outages (ssm w))) as [[code message]|];
    [exact U|].
  cbn [SSM.parameters].
  destruct (SSM.lookup name (SSM.parameters (ssm w))); [|exact U].
  unfold unique, keys. cbn. rewrite names_remove. now apply NoDup_filter.
Qed.

Lemma get_parameter_unique name with_decryption :
  preserves unique (remote (SSM.get_parameter name with_decryption)).
Proof.
  intros w U. unfold remote, SSM.get_parameter, SSM.receive, SSM.refuse.
  destruct (hd None (SSM.outages (ssm w))) as [[code message]|];
    [exact U|].
  cbn [SSM.parameters].
  destruct (SSM.lookup name (SSM.parameters (ssm w))); exact U.
Qed.

Lemma describe_parameters_unique filters :
  preserves unique (remote (SSM.describe_parameters filters)).
Proof.
  intros w U. unfold remote, SSM.describe_parameters, SSM.receive.
  destruct (hd None (SSM.outages (ssm w))) as [[code message]|]; exact U.
Qed.

Lemma paginate_unique filters :
  preserves unique (remote (SSM.paginate filters)).
Proof.
  intros w U. unfold remote, SSM.paginate, SSM.receive.
  destruct (hd None (SSM.outages (ssm w))) as [[code message]|]; exact U.
Qed.

Lemma draw_unique {A : Type} (c : M Secrets.Source A) :
  preserves unique (draw c).
Proof. intros w U. unfold draw. now destruct (c (entropy w)). Qed.

Lemma generate_password_unique requested :
  preserves unique (PasswordManager._generate_password pm requested).
Proof. intros w U. now rewrite generate_password_spec. Qed.

Create HintDb unique.

#[local] Hint Resolve preserves_ret preserves_raise put_parameter_unique
     add_tags_unique delete_parameter_unique get_parameter_unique
     describe_parameters_unique paginate_unique generate_password_unique
  : unique.

Ltac handlers :=
  intros e h E; destruct e; try discriminate;
  repeat match type of E with
         | context [if ?b then _ else _] => destruct b
         end;
  injection E as <-; auto with unique.

Ltac compose :=
  repeat first
    [ apply preserves_if
    | apply preserves_bind; [|intros ?]
    | apply preserves_try; [|handlers]
    | solve [auto with unique] ].

Lemma list_logins_unique : preserves unique (PasswordManager.list_logins pm).
Proof. unfold PasswordManager.list_logins. compose. Qed.

Lemma create_login_unique login password :
  preserves unique (PasswordManager.create_login pm login password).
Proof.
  unfold PasswordManager.create_login. compose.
  destruct password; auto with unique.
Qed.

Lemma update_login_unique login password :
  preserves unique (PasswordManager.update_login pm login password).
Proof. unfold PasswordManager.update_login. compose. Qed.

Lemma delete_login_unique login :
  preserves unique (PasswordManager.delete_login pm login).
Proof. unfold PasswordManager.delete_login. compose. Qed.

Lemma get_password_unique login :
  preserves unique (PasswordManager.get_password pm login).
Proof. unfold PasswordManager.get_password. compose. Qed.

Lemma login_exists_unique login :
  preserves unique (PasswordManager.login_exists pm login).
Proof.
  unfold PasswordManager.login_exists. compose.
Qed.

Lemma rotate_password_unique login requested :
  preserves unique (PasswordManager.rotate_password pm login requested).
Proof.
  unfold PasswordManager.rotate_password. compose.
Qed.

Lemma get_login_info_unique login :
  preserves unique (PasswordManager.get_login_info pm login).
Proof.
  unfold PasswordManager.get_login_info. compose.
  destruct a; auto with unique.
Qed.

Lemma run_unique (op : Operation) (w : World) :
  unique w -> unique (snd (run pm op w)).
Proof.
  intros U. destruct op; unfold run.
  - pose proof (list_logins_unique w U) as H.
    now destruct (PasswordManager.list_logins pm w).
  - pose proof (create_login_unique login password w U) as H.
    now destruct (PasswordManager.create_login pm login password w).
  - pose proof (update_login_unique login password w U) as H.
    now destruct (PasswordManager.update_login pm login password w).
  - pose proof (delete_login_unique login w U) as H.
    now destruct (PasswordManager.delete_login pm login w).
  - pose proof (get_password_unique login w U) as H.
    now destruct (PasswordManager.get_password pm login w).
  - pose proof (login_exists_unique login w U) as H.
    now destruct (PasswordManager.login_exists pm login w).
  - pose proof (rotate_password_unique login length w U) as H.
    now destruct (PasswordManager.rotate_password pm login length w).
  - pose proof (get_login_info_unique login w U) as H.
    now destruct (PasswordManager.get_login_info pm login w).
Qed.

End Uniqueness.

Lemma run_all_unique (script : list (PasswordManager.self * Operation))
      (w : World) :
  unique w -> unique (run_all script w).
Proof.
  revert w. induction script as [|[pm op] script IH]; intros w U.
  - exact U.
  - simpl. apply IH. now apply run_unique.
Qed.

Lemma unique_records (w : World) :
  unique w <-> forall k, records w k <= 1.
Proof.
  split.
  - intros U k. now apply one_record.
  - unfold unique, keys, records.
    induction (SSM.parameters (ssm w)) as [|p ps IH]; intros H.
    + constructor.
    + simpl. constructor.
      * intros Hin. apply in_map_iff in Hin. destruct Hin as [q [E Hq]].
        specialize (H (SSM.Name p)). simpl in H.
        rewrite String.eqb_refl in H. simpl in H.
        assert (In q (filter (fun r => String.eqb (SSM.Name r) (SSM.Name p))
                             ps)) as F.
        { apply filter_In. split; [exact Hq|]. now apply String.eqb_eq. }
        destruct (filter _ ps); [contradiction|simpl in H; lia].
      * apply IH. intros k. specialize (H k). simpl in H.
        destruct (String.eqb (SSM.Name p) k); simpl in H; lia.
Qed.

(** C6: for a (non-empty) name the store holds, and any password argument,
    supplied or omitted, [create_login] fails with
    [LoginAlreadyExistsError] and leaves the table, hence the record and its
    value, as they were; and after any sequence of operations, by managers
    of any prefix and whatever the service refuses, a table with at most one
    record per name still has at most one record per name.  The service is
    assumed to answer the request of the rejected creation. *)
Theorem create_rejects_duplicates
        (pm : PasswordManager.self) (login : string)
        (password : option string) (w : World) :
  (Py.truthy login = true ->
   holds w (key pm login) = true ->
   served 1 w = true ->
   exists msg w',
     PasswordManager.create_login pm login password w
     = (Raise (LoginAlreadyExistsError msg), w')
     /\ SSM.parameters (ssm w') = SSM.parameters (ssm w)
     /\ stored_value w' (key pm login) = stored_value w (key pm login))
  /\ (forall script,
         (forall k, records w k <= 1) ->
         forall k, records (run_all script w) k <= 1).
Proof.
  split.
  - intros Hl Hh Hs. apply holds_true in Hh. destruct Hh as [p Hp].
    pose proof (served_head _ _ Hs) as H1.
    destruct password as [given|].
    + rewrite create_login_given by assumption. rewrite Hp.
      eexists. eexists. split; [reflexivity|]. split; reflexivity.
    + rewrite create_login_generated by exact Hl.
      rewrite create_login_given; [|exact Hl|exact H1].
      rewrite drawn_record, Hp.
      eexists. eexists. split; [reflexivity|]. split; reflexivity.
  - intros script H. apply unique_records. apply run_all_unique.
    now apply unique_records.
Qed.

Lemma create_rejects_duplicates_witness :
  exists msg w',
    PasswordManager.create_login
      sample_manager "alice" (Some "password456")
      (sample_with [sample_record "alice" "password123"] [])
    = (Raise (LoginAlreadyExistsError msg), w')
    /\ SSM.parameters (ssm w') = [sample_record "alice" "password123"]
    /\ stored_value w' (key sample_manager "alice")
       = stored_value (sample_with [sample_record "alice" "password123"] [])
                      (key sample_manager "alice").
Proof.
  destruct (create_rejects_duplicates
              sample_manager "alice" (Some "password456")
              (sample_with [sample_record "alice" "password123"] []))
    as [H _].
  apply H; reflexivity.
Defined.

(* ===================================================================== *)
(** ** rotate *)
(* ===================================================================== *)

Section Rotation.

Variable pm : PasswordManager.self.


Lemma enforced_default (requested : option Z) :
  enforced (Some (match requested with Some l => l | None => 16%Z end))
  = enforced requested.
Proof. now destruct requested. Qed.

(** [get_password] leaves the world that has heard its request. *)
Lemma get_password_world (login : string) (w : World) :
  Py.truthy login = true ->
  snd (PasswordManager.get_password pm login w)
  = heard (get_request pm login) w.
Proof.
  intros Hl. unfold PasswordManager.get_password. rewrite Hl. cbn [negb].
  unfold try_except, bind, remote, SSM.get_parameter, SSM.receive,
    SSM.refuse.
  fold (key pm login).
  destruct (hd None (SSM.outages (ssm w))) as [[code message]|].
  - destruct (String.eqb _ _); reflexivity.
  - cbn [SSM.parameters].
    destruct (SSM.lookup (key pm login) (SSM.parameters (ssm w)));
      reflexivity.
Qed.

Lemma rotate_password_absent (login : string) (requested : option Z)
      (w : World) :
  Py.truthy login = true ->
  hd None (SSM.outages (ssm w)) = None ->
  record w (key pm login) = None ->
  PasswordManager.rotate_password pm login requested w
  = (Raise (LoginNotFoundError ("Login '" ++ login ++ "' not found")),
     heard (get_request pm login) w).
Proof.
  intros Hl Hs R. unfold PasswordManager.rotate_password. rewrite Hl.
  cbn [negb]. unfold bind at 1.
  rewrite get_password_served by assumption. now rewrite R.
Qed.

Lemma rotate_password_held (login : string) (requested : option Z)
      (w : World) :
  Py.truthy login = true ->
  served 3 w = true ->
  holds w (key pm login) = true ->
  PasswordManager.rotate_password pm login requested w
  = (Ok (spell (map (pick w 70) (seq 0 (enforced requested)))),
     tagged pm login
       (overwritten pm login
          (spell (map (pick w 70) (seq 0 (enforced requested))))
          (drawn (enforced requested) (heard (get_request pm login) w)))).
Proof.
  intros Hl Hs Hh. apply holds_true in Hh. destruct Hh as [p Hp].
  unfold PasswordManager.rotate_password. rewrite Hl. cbn [negb].
  unfold bind at 1.
  rewrite get_password_served; [|exact Hl|exact (served_head _ _ Hs)].
  rewrite Hp. unfold bind at 1. rewrite generate_password_spec.
  rewrite enforced_default.
  change (pick (heard (SSM.GetParameter (key pm login) true) w) 70)
    with (pick w 70).
  set (password := spell (map (pick w 70) (seq 0 (enforced requested)))).
  unfold bind at 1. rewrite update_login_served.
  - reflexivity.
  - exact Hl.
  - pose proof (generate_password_yields pm requested w) as Y.
    rewrite generate_password_spec in Y. exact Y.
  - apply (served_tail w 2 _ Hs). reflexivity.
Qed.

Lemma rotate_password_first_request (login : string)
      (requested : option Z) (w : World) :
  Py.truthy login = true ->
  exists rest,
    requests (snd (PasswordManager.rotate_password pm login requested w))
    = (requests w ++ get_request pm login :: rest)%list.
Proof.
  intros Hl. unfold PasswordManager.rotate_password. rewrite Hl.
  cbn [negb]. unfold bind at 1.
  pose proof (get_password_world login w Hl) as G.
  destruct (PasswordManager.get_password pm login w) as [[v|e] w1].
  - cbn [snd] in G. subst w1. unfold bind at 1.
    rewrite generate_password_spec.
    set (n := enforced _). set (password := spell _).
    assert (Py.truthy password = true) as Hp.
    { pose proof (generate_password_yields
                    pm (Some (match requested with
                              | Some l => l
                              | None => 16%Z
                              end)) (heard (get_request pm login) w)) as Y.
      rewrite generate_password_spec in Y. exact Y. }
    destruct (update_login_first_request
                pm login password
                (drawn n (heard (get_request pm login) w)) Hl Hp)
      as [rest E].
    unfold bind, ret.
    destruct (PasswordManager.update_login pm login password _)
      as [[u|e] w2]; cbn [snd] in *;
      exists (update_request pm login password :: rest);
      rewrite E; unfold requests; cbn; now rewrite <- app_assoc.
  - cbn [snd] in G. subst w1. exists []. reflexivity.
Qed.

End Rotation.

(** C7 (as amended): for a non-empty name, [rotate_password] first sends a
    get; when the store does not hold the name it raises
    [LoginNotFoundError] and leaves the table and the entropy source as
    they were.  Otherwise it generates a password of length
    [max(length, 8)] (16 by default), writes it with the two requests of
    [update_login] and returns it, and a [get_password] that follows returns
    it; for [length = 24] the password has length 24.  The new password is
    drawn without regard to the one held before: it differs from it whenever
    that one is not itself a string of the enforced length over the
    alphabet.  The service is assumed to answer the requests. *)
Theorem rotate_password_policy
        (pm : PasswordManager.self) (login : string)
        (requested : option Z) (w : World) :
  Py.truthy login = true ->
  let n := enforced requested in
  let password := spell (map (pick w 70) (seq 0 n)) in
  let w' := tagged pm login
              (overwritten pm login password
                 (drawn n (heard (get_request pm login) w))) in
  (exists rest,
      requests (snd (PasswordManager.rotate_password pm login requested w))
      = (requests w ++ get_request pm login :: rest)%list)
  /\ (holds w (key pm login) = false -> served 1 w = true ->
      exists msg w0,
        PasswordManager.rotate_password pm login requested w
        = (Raise (LoginNotFoundError msg), w0)
        /\ SSM.parameters (ssm w0) = SSM.parameters (ssm w)
        /\ entropy w0 = entropy w)
  /\ (holds w (key pm login) = true -> served 3 w = true ->
      PasswordManager.rotate_password pm login requested w
      = (Ok password, w')
      /\ String.length password = n
      /\ n = Z.to_nat (Z.max (match requested with
                              | Some l => l
                              | None => 16%Z
                              end) 8)
      /\ (requested = Some 24%Z -> String.length password = 24)
      /\ stored_value w' (key pm login) = Some password
      /\ requests w'
         = (requests w ++ [get_request pm login;
                           update_request pm login password;
                           tag_request pm login])%list
      /\ (served 4 w = true ->
          fst (PasswordManager.get_password pm login w') = Ok password)
      /\ (forall old,
             stored_value w (key pm login) = Some old ->
             String.length old <> n \/ over_alphabet old = false ->
             password <> old)).
Proof.
  intros Hl n password w'.
  assert (String.length password = n) as L.
  { unfold password. rewrite spell_length by apply picks_below.
    now rewrite length_map, length_seq. }
  assert (stored_value w' (key pm login) = Some password) as V.
  { unfold w'. rewrite tagged_value. apply overwritten_value. }
  split; [|split].
  - now apply rotate_password_first_request.
  - intros Hh Hs. apply holds_false in Hh.
    rewrite rotate_password_absent;
      [|exact Hl|exact (served_head _ _ Hs)|exact Hh].
    eexists. eexists. split; [reflexivity|]. split; reflexivity.
  - intros Hh Hs.
    split; [now apply rotate_password_held|].
    split; [exact L|]. split; [reflexivity|].
    split; [intros ->; exact L|]. split; [exact V|]. split; [|split].
    + unfold w', tagged, overwritten.
      rewrite !with_table_requests, !heard_received.
      rewrite with_table_requests, heard_received.
      change (requests (drawn n (heard (get_request pm login) w)))
        with (requests (heard (get_request pm login) w)).
      rewrite heard_received. now rewrite <- !app_assoc.
    + intros Hs4. rewrite get_password_served; [|exact Hl|].
      * cbn [fst]. unfold stored_value in V.
        destruct (record w' (key pm login)); simpl in V; congruence.
      * apply (served_head _ 0).
        apply (served_tail
                 (overwritten pm login password
                    (drawn n (heard (get_request pm login) w))) 1 _).
        -- apply (served_tail
                    (drawn n (heard (get_request pm login) w)) 2 _).
           ++ apply (served_tail w 3 _ Hs4). reflexivity.
           ++ reflexivity.
        -- reflexivity.
    + intros old _ [Hlen|Hover] E; subst old.
      * congruence.
      * unfold password in Hover.
        rewrite spell_over_alphabet in Hover by apply picks_below.
        discriminate.
Qed.

Lemma rotate_password_policy_witness :
  PasswordManager.rotate_password
    sample_manager "alice" (Some 24%Z)
    (sample_with [sample_record "alice" "oldpass"] [])
  = (Ok "aaaaaaaaaaaaaaaaaaaaaaaa",
     tagged sample_manager "alice"
       (overwritten sample_manager "alice" "aaaaaaaaaaaaaaaaaaaaaaaa"
          (drawn 24 (heard (get_request sample_manager "alice")
                           (sample_with [sample_record "alice" "oldpass"]
                                        []))))).
Proof.
  destruct (rotate_password_policy
              sample_manager "alice" (Some 24%Z)
              (sample_with [sample_record "alice" "oldpass"] []))
    as [_ [_ H]]; [reflexivity|].
  destruct H as [E _]; [reflexivity|reflexivity|]. exact E.
Defined.

(** C7, as stated, fails: the rotated password can be the very password
    held before.  With "alice" holding 24 times the letter [a] and an
    entropy source whose draws all select index 0, [rotate_password] with
    [length = 24] returns that same password. *)
Lemma rotate_may_return_the_previous_password :
  let w := sample_with [sample_record "alice" "aaaaaaaaaaaaaaaaaaaaaaaa"]
                       [] in
  stored_value w (key sample_manager "alice")
  = Some "aaaaaaaaaaaaaaaaaaaaaaaa"
  /\ fst (PasswordManager.rotate_password sample_manager "alice"
                                          (Some 24%Z) w)
     = Ok "aaaaaaaaaaaaaaaaaaaaaaaa"
  /\ ~ (forall old new,
           stored_value w (key sample_manager "alice") = Some old ->
           fst (PasswordManager.rotate_password sample_manager "alice"
                                                (Some 24%Z) w) = Ok new ->
           new <> old).
Proof.
  cbv zeta. split; [reflexivity|]. split; [vm_compute; reflexivity|].
  intros H.
  apply (H "aaaaaaaaaaaaaaaaaaaaaaaa" "aaaaaaaaaaaaaaaaaaaaaaaa").
  - reflexivity.
  - vm_compute. reflexivity.
  - reflexivity.
Qed.

(* ===================================================================== *)
(** ** exists *)
(* ===================================================================== *)

Section Existence.

Variable pm : PasswordManager.self.

Lemma get_password_refused (login code message : string) (w : World) :
  Py.truthy login = true ->
  refused code message w ->
  PasswordManager.get_password pm login w
  = (if String.eqb code "ParameterNotFound"
     then Raise (LoginNotFoundError ("Login '" ++ login ++ "' not found"))
     else Raise (AWSError
                   ("Failed to get password: "
                      ++ Botocore.str
                           (Botocore.mkClientError code message
                                                   "GetParameter"))),
     heard (get_request pm login) w).
Proof.
  intros Hl Hr. unfold PasswordManager.get_password. rewrite Hl.
  cbn [negb]. unfold try_except, bind, remote, SSM.get_parameter.
  fold (key pm login).
  rewrite (receive_refused _ _ _ _ Hr). cbn [Botocore.Code SSM.operation].
  destruct (String.eqb code "ParameterNotFound"); reflexivity.
Qed.

Lemma login_exists_served (login : string) (w : World) :
  Py.truthy login = true ->
  hd None (SSM.outages (ssm w)) = None ->
  PasswordManager.login_exists pm login w
  = (Ok (holds w (key pm login)), heard (get_request pm login) w).
Proof.
  intros Hl Hs. unfold PasswordManager.login_exists. rewrite Hl.
  cbn [negb]. unfold try_except, bind.
  rewrite get_password_served by assumption. unfold holds.
  destruct (record w (key pm login)); reflexivity.
Qed.

Lemma login_exists_refused (login code message : string) (w : World) :
  Py.truthy login = true ->
  refused code message w ->
  PasswordManager.login_exists pm login w
  = (if String.eqb code "ParameterNotFound"
     then Ok false
     else Raise (AWSError
                   ("Failed to get password: "
                      ++ Botocore.str
                           (Botocore.mkClientError code message
                                                   "GetParameter"))),
     heard (get_request pm login) w).
Proof.
  intros Hl Hr. unfold PasswordManager.login_exists. rewrite Hl.
  cbn [negb]. unfold try_except, bind.
  rewrite (get_password_refused login code message w Hl Hr).
  destruct (String.eqb code "ParameterNotFound"); reflexivity.
Qed.

End Existence.




(* ===================================================================== *)
(** ** Validation *)
(* ===================================================================== *)

Section Validation.

Variable pm : PasswordManager.self.

Lemma falsy_negb (s : string) :
  negb (Py.truthy s) = true -> Py.truthy s = false.
Proof. now destruct (Py.truthy s). Qed.

Lemma truthy_negb (s : string) :
  negb (Py.truthy s) = false -> Py.truthy s = true.
Proof. now destruct (Py.truthy s). Qed.

(** An operation with an empty argument raises before anything else. *)
Lemma run_empty_argument (op : Operation) (w : World) :
  has_empty_argument op = true ->
  exists msg, run pm op w = (Some (ValidationError msg), w).
Proof.
  destruct op; cbn [has_empty_argument]; intros H;
    try discriminate; unfold run.
  - apply falsy_negb in H. unfold PasswordManager.create_login.
    rewrite H. now eexists.
  - unfold PasswordManager.update_login.
    destruct (Py.truthy login); cbn [negb orb] in *.
    + apply falsy_negb in H. rewrite H. now eexists.
    + now eexists.
  - apply falsy_negb in H. unfold PasswordManager.delete_login.
    rewrite H. now eexists.
  - apply falsy_negb in H. unfold PasswordManager.get_password.
    rewrite H. now eexists.
  - apply falsy_negb in H. unfold PasswordManager.login_exists.
    rewrite H. now eexists.
  - apply falsy_negb in H. unfold PasswordManager.rotate_password.
    rewrite H. now eexists.
  - apply falsy_negb in H. unfold PasswordManager.get_login_info.
    rewrite H. now eexists.
Qed.

Lemma not_validation {A : Type} (c : M World A) (w : World)
      (bad : Exception -> Prop) (msg : string) :
  yields c anything bad ->
  ~ bad (ValidationError msg) ->
  raised (fst (c w)) <> Some (ValidationError msg).
Proof.
  intros Y N E. specialize (Y w). destruct (fst (c w)) as [a|e]; simpl in E.
  - discriminate.
  - injection E as ->. contradiction.
Qed.

(** An operation whose arguments are not empty raises no
    [ValidationError]. *)
Lemma run_full_arguments (op : Operation) (w : World) (msg : string) :
  has_empty_argument op = false ->
  fst (run pm op w) <> Some (ValidationError msg).
Proof.
  destruct op; cbn [has_empty_argument]; intros H; unfold run.
  - pose proof (not_validation _ w _ msg (list_logins_yields pm)) as N.
    destruct (PasswordManager.list_logins pm w). apply N. intros [].
  - apply truthy_negb in H.
    pose proof (not_validation _ w _ msg
                  (create_login_yields pm login password H)) as N.
    destruct (PasswordManager.create_login pm login password w).
    apply N. intros [].
  - apply orb_false_elim in H. destruct H as [Hl Hp].
    apply truthy_negb in Hl. apply truthy_negb in Hp.
    pose proof (not_validation _ w _ msg
                  (update_login_yields pm login password Hl Hp)) as N.
    destruct (PasswordManager.update_login pm login password w).
    apply N. intros [].
  - apply truthy_negb in H.
    pose proof (not_validation _ w _ msg
                  (delete_login_yields pm login H)) as N.
    destruct (PasswordManager.delete_login pm login w).
    apply N. intros [].
  - apply truthy_negb in H.
    pose proof (not_validation _ w _ msg
                  (get_password_yields pm login H)) as N.
    destruct (PasswordManager.get_password pm login w).
    apply N. intros [].
  - apply truthy_negb in H.
    pose proof (not_validation _ w _ msg
                  (login_exists_yields pm login H)) as N.
    destruct (PasswordManager.login_exists pm login w).
    apply N. intros [].
  - apply truthy_negb in H.
    pose proof (not_validation _ w _ msg
                  (rotate_password_yields pm login length H)) as N.
    destruct (PasswordManager.rotate_password pm login length w).
    apply N. intros [].
  - apply truthy_negb in H.
    pose proof (not_validation _ w _ msg
                  (get_login_info_yields pm login H)) as N.
    destruct (PasswordManager.get_login_info pm login w).
    apply N. intros [].
Qed.

End Validation.

(** C4: an operation of the manager (create, update, delete, get, exists,
    rotate, info) called with an empty required argument raises
    [ValidationError] and leaves the world as it was: the service has
    received no request, its table is unchanged and nothing was drawn.
    Conversely, whenever an operation raises [ValidationError], one of its
    required arguments was empty and the world, the store with it, is
    unchanged. *)
Theorem validation_is_local
        (pm : PasswordManager.self) (op : Operation) (w : World) :
  (has_empty_argument op = true ->
   exists msg,
     run pm op w = (Some (ValidationError msg), w)
     /\ requests (snd (run pm op w)) = requests w
     /\ SSM.parameters (ssm (snd (run pm op w))) = SSM.parameters (ssm w))
  /\ (forall msg w',
         run pm op w = (Some (ValidationError msg), w') ->
         has_empty_argument op = true
         /\ w' = w
         /\ requests w' = requests w
         /\ SSM.parameters (ssm w') = SSM.parameters (ssm w)).
Proof.
  split.
  - intros H. destruct (run_empty_argument pm op w H) as [msg E].
    exists msg. rewrite E. repeat split.
  - intros msg w' E.
    destruct (has_empty_argument op) eqn:H.
    + destruct (run_empty_argument pm op w H) as [msg' E'].
      rewrite E' in E. injection E as _ <-. repeat split.
    + exfalso. apply (run_full_arguments pm op w msg H). now rewrite E.
Qed.

Lemma validation_is_local_witness :
  exists msg,
    run sample_manager (Update "alice" "") sample_world
    = (Some (ValidationError msg), sample_world)
    /\ requests (snd (run sample_manager (Update "alice" "") sample_world))
       = requests sample_world
    /\ SSM.parameters
         (ssm (snd (run sample_manager (Update "alice" "") sample_world)))
       = SSM.parameters (ssm sample_world).
Proof.
  destruct (validation_is_local sample_manager (Update "alice" "")
                                sample_world) as [H _].
  apply H. reflexivity.
Defined.

(* ===================================================================== *)
(** ** list *)
(* ===================================================================== *)

Section Listing.

Variable pm : PasswordManager.self.

Lemma prefix_app (p r : string) : String.prefix p (p ++ r) = true.
Proof.
  induction p as [|a p IH]; simpl.
  - now destruct r.
  - destruct (ascii_dec a a); [exact IH|contradiction].
Qed.

Lemma slice_app (p r : string) : Py.slice_from (Py.len p) (p ++ r) = r.
Proof. induction p as [|a p IH]; simpl; auto. Qed.

Lemma prefix_split (p s : string) :
  String.prefix p s = true -> s = p ++ Py.slice_from (Py.len p) s.
Proof.
  revert s. induction p as [|a p IH]; intros s H.
  - reflexivity.
  - destruct s as [|b s]; [discriminate|]. simpl in *.
    destruct (ascii_dec a b) as [->|]; [|discriminate].
    f_equal. now apply IH.
Qed.

Lemma append_inner {A B : Type} (f : A -> B) (page : list A) (acc : list B) :
  fold_left (fun logins param => (logins ++ [f param])%list) page acc
  = (acc ++ map f page)%list.
Proof.
  revert acc. induction page as [|x page IH]; intros acc; simpl.
  - now rewrite app_nil_r.
  - rewrite IH. now rewrite <- app_assoc.
Qed.

Lemma append_outer {A B : Type} (f : A -> B) (pages : list (list A))
      (acc : list B) :
  fold_left
    (fun logins page =>
       fold_left (fun logins param => (logins ++ [f param])%list)
                 page logins)
    pages acc
  = (acc ++ map f (concat pages))%list.
Proof.
  revert acc. induction pages as [|page pages IH]; intros acc; simpl.
  - now rewrite app_nil_r.
  - rewrite IH, append_inner, map_app. now rewrite <- app_assoc.
Qed.

Lemma concat_pages_of {A : Type} (fuel size : nat) (l : list A) :
  0 < size -> length l <= fuel -> concat (SSM.pages_of fuel size l) = l.
Proof.
  intros Hsize. revert l. induction fuel as [|fuel IH]; intros l Hl.
  - destruct l; [reflexivity|simpl in Hl; lia].
  - destruct l as [|x l]; [reflexivity|].
    cbn [SSM.pages_of concat]. rewrite IH.
    + apply firstn_skipn.
    + rewrite length_skipn. cbn [length] in *. lia.
Qed.

Lemma concat_paging (s : SSM.Service) (l : list SSM.Stored) :
  concat (SSM.paging s l) = l.
Proof.
  unfold SSM.paging. apply concat_pages_of.
  - apply Nat.lt_le_trans with 1; [constructor|apply Nat.le_max_l].
  - apply Nat.le_refl.
Qed.

Lemma matching_prefix (ps : list SSM.Stored) :
  SSM.matching [SSM.NameBeginsWith [PasswordManager.prefix pm]] ps
  = filter (fun p => String.prefix (PasswordManager.prefix pm) (SSM.Name p))
           ps.
Proof.
  unfold SSM.matching. apply filter_ext. intros p. simpl.
  now rewrite orb_false_r, andb_true_r.
Qed.

Lemma list_logins_served (w : World) :
  hd None (SSM.outages (ssm w)) = None ->
  PasswordManager.list_logins pm w
  = (Ok (Py.sorted (listed pm w)), heard (list_request pm) w).
Proof.
  intros Hs. unfold PasswordManager.list_logins, try_except, bind, remote,
               SSM.paginate.
  fold (list_request pm). rewrite (receive_served _ _ Hs).
  rewrite heard_parameters. unfold ret.
  rewrite append_outer, concat_paging, matching_prefix. reflexivity.
Qed.

Lemma listed_holds (w : World) (login : string) :
  In login (listed pm w) <-> holds w (key pm login) = true.
Proof.
  unfold listed. rewrite in_map_iff, holds_true. split.
  - intros [p [E Hp]]. apply filter_In in Hp. destruct Hp as [Hin Hpre].
    apply prefix_split in Hpre. rewrite E in Hpre.
    apply lookup_present. unfold key. rewrite <- Hpre. now apply in_map.
  - intros [p Hp]. apply lookup_name in Hp. destruct Hp as [E Hin].
    exists p. split.
    + rewrite E. apply slice_app.
    + apply filter_In. split; [exact Hin|]. rewrite E. apply prefix_app.
Qed.




Lemma sorted_permutation (l : list string) : Permutation (Py.sorted l) l.
Proof. symmetry. apply Py.StringSort.Permuted_sort. Qed.



End Listing.



(* ===================================================================== *)
(** ** The login page *)
(* ===================================================================== *)

Section LoginPage.

Variable pm : PasswordManager.self.

(** A [try] block that raised has flashed nothing and left the session
    alone. *)
Lemma login_try_raised (user password : string) (s0 s1 : App.AppState)
      (e : Exception) :
  App.login_try pm user password s0 = (Raise e, s1) ->
  App.flashes s1 = App.flashes s0 /\ App.session s1 = App.session s0.
Proof.
  unfold App.login_try, bind, App.logger, App.manager, App.flash,
    App.set_session, ret.
  cbn [App.world App.session App.flashes App.log].
  destruct (PasswordManager.login_exists pm user (App.world s0))
    as [[[|]|e1] w1]; cbn [App.world App.session App.flashes App.log].
  - destruct (PasswordManager.get_password pm user w1) as [[v|e2] w2];
      cbn [App.world App.session App.flashes App.log].
    + destruct (String.eqb password v); discriminate.
    + intros E. injection E as _ <-. split; reflexivity.
  - discriminate.
  - intros E. injection E as _ <-. split; reflexivity.
Qed.

Lemma login_enters_try (request : App.Request) (s : App.AppState) :
  let user := Py.strip (Py.dict_get (App.form request) "username" "") in
  let password := Py.strip (Py.dict_get (App.form request) "password" "") in
  App.method request = "POST" ->
  Py.truthy user = true -> Py.truthy password = true ->
  App.login (Some pm) request s
  = bind (try_except (App.login_try pm user password)
                     (App.login_except user))
         (fun returned =>
            match returned with
            | Some response => ret response
            | None => ret (App.render_template "login.html")
            end)
         (attempted user s).
Proof.
  intros user password Hm Hu Hp. unfold App.login. rewrite Hm.
  cbn [String.eqb Ascii.eqb Bool.eqb]. fold user. fold password.
  rewrite Hu, Hp. cbn [negb orb]. reflexivity.
Qed.

End LoginPage.

(** C3 (as amended): when a manager error is raised while a login POST is
    handled, the page is the login form again, the session is untouched,
    and the one message flashed is ["Authentication error: "] followed by
    the text of the error itself; the details are logged on the server as
    well.  Only an exception that is not a manager error gets the fixed
    message ["System error occurred. Please try again."]. *)
Theorem login_reports_manager_errors
        (pm : PasswordManager.self) (request : App.Request)
        (s s1 : App.AppState) (e : Exception) :
  let user := Py.strip (Py.dict_get (App.form request) "username" "") in
  let password := Py.strip (Py.dict_get (App.form request) "password" "") in
  App.method request = "POST" ->
  Py.truthy user = true -> Py.truthy password = true ->
  App.login_try pm user password (attempted user s) = (Raise e, s1) ->
  let message :=
    if is_PasswordManagerError e
    then "Authentication error: " ++ Exceptions.str e
    else "System error occurred. Please try again." in
  let entry :=
    (if is_PasswordManagerError e
     then "PasswordManagerError during login for '"
     else "Unexpected error during login for '")
      ++ user ++ "': " ++ Exceptions.str e in
  App.login (Some pm) request s
  = (Ok (App.render_template "login.html"), reported entry message s1)
  /\ flashed s (reported entry message s1) = [(message, "error")]
  /\ App.session (reported entry message s1) = App.session s
  /\ In ("error", entry) (App.log (reported entry message s1)).
Proof.
  intros user password Hm Hu Hp Ht message entry.
  destruct (login_try_raised pm user password _ _ _ Ht) as [Hf Hsess].
  split; [|split; [|split]].
  - rewrite (login_enters_try pm request s Hm Hu Hp).
    fold user. fold password. unfold bind at 1, try_except.
    rewrite Ht. unfold App.login_except, message, entry.
    destruct (is_PasswordManagerError e); reflexivity.
  - unfold flashed, reported. cbn [App.flashes]. rewrite Hf.
    unfold attempted. cbn [App.logger snd App.flashes].
    rewrite skipn_app, skipn_all, Nat.sub_diag. reflexivity.
  - unfold reported. cbn [App.session]. rewrite Hsess. reflexivity.
  - unfold reported. cbn [App.log]. apply in_or_app. right. now left.
Qed.

Lemma login_reports_manager_errors_witness :
  exists s',
    App.login
      (Some sample_manager) (login_post "alice" "secret")
      (fresh_state
         (sample_with [sample_record "alice" "secret"]
                      [Some ("ThrottlingException", "Rate exceeded")]))
    = (Ok (App.render_template "login.html"), s')
    /\ App.flashes s'
       = [("Authentication error: Failed to get password: An error occurred (ThrottlingException) when calling the GetParameter operation: Rate exceeded",
           "error")].
Proof.
  eexists. split.
  - eapply (login_reports_manager_errors
              sample_manager (login_post "alice" "secret")); reflexivity.
  - reflexivity.
Defined.

(** C3, as stated, fails: the message shown on the login page carries the
    text of the manager's error.  A login POST for "alice" whose get the
    service refuses makes the manager raise an [AWSError], and the page
    shows that error's message after ["Authentication error: "]. *)
Lemma login_page_shows_the_error_text :
  let w := sample_with
             [sample_record "alice" "secret"]
             [Some ("AccessDeniedException",
                    "User is not authorized to perform: ssm:GetParameter")] in
  let internal :=
    "Failed to get password: An error occurred (AccessDeniedException) when calling the GetParameter operation: User is not authorized to perform: ssm:GetParameter" in
  let s' := snd (App.login (Some sample_manager)
                           (login_post "alice" "secret") (fresh_state w)) in
  fst (PasswordManager.login_exists sample_manager "alice" w)
  = Raise (AWSError internal)
  /\ App.flashes s' = [("Authentication error: " ++ internal, "error")]
  /\ existsb (fun flash => contains (fst flash) internal) (App.flashes s')
     = true.
Proof.
  cbv zeta. split; [reflexivity|]. split; [reflexivity|].
  vm_compute. reflexivity.
Qed.

(* ===================================================================== *)
(** ** Beyond the contract: what the operations leave alone *)
(* ===================================================================== *)

Section Frame.

Variables (pm : PasswordManager.self) (k : string) (r : option SSM.Stored).

(** The record under [k] is [r]. *)
Let kept (w : World) : Prop := record w k = r.

Lemma put_parameter_frame name value type_ overwrite description tags :
  k <> name ->
  preserves kept
            (remote (SSM.put_parameter name value type_ overwrite
                                       description tags)).
Proof.
  intros N w K. apply String.eqb_neq in N.
  unfold remote, SSM.put_parameter, SSM.receive, SSM.refuse.
  destruct (hd None (SSM.outages (ssm w))) as [[code message]|];
    [exact K|].
  cbn [SSM.parameters].
  destruct (SSM.lookup name (SSM.parameters (ssm w))) as [p|] eqn:L.
  - destruct overwrite; cbn [negb]; [|exact K].
    destruct tags; [|exact K].
    unfold kept, record. cbn [snd ssm SSM.parameters SSM.set_parameters].
    rewrite lookup_amend by reflexivity. now rewrite N.
  - unfold kept, record. cbn [snd ssm SSM.parameters SSM.set_parameters].
    rewrite lookup_app. fold (record w k). rewrite K.
    destruct r; [reflexivity|]. unfold SSM.lookup. simpl.
    rewrite String.eqb_sym. now rewrite N.
Qed.

Lemma add_tags_frame resource_type resource_id tags :
  k <> resource_id ->
  preserves kept
            (remote (SSM.add_tags_to_resource resource_type resource_id
                                              tags)).
Proof.
  intros N w K. apply String.eqb_neq in N.
  unfold remote, SSM.add_tags_to_resource, SSM.receive, SSM.refuse.
  destruct (hd None (SSM.outages (ssm w))) as [[code message]|];
    [exact K|].
  cbn [SSM.parameters].
  destruct (SSM.lookup resource_id (SSM.parameters (ssm w))); [|exact K].
  unfold kept, record. cbn [snd ssm SSM.parameters SSM.set_parameters].
  rewrite lookup_amend by reflexivity. now rewrite N.
Qed.

Lemma delete_parameter_frame name :
  k <> name -> preserves kept (remote (SSM.delete_parameter name)).
Proof.
  intros N w K. apply String.eqb_neq in N.
  unfold remote, SSM.delete_parameter, SSM.receive, SSM.refuse.
  destruct (hd None (SSM.outages (ssm w))) as [[code message]|];
    [exact K|].
  cbn [SSM.parameters].
  destruct (SSM.lookup name (SSM.parameters (ssm w))); [|exact K].
  unfold kept, record. cbn [snd ssm SSM.parameters SSM.set_parameters].
  rewrite lookup_remove. now rewrite N.
Qed.

Lemma get_parameter_frame name with_decryption :
  preserves kept (remote (SSM.get_parameter name with_decryption)).
Proof.
  intros w K. unfold remote, SSM.get_parameter, SSM.receive, SSM.refuse.
  destruct (hd None (SSM.outages (ssm w))) as [[code message]|];
    [exact K|].
  cbn [SSM.parameters].
  destruct (SSM.lookup name (SSM.parameters (ssm w))); exact K.
Qed.

Lemma describe_parameters_frame filters :
  preserves kept (remote (SSM.describe_parameters filters)).
Proof.
  intros w K. unfold remote, SSM.describe_parameters, SSM.receive.
  destruct (hd None (SSM.outages (ssm w))) as [[code message]|]; exact K.
Qed.

Lemma paginate_frame filters :
  preserves kept (remote (SSM.paginate filters)).
Proof.
  intros w K. unfold remote, SSM.paginate, SSM.receive.
  destruct (hd None (SSM.outages (ssm w))) as [[code message]|]; exact K.
Qed.

Lemma generate_password_frame requested :
  preserves kept (PasswordManager._generate_password pm requested).
Proof. intros w K. now rewrite generate_password_spec. Qed.

Create HintDb frame.

#[local] Hint Resolve preserves_ret preserves_raise put_parameter_frame
     add_tags_frame delete_parameter_frame get_parameter_frame
     describe_parameters_frame paginate_frame generate_password_frame
  : frame.

Ltac frame_handlers :=
  intros e h E; destruct e; try discriminate;
  repeat match type of E with
         | context [if ?b then _ else _] => destruct b
         end;
  injection E as <-; auto with frame.

Ltac frame_compose :=
  repeat first
    [ apply preserves_if
    | apply preserves_bind; [|intros ?]
    | apply preserves_try; [|frame_handlers]
    | solve [auto with frame] ].

Lemma list_logins_frame : preserves kept (PasswordManager.list_logins pm).
Proof. unfold PasswordManager.list_logins. frame_compose. Qed.

Lemma get_password_frame login :
  preserves kept (PasswordManager.get_password pm login).
Proof. unfold PasswordManager.get_password. frame_compose. Qed.

Lemma login_exists_frame login :
  preserves kept (PasswordManager.login_exists pm login).
Proof.
  unfold PasswordManager.login_exists.
  apply preserves_if; [auto with frame|].
  apply preserves_try; [|frame_handlers].
  apply preserves_bind; [apply get_password_frame|auto with frame].
Qed.

Lemma get_login_info_frame login :
  preserves kept (PasswordManager.get_login_info pm login).
Proof.
  unfold PasswordManager.get_login_info. frame_compose.
  destruct a; auto with frame.
Qed.

Lemma create_login_frame login password :
  k <> key pm login ->
  preserves kept (PasswordManager.create_login pm login password).
Proof.
  intros N. unfold PasswordManager.create_login.
  apply preserves_if; [auto with frame|].
  apply preserves_bind.
  - destruct password; auto with frame.
  - intros p. apply preserves_try; [|frame_handlers].
    apply preserves_bind; [|auto with frame].
    now apply put_parameter_frame.
Qed.

Lemma update_login_frame login password :
  k <> key pm login ->
  preserves kept (PasswordManager.update_login pm login password).
Proof.
  intros N. unfold PasswordManager.update_login.
  apply preserves_if; [auto with frame|].
  apply preserves_if; [auto with frame|].
  apply preserves_try; [|frame_handlers].
  apply preserves_bind.
  - now apply put_parameter_frame.
  - intros _. now apply add_tags_frame.
Qed.

Lemma delete_login_frame login :
  k <> key pm login ->
  preserves kept (PasswordManager.delete_login pm login).
Proof.
  intros N. unfold PasswordManager.delete_login.
  apply preserves_if; [auto with frame|].
  apply preserves_try; [|frame_handlers].
  now apply delete_parameter_frame.
Qed.

Lemma rotate_password_frame login requested :
  k <> key pm login ->
  preserves kept (PasswordManager.rotate_password pm login requested).
Proof.
  intros N. unfold PasswordManager.rotate_password.
  apply preserves_if; [auto with frame|].
  apply preserves_bind; [apply get_password_frame|]. intros _.
  apply preserves_bind; [apply generate_password_frame|]. intros p.
  apply preserves_bind; [now apply update_login_frame|auto with frame].
Qed.

End Frame.

(** X1: an operation on one login leaves the record of every other key as
    it was, whatever the service refuses on the way: the operations of a
    manager touch the key [prefix + login] and no other. *)
Theorem operations_leave_other_keys_alone
        (pm : PasswordManager.self) (op : Operation) (w : World)
        (k : string) :
  (forall login, subject op = Some login -> k <> key pm login) ->
  record (snd (run pm op w)) k = record w k.
Proof.
  intros H. destruct op; unfold run; cbn [subject] in H.
  - pose proof (list_logins_frame pm k _ w eq_refl) as F.
    now destruct (PasswordManager.list_logins pm w).
  - pose proof (create_login_frame pm k _ login password
                                   (H login eq_refl) w eq_refl) as F.
    now destruct (PasswordManager.create_login pm login password w).
  - pose proof (update_login_frame pm k _ login password
                                   (H login eq_refl) w eq_refl) as F.
    now destruct (PasswordManager.update_login pm login password w).
  - pose proof (delete_login_frame pm k _ login
                                   (H login eq_refl) w eq_refl) as F.
    now destruct (PasswordManager.delete_login pm login w).
  - pose proof (get_password_frame pm k _ login w eq_refl) as F.
    now destruct (PasswordManager.get_password pm login w).
  - pose proof (login_exists_frame pm k _ login w eq_refl) as F.
    now destruct (PasswordManager.login_exists pm login w).
  - pose proof (rotate_password_frame pm k _ login length
                                      (H login eq_refl) w eq_refl) as F.
    now destruct (PasswordManager.rotate_password pm login length w).
  - pose proof (get_login_info_frame pm k _ login w eq_refl) as F.
    now destruct (PasswordManager.get_login_info pm login w).
Qed.

Lemma operations_leave_other_keys_alone_witness :
  record (snd (run sample_manager (Delete "alice")
                   (sample_with [sample_record "alice" "a";
                                 sample_record "bob" "b"] [])))
         (key sample_manager "bob")
  = Some (sample_record "bob" "b").
Proof.
  rewrite (operations_leave_other_keys_alone
             sample_manager (Delete "alice")
             (sample_with [sample_record "alice" "a";
                           sample_record "bob" "b"] [])
             (key sample_manager "bob")).
  - reflexivity.
  - intros login E. injection E as <-. discriminate.
Defined.







(* ===================================================================== *)
(** ** Beyond the contract: delete, failures half way, info *)
(* ===================================================================== *)

(** X4: for a non-empty name and a service that answers, [delete_login]
    raises [LoginNotFoundError] and leaves the table alone when the store
    does not hold the name; otherwise it removes the record, after which
    [get_password] raises [LoginNotFoundError], [login_exists] answers
    [False] and [list_logins] no longer has the name. *)
Theorem delete_login_contract
        (pm : PasswordManager.self) (login : string) (w : World) :
  Py.truthy login = true ->
  served 2 w = true ->
  (holds w (key pm login) = false ->
   PasswordManager.delete_login pm login w
   = (Raise (LoginNotFoundError ("Login '" ++ login ++ "' not found")),
      heard (delete_request pm login) w))
  /\ (holds w (key pm login) = true ->
      let w' := deleted pm login w in
      PasswordManager.delete_login pm login w = (Ok tt, w')
      /\ holds w' (key pm login) = false
      /\ fst (PasswordManager.get_password pm login w')
         = Raise (LoginNotFoundError ("Login '" ++ login ++ "' not found"))
      /\ fst (PasswordManager.login_exists pm login w') = Ok false
      /\ (forall logins,
             fst (PasswordManager.list_logins pm w') = Ok logins ->
             ~ In login logins)).
Proof.
  intros Hl Hs. pose proof (served_head _ _ Hs) as H1.
  assert (hd None (SSM.outages (ssm (deleted pm login w))) = None) as H2.
  { apply (served_head _ 0). apply (served_tail w 1 _ Hs). reflexivity. }
  assert (record (deleted pm login w) (key pm login) = None) as R.
  { now rewrite deleted_record, String.eqb_refl. }
  split.
  - intros Hh. apply holds_false in Hh.
    rewrite delete_login_served by assumption. now rewrite Hh.
  - intros Hh w'. subst w'. apply holds_true in Hh. destruct Hh as [p Hp].
    split; [rewrite delete_login_served by assumption; now rewrite Hp|].
    split; [now apply holds_false|].
    split; [rewrite get_password_served by assumption; now rewrite R|].
    split.
    + rewrite login_exists_served by assumption. cbn [fst].
      f_equal. now apply holds_false.
    + intros logins E.
      rewrite list_logins_served in E by exact H2. cbn [fst] in E.
      injection E as <-. intros Hin.
      apply (Permutation_in _ (sorted_permutation _)) in Hin.
      apply listed_holds in Hin.
      assert (holds (deleted pm login w) (key pm login) = false) as F
        by now apply holds_false.
      congruence.
Qed.

Lemma delete_login_contract_witness :
  PasswordManager.delete_login sample_manager "nonexistent" sample_world
  = (Raise (LoginNotFoundError "Login 'nonexistent' not found"),
     heard (delete_request sample_manager "nonexistent") sample_world).
Proof.
  apply (proj1 (delete_login_contract sample_manager "nonexistent"
                                      sample_world eq_refl eq_refl)).
  reflexivity.
Defined.

(** X5: [create_login] and [delete_login] send one request, so they are
    all or nothing: whenever either raises, for an empty name, a refusal of
    the service, a duplicate or a missing login, the table is exactly as it
    was before the call. *)
Theorem failed_create_or_delete_changes_nothing
        (pm : PasswordManager.self) (login : string)
        (password : option string) (w w' : World) (e : Exception) :
  (PasswordManager.create_login pm login password w = (Raise e, w') ->
   SSM.parameters (ssm w') = SSM.parameters (ssm w))
  /\ (PasswordManager.delete_login pm login w = (Raise e, w') ->
      SSM.parameters (ssm w') = SSM.parameters (ssm w)).
Proof.
  split.
  - destruct (Py.truthy login) eqn:Hl.
    + assert (forall p w1,
                 PasswordManager.create_login pm login (Some p) w1
                 = (Raise e, w') ->
                 SSM.parameters (ssm w') = SSM.parameters (ssm w1)) as G.
      { intros p w1. unfold PasswordManager.create_login. rewrite Hl.
        cbn [negb]. unfold bind at 1. unfold ret at 1.
        unfold try_except, bind, ret, remote, SSM.put_parameter,
          SSM.receive, SSM.refuse.
        destruct (hd None (SSM.outages (ssm w1))) as [[code message]|].
        - cbn [Botocore.Code].
          destruct (String.eqb _ _); intros E; injection E as _ <-;
            reflexivity.
        - cbn [SSM.parameters negb].
          match goal with
          | |- context [match SSM.lookup ?k ?ps with _ => _ end] =>
              destruct (SSM.lookup k ps)
          end; cbn.
          + intros E; injection E as _ <-; reflexivity.
          + discriminate. }
      destruct password as [p|].
      * apply G.
      * rewrite create_login_generated by exact Hl.
        intros E. apply G in E. exact E.
    + unfold PasswordManager.create_login. rewrite Hl. cbn [negb].
      intros E. now injection E as _ <-.
  - unfold PasswordManager.delete_login.
    destruct (Py.truthy login); cbn [negb].
    + unfold try_except, remote, SSM.delete_parameter, SSM.receive,
        SSM.refuse.
      destruct (hd None (SSM.outages (ssm w))) as [[code message]|].
      * cbn [Botocore.Code].
        destruct (String.eqb _ _); intros E; injection E as _ <-;
          reflexivity.
      * cbn [SSM.parameters].
        match goal with
        | |- context [match SSM.lookup ?k ?ps with _ => _ end] =>
            destruct (SSM.lookup k ps)
        end; cbn.
        -- discriminate.
        -- intros E; injection E as _ <-; reflexivity.
    + intros E. now injection E as _ <-.
Qed.

Lemma failed_create_or_delete_changes_nothing_witness :
  SSM.parameters
    (ssm (heard (create_request sample_manager "alice" "new")
                (sample_with [sample_record "alice" "old"] [])))
  = [sample_record "alice" "old"].
Proof.
  destruct (failed_create_or_delete_changes_nothing
              sample_manager "alice" (Some "new")
              (sample_with [sample_record "alice" "old"] [])
              (heard (create_request sample_manager "alice" "new")
                     (sample_with [sample_record "alice" "old"] []))
              (LoginAlreadyExistsError
                 "Login 'alice' already exists. Use update to modify existing login."))
    as [H _].
  apply H. reflexivity.
Defined.

(** The value write served, the tag write refused. *)
Lemma update_login_tag_refused
      (pm : PasswordManager.self) (login password code message : string)
      (rest : list (option (string * string))) (w : World) :
  Py.truthy login = true -> Py.truthy password = true ->
  SSM.outages (ssm w) = None :: Some (code, message) :: rest ->
  PasswordManager.update_login pm login password w
  = (Raise (AWSError
              ("Failed to update login: "
                 ++ Botocore.str
                      (Botocore.mkClientError code message
                                              "AddTagsToResource"))),
     heard (tag_request pm login) (overwritten pm login password w)).
Proof.
  intros Hl Hp Ho.
  assert (hd None (SSM.outages (ssm w)) = None) as H1 by now rewrite Ho.
  assert (refused code message (overwritten pm login password w)) as H2.
  { unfold refused, overwritten. rewrite with_table_outages, heard_outages.
    now rewrite Ho. }
  unfold PasswordManager.update_login. rewrite Hl, Hp. cbn [negb].
  unfold try_except, bind at 1.
  assert (remote (SSM.put_parameter (PasswordManager.prefix pm ++ login)
                    password "SecureString" true
                    ("Password for login: " ++ login) []) w
          = (Ok (match record w (key pm login) with
                 | None => 1
                 | Some p => S (SSM.Version p)
                 end),
             overwritten pm login password w)) as E1.
  { unfold remote, SSM.put_parameter.
    fold (key pm login). fold (description_of login).
    fold (update_request pm login password).
    rewrite (receive_served _ _ H1). rewrite heard_parameters.
    unfold overwritten. fold (record w (key pm login)).
    destruct (record w (key pm login)); reflexivity. }
  rewrite E1. unfold remote, SSM.add_tags_to_resource.
  fold (key pm login). fold (tag_request pm login).
  rewrite (receive_refused _ _ _ _ H2). reflexivity.
Qed.

(** X6: [update_login] is not all or nothing.  When the service serves the
    value write and refuses the tag write that follows, the caller gets an
    [AWSError] although the new password is stored: the value write is not
    undone. *)
Theorem update_login_fails_after_the_write
        (pm : PasswordManager.self) (login password code message : string)
        (rest : list (option (string * string))) (w : World) :
  Py.truthy login = true -> Py.truthy password = true ->
  SSM.outages (ssm w) = None :: Some (code, message) :: rest ->
  let w' := heard (tag_request pm login)
                  (overwritten pm login password w) in
  PasswordManager.update_login pm login password w
  = (Raise (AWSError
              ("Failed to update login: "
                 ++ Botocore.str
                      (Botocore.mkClientError code message
                                              "AddTagsToResource"))), w')
  /\ stored_value w' (key pm login) = Some password.
Proof.
  intros Hl Hp Ho w'. split.
  - exact (update_login_tag_refused pm login password code message rest w
                                    Hl Hp Ho).
  - unfold w', stored_value. rewrite heard_record.
    apply overwritten_value.
Qed.

Lemma update_login_fails_after_the_write_witness :
  stored_value
    (heard (tag_request sample_manager "alice")
           (overwritten
              sample_manager "alice" "new"
              (sample_with [sample_record "alice" "old"]
                           [None; Some ("ThrottlingException",
                                        "Rate exceeded")])))
    (key sample_manager "alice")
  = Some "new".
Proof.
  exact (proj2 (update_login_fails_after_the_write
                  sample_manager "alice" "new" "ThrottlingException"
                  "Rate exceeded" []
                  (sample_with [sample_record "alice" "old"]
                               [None; Some ("ThrottlingException",
                                            "Rate exceeded")])
                  eq_refl eq_refl eq_refl)).
Defined.

(** X7: [rotate_password] can change the password and not return it.  When
    the service serves the get and the value write and refuses the tag
    write, the caller gets an [AWSError] and no password, while the store
    already holds the newly generated one. *)
Theorem rotate_password_fails_after_the_write
        (pm : PasswordManager.self) (login code message : string)
        (requested : option Z)
        (rest : list (option (string * string))) (w : World) :
  Py.truthy login = true ->
  holds w (key pm login) = true ->
  SSM.outages (ssm w) = None :: None :: Some (code, message) :: rest ->
  let generated := spell (map (pick w 70) (seq 0 (enforced requested))) in
  exists msg w',
    PasswordManager.rotate_password pm login requested w
    = (Raise (AWSError msg), w')
    /\ stored_value w' (key pm login) = Some generated.
Proof.
  intros Hl Hh Ho generated. apply holds_true in Hh. destruct Hh as [p Hp].
  assert (hd None (SSM.outages (ssm w)) = None) as H1 by now rewrite Ho.
  unfold PasswordManager.rotate_password. rewrite Hl. cbn [negb].
  unfold bind at 1. rewrite get_password_served by assumption.
  rewrite Hp. unfold bind at 1. rewrite generate_password_spec.
  rewrite enforced_default.
  change (pick (heard (SSM.GetParameter (key pm login) true) w) 70)
    with (pick w 70).
  fold generated. unfold bind at 1.
  rewrite (update_login_tag_refused
             pm login generated code message rest
             (drawn (enforced requested)
                    (heard (SSM.GetParameter (key pm login) true) w))).
  - eexists. eexists. split; [reflexivity|].
    unfold stored_value. rewrite heard_record. apply overwritten_value.
  - exact Hl.
  - pose proof (generate_password_yields pm requested w) as Y.
    rewrite generate_password_spec in Y. exact Y.
  - cbn [drawn ssm]. rewrite heard_outages, Ho. reflexivity.
Qed.

Lemma rotate_password_fails_after_the_write_witness :
  exists msg w',
    PasswordManager.rotate_password
      sample_manager "alice" None
      (sample_with [sample_record "alice" "old"]
                   [None; None; Some ("ThrottlingException",
                                      "Rate exceeded")])
    = (Raise (AWSError msg), w')
    /\ stored_value w' (key sample_manager "alice")
       = Some "aaaaaaaaaaaaaaaa".
Proof.
  apply (rotate_password_fails_after_the_write
           sample_manager "alice" "ThrottlingException" "Rate exceeded"
           None []
           (sample_with [sample_record "alice" "old"]
                        [None; None; Some ("ThrottlingException",
                                           "Rate exceeded")]));
    reflexivity.
Defined.

Section Info.

Variable pm : PasswordManager.self.





End Info.



(* ===================================================================== *)
(** ** Beyond the contract: who gets in *)
(* ===================================================================== *)

Section Authentication.

Variable pm : PasswordManager.self.

Lemma login_exists_true (login : string) (w : World) :
  Py.truthy login = true ->
  fst (PasswordManager.login_exists pm login w) = Ok true ->
  holds w (key pm login) = true.
Proof.
  intros Hl. destruct (hd None (SSM.outages (ssm w))) as [[code message]|]
    eqn:Ho.
  - rewrite (login_exists_refused pm login code message w Hl Ho).
    destruct (String.eqb code "ParameterNotFound"); discriminate.
  - rewrite login_exists_served by assumption. cbn [fst]. congruence.
Qed.

Lemma login_exists_world (login : string) (w : World) :
  Py.truthy login = true ->
  snd (PasswordManager.login_exists pm login w)
  = heard (get_request pm login) w.
Proof.
  intros Hl. unfold PasswordManager.login_exists. rewrite Hl. cbn [negb].
  unfold try_except, bind, ret.
  pose proof (get_password_world pm login w Hl) as G.
  destruct (PasswordManager.get_password pm login w) as [[v|[]] w1];
    exact G.
Qed.

Lemma get_password_ok (login v : string) (w : World) :
  Py.truthy login = true ->
  fst (PasswordManager.get_password pm login w) = Ok v ->
  stored_value w (key pm login) = Some v.
Proof.
  intros Hl. destruct (hd None (SSM.outages (ssm w))) as [[code message]|]
    eqn:Ho.
  - rewrite (get_password_refused pm login code message w Hl Ho).
    destruct (String.eqb code "ParameterNotFound"); discriminate.
  - rewrite get_password_served by assumption. cbn [fst].
    unfold stored_value. destruct (record w (key pm login)); [|discriminate].
    intros E. now injection E as <-.
Qed.

(** The ways out of the [try] block of [login] that do not raise. *)
Lemma login_try_returned (user password : string) (s0 s1 : App.AppState)
      (returned : option App.Response) :
  Py.truthy user = true ->
  App.login_try pm user password s0 = (Ok returned, s1) ->
  match returned with
  | Some response =>
      response = App.redirect "index"
      /\ stored_value (App.world s0) (key pm user) = Some password
      /\ App.session s1 = App.mkSession (Some true) (Some user)
      /\ App.flashes s1
         = (App.flashes s0
              ++ [(("Welcome, " ++ user ++ "!")%string, "success")])%list
  | None =>
      App.session s1 = App.session s0
      /\ App.flashes s1
         = (App.flashes s0 ++ [("Invalid username or password", "error")])%list
  end.
Proof.
  intros Hu. unfold App.login_try, bind, App.logger, App.manager, App.flash,
               App.set_session, ret.
  cbn [App.world App.session App.flashes App.log].
  pose proof (login_exists_true user (App.world s0) Hu) as Ht.
  pose proof (login_exists_world user (App.world s0) Hu) as Hw.
  destruct (PasswordManager.login_exists pm user (App.world s0))
    as [[[|]|e1] w1]; cbn [App.world App.session App.flashes App.log];
    cbn [fst snd] in *.
  - pose proof (get_password_ok user) as Hg. specialize (Hg) with (w := w1).
    destruct (PasswordManager.get_password pm user w1) as [[v|e2] w2];
      cbn [App.world App.session App.flashes App.log]; cbn [fst] in Hg.
    + destruct (String.eqb_spec password v) as [->|N].
      * intros E. injection E as <- <-.
        cbn [App.session App.flashes].
        repeat split. subst w1.
        specialize (Hg v Hu eq_refl). exact Hg.
      * intros E. injection E as <- <-. split; reflexivity.
    + discriminate.
  - intros E. injection E as <- <-. split; reflexivity.
  - discriminate.
Qed.

Lemma get_password_table (login : string) (w : World) :
  SSM.parameters (ssm (snd (PasswordManager.get_password pm login w)))
  = SSM.parameters (ssm w).
Proof.
  destruct (Py.truthy login) eqn:Hl.
  - now rewrite get_password_world.
  - unfold PasswordManager.get_password. now rewrite Hl.
Qed.

Lemma login_exists_table (login : string) (w : World) :
  SSM.parameters (ssm (snd (PasswordManager.login_exists pm login w)))
  = SSM.parameters (ssm w).
Proof.
  destruct (Py.truthy login) eqn:Hl.
  - now rewrite login_exists_world.
  - unfold PasswordManager.login_exists. now rewrite Hl.
Qed.

(** The table is the same after the [try] block, however it ends. *)
Lemma login_try_table (user password : string) (s0 : App.AppState) :
  SSM.parameters (ssm (App.world (snd (App.login_try pm user password s0))))
  = SSM.parameters (ssm (App.world s0)).
Proof.
  unfold App.login_try, bind, App.logger, App.manager, App.flash,
    App.set_session, ret.
  cbn [App.world App.session App.flashes App.log].
  pose proof (login_exists_table user (App.world s0)) as He.
  destruct (PasswordManager.login_exists pm user (App.world s0))
    as [[[|]|e1] w1]; cbn [snd App.world] in *; try exact He.
  pose proof (get_password_table user w1) as Hg.
  destruct (PasswordManager.get_password pm user w1) as [[v|e2] w2];
    cbn [snd App.world] in *.
  - destruct (String.eqb password v); cbn [snd App.world]; congruence.
  - congruence.
Qed.

(** With the stored password and the two gets answered the [try] block
    returns the redirect. *)
Lemma login_try_stored (user password : string) (s0 : App.AppState) :
  Py.truthy user = true ->
  served 2 (App.world s0) = true ->
  stored_value (App.world s0) (key pm user) = Some password ->
  App.login_try pm user password s0
  = (Ok (Some (App.redirect "index")),
     snd (App.login_try pm user password s0)).
Proof.
  intros Hu Hs Hv.
  unfold App.login_try, bind, App.logger, App.manager, App.flash,
    App.set_session, ret.
  cbn [App.world App.session App.flashes App.log snd].
  rewrite login_exists_served; [|exact Hu|exact (served_head _ _ Hs)].
  assert (exists p, record (App.world s0) (key pm user) = Some p
                    /\ SSM.Value p = password) as [p [R V]].
  { unfold stored_value in Hv.
    destruct (record (App.world s0) (key pm user)) as [p|];
      [|discriminate].
    exists p. split; [reflexivity|]. simpl in Hv. congruence. }
  replace (holds (App.world s0) (key pm user)) with true
    by (symmetry; apply holds_true; eauto).
  cbn [App.world App.session App.flashes App.log].
  rewrite get_password_served; [|exact Hu|].
  - rewrite heard_record, R, V.
    cbn [App.world App.session App.flashes App.log].
    rewrite String.eqb_refl. reflexivity.
  - apply (served_head _ 0). apply (served_tail (App.world s0) 1 _ Hs).
    reflexivity.
Qed.

End Authentication.

Section Strip.

Lemma rstrip_cons (c : ascii) (s : string) :
  Py.rstrip (String c s)
  = match Py.rstrip s with
    | EmptyString => if Py.isspace c then EmptyString
                     else String c EmptyString
    | kept => String c kept
    end.
Proof. reflexivity. Qed.

Lemma rstrip_idempotent (s : string) :
  Py.rstrip (Py.rstrip s) = Py.rstrip s.
Proof.
  induction s as [|c s IH]; [reflexivity|].
  rewrite (rstrip_cons c s). destruct (Py.rstrip s) as [|d kept] eqn:E.
  - destruct (Py.isspace c) eqn:Hc; [reflexivity|].
    rewrite rstrip_cons. cbn [Py.rstrip]. now rewrite Hc.
  - rewrite rstrip_cons, IH. reflexivity.
Qed.

Lemma rstrip_head (c : ascii) (s : string) :
  Py.isspace c = false ->
  exists kept, Py.rstrip (String c s) = String c kept.
Proof.
  intros Hc. cbn [Py.rstrip]. destruct (Py.rstrip s); rewrite ?Hc; eauto.
Qed.

Lemma lstrip_result (s : string) :
  Py.lstrip s = ""
  \/ exists c rest, Py.lstrip s = String c rest /\ Py.isspace c = false.
Proof.
  induction s as [|c s IH]; [now left|].
  cbn [Py.lstrip]. destruct (Py.isspace c) eqn:Hc; [exact IH|].
  right. eauto.
Qed.

Lemma strip_idempotent (s : string) : Py.strip (Py.strip s) = Py.strip s.
Proof.
  unfold Py.strip. destruct (lstrip_result s) as [E|[c [rest [E Hc]]]].
  - rewrite E. reflexivity.
  - rewrite E. destruct (rstrip_head c rest Hc) as [kept K].
    rewrite K. cbn [Py.lstrip]. rewrite Hc. rewrite <- K.
    apply rstrip_idempotent.
Qed.

End Strip.

(** X9: a login POST that names a login the store holds, with the password
    stored for it (both read from the form with surrounding white space
    removed), redirects to the dashboard, marks the session as logged in
    under that user name and flashes a welcome; the service is assumed to
    answer the two gets. *)
Theorem login_succeeds
        (pm : PasswordManager.self) (request : App.Request)
        (s : App.AppState) :
  let user := submitted_user request in
  let password := submitted_password request in
  App.method request = "POST" ->
  Py.truthy user = true -> Py.truthy password = true ->
  served 2 (App.world s) = true ->
  stored_value (App.world s) (key pm user) = Some password ->
  exists s',
    App.login (Some pm) request s = (Ok (App.redirect "index"), s')
    /\ App.session s' = App.mkSession (Some true) (Some user)
    /\ flashed s s' = [("Welcome, " ++ user ++ "!", "success")].
Proof.
  intros user password Hm Hu Hp Hs Hv.
  rewrite (login_enters_try pm request s Hm Hu Hp).
  fold (submitted_user request). fold (submitted_password request).
  fold user. fold password.
  pose proof (login_try_stored pm user password (attempted user s)
                                Hu Hs Hv) as Ht.
  pose proof (login_try_returned pm user password _ _ _ Hu Ht)
    as [_ [_ [Hsess Hfl]]].
  unfold bind at 1, try_except. rewrite Ht. unfold ret.
  eexists. split; [reflexivity|]. split; [exact Hsess|].
  unfold flashed. rewrite Hfl. unfold attempted.
  cbn [App.logger snd App.flashes].
  rewrite skipn_app, skipn_all, Nat.sub_diag. reflexivity.
Qed.

Lemma login_succeeds_witness :
  exists s',
    App.login (Some sample_manager) (login_post "  alice " "secret ")
              (fresh_state (sample_with [sample_record "alice" "secret"]
                                        []))
    = (Ok (App.redirect "index"), s')
    /\ App.session s' = App.mkSession (Some true) (Some "alice")
    /\ flashed (fresh_state (sample_with [sample_record "alice" "secret"]
                                         [])) s'
       = [("Welcome, alice!", "success")].
Proof.
  apply (login_succeeds sample_manager (login_post "  alice " "secret ")
                        (fresh_state
                           (sample_with [sample_record "alice" "secret"]
                                        [])));
    reflexivity.
Defined.

Section Attempts.

Variable pm : PasswordManager.self.

(** With the two gets answered the [try] block does not raise. *)
Lemma login_try_served (user password : string) (s0 : App.AppState) :
  Py.truthy user = true ->
  served 2 (App.world s0) = true ->
  exists returned s1,
    App.login_try pm user password s0 = (Ok returned, s1).
Proof.
  intros Hu Hs.
  unfold App.login_try, bind, App.logger, App.manager, App.flash,
    App.set_session, ret.
  cbn [App.world App.session App.flashes App.log].
  rewrite login_exists_served; [|exact Hu|exact (served_head _ _ Hs)].
  destruct (holds (App.world s0) (key pm user)) eqn:Hh;
    cbn [App.world App.session App.flashes App.log]; [|eauto].
  rewrite get_password_served; [|exact Hu|].
  - rewrite heard_record. apply holds_true in Hh. destruct Hh as [p R].
    rewrite R. cbn [App.world App.session App.flashes App.log].
    destruct (String.eqb password (SSM.Value p)); eauto.
  - apply (served_head _ 0). apply (served_tail (App.world s0) 1 _ Hs).
    reflexivity.
Qed.

(** What [login] makes of the way its [try] block ended. *)
Lemma login_after_try (request : App.Request) (s : App.AppState) :
  App.method request = "POST" ->
  Py.truthy (submitted_user request) = true ->
  Py.truthy (submitted_password request) = true ->
  App.login (Some pm) request s
  = match App.login_try pm (submitted_user request)
                        (submitted_password request)
                        (attempted (submitted_user request) s) with
    | (Ok (Some response), s1) => (Ok response, s1)
    | (Ok None, s1) => (Ok (App.render_template "login.html"), s1)
    | (Raise e, s1) =>
        (Ok (App.render_template "login.html"),
         reported
           ((if is_PasswordManagerError e
             then "PasswordManagerError during login for '"
             else "Unexpected error during login for '")
              ++ submitted_user request ++ "': " ++ Exceptions.str e)
           (if is_PasswordManagerError e
            then "Authentication error: " ++ Exceptions.str e
            else "System error occurred. Please try again.")
           s1)
    end.
Proof.
  intros Hm Hu Hp.
  rewrite (login_enters_try pm request s Hm Hu Hp).
  fold (submitted_user request). fold (submitted_password request).
  unfold bind at 1, try_except.
  destruct (App.login_try pm (submitted_user request)
                          (submitted_password request)
                          (attempted (submitted_user request) s))
    as [[[response|]|e] s1]; try reflexivity.
  unfold App.login_except.
  destruct (is_PasswordManagerError e); reflexivity.
Qed.

(** [login] redirects only when the submitted password is not empty and
    is the one stored. *)
Lemma login_redirect_matches (request : App.Request) (s : App.AppState)
      (endpoint : string) :
  fst (App.login (Some pm) request s) = Ok (App.redirect endpoint) ->
  Py.truthy (submitted_password request) = true
  /\ stored_value (App.world s) (key pm (submitted_user request))
     = Some (submitted_password request).
Proof.
  intros E.
  destruct (String.eqb_spec (App.method request) "POST") as [Hm|Hm].
  2:{ unfold App.login in E. apply String.eqb_neq in Hm.
      rewrite Hm in E. discriminate. }
  destruct (Py.truthy (submitted_user request)) eqn:Hu.
  2:{ unfold App.login in E. rewrite Hm in E.
      cbn [String.eqb Ascii.eqb Bool.eqb] in E.
      fold (submitted_user request) in E. rewrite Hu in E. discriminate. }
  destruct (Py.truthy (submitted_password request)) eqn:Hp.
  2:{ unfold App.login in E. rewrite Hm in E.
      cbn [String.eqb Ascii.eqb Bool.eqb] in E.
      fold (submitted_user request) in E.
      fold (submitted_password request) in E.
      rewrite Hu, Hp in E. discriminate. }
  rewrite (login_after_try request s Hm Hu Hp) in E.
  destruct (App.login_try pm (submitted_user request)
                          (submitted_password request)
                          (attempted (submitted_user request) s))
    as [[[response|]|e] s1] eqn:Ht; try discriminate.
  pose proof (login_try_returned pm _ _ _ _ _ Hu Ht) as [_ [V _]].
  split; [reflexivity|exact V].
Qed.

End Attempts.

(** X10: a login POST for a login the store does not hold and a login POST
    with a password that is not the stored one get the same answer: the
    login form again, the session untouched, and the one message
    ["Invalid username or password"].  The service is assumed to answer the
    gets. *)
Theorem login_fails_the_same_way
        (pm : PasswordManager.self) (request : App.Request)
        (s : App.AppState) :
  let user := submitted_user request in
  let password := submitted_password request in
  App.method request = "POST" ->
  Py.truthy user = true -> Py.truthy password = true ->
  served 2 (App.world s) = true ->
  stored_value (App.world s) (key pm user) <> Some password ->
  exists s',
    App.login (Some pm) request s
    = (Ok (App.render_template "login.html"), s')
    /\ App.session s' = App.session s
    /\ flashed s s' = [("Invalid username or password", "error")].
Proof.
  intros user password Hm Hu Hp Hs Hv.
  rewrite (login_after_try pm request s Hm Hu Hp). fold user. fold password.
  destruct (login_try_served pm user password (attempted user s) Hu Hs)
    as [returned [s1 Ht]].
  rewrite Ht.
  pose proof (login_try_returned pm user password _ _ _ Hu Ht) as R.
  destruct returned as [response|].
  - destruct R as [_ [V _]]. contradiction.
  - destruct R as [Hsess Hfl]. exists s1. split; [reflexivity|].
    split; [exact Hsess|].
    unfold flashed. rewrite Hfl. unfold attempted.
    cbn [App.logger snd App.flashes].
    rewrite skipn_app, skipn_all, Nat.sub_diag. reflexivity.
Qed.

Lemma login_fails_the_same_way_witness :
  exists s',
    App.login (Some sample_manager) (login_post "mallory" "guess")
              (fresh_state (sample_with [sample_record "alice" "secret"]
                                        []))
    = (Ok (App.render_template "login.html"), s')
    /\ App.session s' = App.mkSession None None
    /\ flashed (fresh_state (sample_with [sample_record "alice" "secret"]
                                         [])) s'
       = [("Invalid username or password", "error")].
Proof.
  apply (login_fails_the_same_way
           sample_manager (login_post "mallory" "guess")
           (fresh_state (sample_with [sample_record "alice" "secret"] [])));
    try reflexivity.
  discriminate.
Defined.

(** X11: [login] never raises and never writes to the store, whatever the
    request and whatever the service refuses.  It redirects to the
    dashboard only for a POST whose password, white space removed, is not
    empty and is the value the store holds for the submitted user name, and
    then records that user in the session; in every other case it shows the
    login form and leaves the session as it was. *)
Theorem login_is_sound
        (pm : option PasswordManager.self) (request : App.Request)
        (s : App.AppState) :
  exists response s',
    App.login pm request s = (Ok response, s')
    /\ SSM.parameters (ssm (App.world s'))
       = SSM.parameters (ssm (App.world s))
    /\ match response with
       | App.redirect endpoint =>
           endpoint = "index"
           /\ App.method request = "POST"
           /\ Py.truthy (submitted_password request) = true
           /\ (exists manager,
                  pm = Some manager
                  /\ stored_value (App.world s)
                                  (key manager (submitted_user request))
                     = Some (submitted_password request))
           /\ App.session s'
              = App.mkSession (Some true) (Some (submitted_user request))
       | App.render_template template =>
           template = "login.html" /\ App.session s' = App.session s
       end.
Proof.
  destruct (String.eqb_spec (App.method request) "POST") as [Hm|Hm].
  2:{ unfold App.login. apply String.eqb_neq in Hm. rewrite Hm.
      eexists. eexists. split; [reflexivity|]. repeat split. }
  destruct pm as [manager|].
  2:{ unfold App.login. rewrite Hm. cbn [String.eqb Ascii.eqb Bool.eqb].
      eexists. eexists. split; [reflexivity|]. repeat split. }
  destruct (Py.truthy (submitted_user request)) eqn:Hu.
  2:{ unfold App.login. rewrite Hm. cbn [String.eqb Ascii.eqb Bool.eqb].
      fold (submitted_user request). rewrite Hu. cbn [negb orb].
      eexists. eexists. split; [reflexivity|]. repeat split. }
  destruct (Py.truthy (submitted_password request)) eqn:Hp.
  2:{ unfold App.login. rewrite Hm. cbn [String.eqb Ascii.eqb Bool.eqb].
      fold (submitted_user request). fold (submitted_password request).
      rewrite Hu, Hp. cbn [negb orb].
      eexists. eexists. split; [reflexivity|]. repeat split. }
  rewrite (login_after_try manager request s Hm Hu Hp).
  pose proof (login_try_table manager (submitted_user request)
                              (submitted_password request)
                              (attempted (submitted_user request) s)) as T.
  destruct (App.login_try manager (submitted_user request)
                          (submitted_password request)
                          (attempted (submitted_user request) s))
    as [[[response|]|e] s1] eqn:Ht; cbn [snd] in T.
  - pose proof (login_try_returned manager _ _ _ _ _ Hu Ht)
      as [-> [V [Hsess _]]].
    eexists. eexists. split; [reflexivity|]. split; [exact T|].
    repeat split; eauto.
  - pose proof (login_try_returned manager _ _ _ _ _ Hu Ht) as [Hsess _].
    eexists. eexists. split; [reflexivity|]. split; [exact T|].
    split; [reflexivity|exact Hsess].
  - pose proof (login_try_raised manager _ _ _ _ _ Ht) as [_ Hsess].
    eexists. eexists. split; [reflexivity|]. split; [exact T|].
    split; [reflexivity|exact Hsess].
Qed.

(** X12: a stored password that begins or ends with white space, or that
    is empty, can never be used on the login page: the form's password is
    stripped and must not be empty before it is compared. *)
Theorem login_never_matches_unstripped_passwords
        (pm : PasswordManager.self) (request : App.Request)
        (s : App.AppState) (stored : string) :
  stored_value (App.world s) (key pm (submitted_user request))
  = Some stored ->
  Py.strip stored <> stored \/ stored = "" ->
  forall endpoint,
    fst (App.login (Some pm) request s) <> Ok (App.redirect endpoint).
Proof.
  intros Hv Hbad endpoint E.
  destruct (login_redirect_matches pm request s endpoint E) as [Hp V].
  rewrite Hv in V. injection V as ->.
  destruct Hbad as [N|N].
  - apply N. unfold submitted_password. apply strip_idempotent.
  - rewrite N in Hp. discriminate.
Qed.

Lemma login_never_matches_unstripped_passwords_witness :
  fst (App.login (Some sample_manager) (login_post "alice" "secret ")
                 (fresh_state (sample_with [sample_record "alice" "secret "]
                                           [])))
  <> Ok (App.redirect "index").
Proof.
  apply (login_never_matches_unstripped_passwords
           sample_manager (login_post "alice" "secret ")
           (fresh_state (sample_with [sample_record "alice" "secret "] []))
           "secret ").
  - reflexivity.
  - left. discriminate.
Defined.

(** X13: a login request that is not a POST changes nothing; a POST whose
    user name or password is empty once stripped, or that finds no manager,
    sends nothing to the store and flashes one message saying so. *)
Theorem login_without_credentials
        (pm : option PasswordManager.self) (request : App.Request)
        (s : App.AppState) :
  (App.method request <> "POST" ->
   App.login pm request s = (Ok (App.render_template "login.html"), s))
  /\ (App.method request = "POST" ->
      pm = None
      \/ Py.truthy (submitted_user request) = false
      \/ Py.truthy (submitted_password request) = false ->
      exists s',
        App.login pm request s = (Ok (App.render_template "login.html"), s')
        /\ App.world s' = App.world s
        /\ App.session s' = App.session s
        /\ flashed s s'
           = [(match pm with
               | None => "System error: Password manager not available"
               | Some _ => "Please enter both username and password"
               end, "error")]).
Proof.
  split.
  - intros Hm. unfold App.login. apply String.eqb_neq in Hm.
    now rewrite Hm.
  - intros Hm H. unfold App.login. rewrite Hm.
    cbn [String.eqb Ascii.eqb Bool.eqb].
    fold (submitted_user request). fold (submitted_password request).
    assert (forall l (x : string * string),
               skipn (length l) (l ++ [x])%list = [x]) as Hskip.
    { intros l x. now rewrite skipn_app, skipn_all, Nat.sub_diag. }
    destruct pm as [manager|].
    + assert (negb (Py.truthy (submitted_user request))
              || negb (Py.truthy (submitted_password request)) = true) as E.
      { destruct H as [H|[H|H]]; [discriminate| |]; rewrite H;
          cbn [negb orb]; [reflexivity|apply orb_true_r]. }
      rewrite E. eexists. split; [reflexivity|].
      repeat split. unfold flashed. cbn. apply Hskip.
    + eexists. split; [reflexivity|].
      repeat split. unfold flashed. cbn. apply Hskip.
Qed.

Lemma login_without_credentials_witness :
  exists s',
    App.login (Some sample_manager) (login_post "alice" "   ")
              (fresh_state sample_world)
    = (Ok (App.render_template "login.html"), s')
    /\ App.world s' = sample_world.
Proof.
  destruct (login_without_credentials
              (Some sample_manager) (login_post "alice" "   ")
              (fresh_state sample_world)) as [_ H].
  destruct (H eq_refl (or_intror (or_intror eq_refl)))
    as [s' [E [W _]]].
  exists s'. split; [exact E|exact W].
Defined.

(* ===================================================================== *)
(** ** Beyond the contract: the command line *)
(* ===================================================================== *)

Section CommandLine.

Variable pm : PasswordManager.self.



End CommandLine.







Lemma init_with_credentials (env : CLI.Environment) (args : CLI.Namespace) :
  CLI.credentials env = true ->
  CLI.__init__ env (CLI.prefix args) (CLI.region args)
  = Ok (PasswordManager.mkSelf (CLI.prefix args)).
Proof.
  intros He. unfold CLI.__init__. rewrite He.
  destruct (CLI.region args) as [r|]; [destruct (Py.truthy r)|];
    reflexivity.
Qed.



(** X18: the [rotate] subcommand for a login the store holds prints the
    new password, and the password it prints is the one the store holds
    afterwards; its length is the requested one, or 8 when less was
    requested.  The service is assumed to answer the three requests. *)
Theorem command_line_rotate_prints_what_is_stored
        (env : CLI.Environment) (usage : string) (args : CLI.Namespace)
        (login : string) (requested : Z) (t : CLI.Terminal) :
  CLI.command args = Some (CLI.rotate login requested) ->
  CLI.credentials env = true ->
  Py.truthy login = true ->
  let pm := PasswordManager.mkSelf (CLI.prefix args) in
  holds (CLI.world t) (key pm login) = true ->
  served 3 (CLI.world t) = true ->
  exists rotated w',
    CLI.main env usage args t
    = (0, CLI.mkTerminal
            w'
            (CLI.stdout t
               ++ [("Password for login '" ++ login
                      ++ "' rotated. New password: " ++ rotated)%string])%list)
    /\ stored_value w' (key pm login) = Some rotated
    /\ String.length rotated = Z.to_nat (Z.max requested 8).
Proof.
  intros Hc He Hl pm Hh Hs.
  unfold CLI.main, CLI.main_try. rewrite Hc.
  rewrite (init_with_credentials env args He). fold pm.
  cbn [CLI.dispatch]. unfold bind at 1, CLI.manager.
  rewrite rotate_password_held by assumption.
  eexists. eexists. split; [reflexivity|]. split.
  - cbn [CLI.world]. rewrite tagged_value. apply overwritten_value.
  - rewrite spell_length by apply picks_below.
    now rewrite length_map, length_seq.
Qed.

Lemma command_line_rotate_prints_what_is_stored_witness :
  exists rotated w',
    CLI.main (CLI.mkEnvironment true) "usage"
             (CLI.mkNamespace "/passwords/" None
                              (Some (CLI.rotate "alice" 4%Z)))
             (CLI.mkTerminal (sample_with [sample_record "alice" "old"] [])
                             [])
    = (0, CLI.mkTerminal
            w'
            ["Password for login 'alice' rotated. New password: "
               ++ rotated])
    /\ stored_value w' (key sample_manager "alice") = Some rotated
    /\ String.length rotated = 8.
Proof.
  apply (command_line_rotate_prints_what_is_stored
           (CLI.mkEnvironment true) "usage"
           (CLI.mkNamespace "/passwords/" None
                            (Some (CLI.rotate "alice" 4%Z)))
           "alice" 4%Z
           (CLI.mkTerminal (sample_with [sample_record "alice" "old"] [])
                           []));
    reflexivity.
Defined.

(* ===================================================================== *)
(** ** Beyond the contract: the dashboard and the instance it starts *)
(* ===================================================================== *)

Section Compute.

Lemma lookup_all_single (id : string) (l : list EC2.Instance) :
  EC2.lookup_all [id] l
  = match EC2.lookup id l with
    | Some i => Some [i]
    | None => None
    end.
Proof. simpl. now destruct (EC2.lookup id l). Qed.

Lemma compute_served_head n (s : Dashboard.Site) :
  compute_served (S n) s = true ->
  hd None (EC2.outages (Dashboard.ec2 s)) = None.
Proof.
  unfold compute_served.
  destruct (EC2.outages (Dashboard.ec2 s)) as [|[o|] rest]; simpl; auto.
  discriminate.
Qed.

Lemma compute_served_tail n (s s' : Dashboard.Site) :
  compute_served (S n) s = true ->
  EC2.outages (Dashboard.ec2 s') = tl (EC2.outages (Dashboard.ec2 s)) ->
  compute_served n s' = true.
Proof.
  unfold compute_served. intros H E. rewrite E.
  destruct (EC2.outages (Dashboard.ec2 s)) as [|[o|] rest]; simpl in *.
  - now destruct n.
  - discriminate.
  - exact H.
Qed.

(** The state of an instance after the stopped ones among [ids] were set
    to pending. *)
Lemma lookup_started (id : string) (l : list EC2.Instance) :
  EC2.lookup id
    (map (fun i => if existsb (String.eqb (EC2.InstanceId i)) [id]
                      && String.eqb (EC2.State i) "stopped"
                   then EC2.with_state "pending" i else i) l)
  = option_map (fun i => if String.eqb (EC2.State i) "stopped"
                         then EC2.with_state "pending" i else i)
               (EC2.lookup id l).
Proof.
  unfold EC2.lookup. induction l as [|i l IH]; [reflexivity|].
  cbn [map find existsb].
  destruct (String.eqb_spec (EC2.InstanceId i) id) as [E|N].
  - destruct (String.eqb (EC2.State i) "stopped") eqn:St;
      cbn [orb andb option_map EC2.with_state EC2.InstanceId];
      rewrite ?E, ?String.eqb_refl, ?St; reflexivity.
  - cbn [orb andb]. apply String.eqb_neq in N. rewrite N. exact IH.
Qed.

End Compute.

Section StatusRead.

Variable id : string.

Lemma describe_instances_served (i : EC2.Instance) (s : Dashboard.Site) :
  hd None (EC2.outages (Dashboard.ec2 s)) = None ->
  instance_of s id = Some i ->
  Dashboard.client (EC2.describe_instances [id]) s
  = (Ok [[i]], asked (describe_request id) s).
Proof.
  intros Ho Hi. unfold Dashboard.client, EC2.describe_instances, asked,
                  describe_request, EC2.receive.
  rewrite Ho. cbn [EC2.instances]. rewrite lookup_all_single.
  unfold instance_of in Hi. rewrite Hi. reflexivity.
Qed.

Lemma start_instances_served (i : EC2.Instance) (s : Dashboard.Site) :
  hd None (EC2.outages (Dashboard.ec2 s)) = None ->
  instance_of s id = Some i ->
  EC2.State i = "stopped" ->
  Dashboard.client (EC2.start_instances [id]) s
  = (Ok (EC2.shown (Dashboard.ec2 s)), booted id (asked (start_request id) s)).
Proof.
  intros Ho Hi Hst. unfold Dashboard.client, EC2.start_instances, asked,
                      booted, start_request, EC2.receive.
  rewrite Ho. cbn [EC2.instances]. rewrite lookup_all_single.
  unfold instance_of in Hi. rewrite Hi.
  cbn [forallb]. unfold EC2.startable. rewrite Hst. reflexivity.
Qed.

Lemma start_instances_refused (code message : string) (s : Dashboard.Site) :
  hd None (EC2.outages (Dashboard.ec2 s)) = Some (code, message) ->
  Dashboard.client (EC2.start_instances [id]) s
  = (Raise (ClientError
              (Botocore.mkClientError code message "StartInstances")),
     asked (start_request id) s).
Proof.
  intros Ho. unfold Dashboard.client, EC2.start_instances, asked,
               start_request, EC2.receive.
  rewrite Ho. reflexivity.
Qed.

Lemma describe_instance_status_served (i : EC2.Instance)
      (s : Dashboard.Site) :
  hd None (EC2.outages (Dashboard.ec2 s)) = None ->
  instance_of s id = Some i ->
  Dashboard.client (EC2.describe_instance_status [id]) s
  = (Ok (if String.eqb (EC2.State i) "running"
         then [(EC2.SystemStatus i, EC2.InstanceStatus i)] else []),
     asked (checks_request id) s).
Proof.
  intros Ho Hi. unfold Dashboard.client, EC2.describe_instance_status,
                  asked, checks_request, EC2.receive.
  rewrite Ho. cbn [EC2.instances]. rewrite lookup_all_single.
  unfold instance_of in Hi. rewrite Hi. cbn [filter map].
  destruct (String.eqb (EC2.State i) "running"); reflexivity.
Qed.

Lemma booted_instance (s : Dashboard.Site) :
  instance_of (booted id s) id
  = option_map (fun i => if String.eqb (EC2.State i) "stopped"
                         then EC2.with_state "pending" i else i)
               (instance_of s id).
Proof. unfold instance_of, booted. cbn. apply lookup_started. Qed.

Lemma bind_ok {S A B : Type} (c : M S A) (k : A -> M S B) (s s' : S)
      (a : A) :
  c s = (Ok a, s') -> bind c k s = k a s'.
Proof. intros E. unfold bind. now rewrite E. Qed.

Lemma bind_raise {S A B : Type} (c : M S A) (k : A -> M S B) (s s' : S)
      (e : Exception) :
  c s = (Raise e, s') -> bind c k s = (Raise e, s').
Proof. intros E. unfold bind. now rewrite E. Qed.

Lemma try_ok {S A : Type} (body : M S A) handler (s s' : S) (a : A) :
  body s = (Ok a, s') -> try_except body handler s = (Ok a, s').
Proof. intros E. unfold try_except. now rewrite E. Qed.

Lemma try_caught {S A : Type} (body : M S A) handler (h : M S A)
      (s s' : S) (e : Exception) :
  body s = (Raise e, s') -> handler e = Some h ->
  try_except body handler s = h s'.
Proof. intros E H. unfold try_except. now rewrite E, H. Qed.

Lemma logger_noted (level message : string) (s : Dashboard.Site) :
  Dashboard.logger level message s = (Ok tt, noted level message s).
Proof. reflexivity. Qed.

Lemma status_try_stopped (i : EC2.Instance) (s : Dashboard.Site) :
  compute_served 3 s = true ->
  instance_of s id = Some i ->
  EC2.State i = "stopped" ->
  Dashboard.status_try id s
  = (Ok (status_of id "pending" true i ("N/A", "N/A")),
     noted "info" ("Instance " ++ id ++ " status: pending")
       (asked (checks_request id)
          (noted "info"
             ("Start command sent for instance " ++ id ++ ": "
                ++ EC2.shown (Dashboard.ec2 s))
             (booted id
                (asked (start_request id)
                   (noted "info"
                      ("Instance " ++ id
                         ++ " is stopped. Attempting to start it automatically.")
                      (asked (describe_request id)
                         (noted "info"
                            ("Checking status for instance: " ++ id)
                            s)))))))).
Proof.
  intros Hs Hi Hst. unfold Dashboard.status_try.
  rewrite (bind_ok _ _ _ _ _ (logger_noted _ _ _)).
  set (s1 := noted "info" _ s).
  rewrite (bind_ok _ _ _ _ _
             (describe_instances_served i s1
                (compute_served_head _ _ Hs) Hi)).
  cbn [Dashboard.first].
  set (s2 := asked (describe_request id) s1).
  rewrite (bind_ok _ _ s2 s2 i eq_refl).
  rewrite Hst. cbn [String.eqb Ascii.eqb Bool.eqb].
  assert (compute_served 2 s2 = true) as Hs2.
  { apply (compute_served_tail 2 s _ Hs). reflexivity. }
  set (s3 := noted "info"
                   ("Instance " ++ id
                      ++ " is stopped. Attempting to start it automatically.")
                   s2).
  set (s5 := noted "info"
                   ("Start command sent for instance " ++ id ++ ": "
                      ++ EC2.shown (Dashboard.ec2 s))
                   (booted id (asked (start_request id) s3))).
  match goal with
  | |- bind ?c ?k s2 = _ =>
      assert (c s2 = (Ok ("pending", true), s5)) as Estart
  end.
  { rewrite (bind_ok _ _ _ _ _ (logger_noted _ _ _)). fold s3.
    apply try_ok.
    rewrite (bind_ok _ _ _ _ _
               (start_instances_served i s3
                  (compute_served_head _ _ Hs2) Hi Hst)).
    rewrite (bind_ok _ _ _ _ _ (logger_noted _ _ _)). reflexivity. }
  rewrite (bind_ok _ _ _ _ _ Estart). cbn [fst snd].
  assert (compute_served 1 s5 = true) as Hs5.
  { apply (compute_served_tail 1 s2 _ Hs2). reflexivity. }
  assert (instance_of s5 id = Some (EC2.with_state "pending" i)) as Hi5.
  { change (instance_of s5 id)
      with (instance_of (booted id (asked (start_request id) s3)) id).
    rewrite booted_instance.
    change (instance_of (asked (start_request id) s3) id)
      with (instance_of s id).
    rewrite Hi. cbn [option_map]. now rewrite Hst. }
  rewrite (bind_ok _ _ _ _ _
             (describe_instance_status_served _ s5
                (compute_served_head _ _ Hs5) Hi5)).
  cbn [EC2.with_state EC2.State String.eqb Ascii.eqb Bool.eqb].
  rewrite (bind_ok _ _ _ _ _ (logger_noted _ _ _)).
  reflexivity.
Qed.

Lemma status_field (state : string) :
  (if String.eqb state "running" then "running" else state) = state.
Proof.
  destruct (String.eqb_spec state "running") as [->|]; reflexivity.
Qed.

(** A status read of an instance that is not stopped, both requests
    served. *)
Lemma status_try_idle (i : EC2.Instance) (s : Dashboard.Site) :
  compute_served 2 s = true ->
  instance_of s id = Some i ->
  EC2.State i <> "stopped" ->
  Dashboard.status_try id s
  = (Ok (status_of id (EC2.State i) false i
                   (if String.eqb (EC2.State i) "running"
                    then (EC2.SystemStatus i, EC2.InstanceStatus i)
                    else ("N/A", "N/A"))),
     noted "info" ("Instance " ++ id ++ " status: " ++ EC2.State i)
       (asked (checks_request id)
          (asked (describe_request id)
             (noted "info" ("Checking status for instance: " ++ id) s)))).
Proof.
  intros Hs Hi Hst. unfold Dashboard.status_try.
  rewrite (bind_ok _ _ _ _ _ (logger_noted _ _ _)).
  set (s1 := noted "info" _ s).
  rewrite (bind_ok _ _ _ _ _
             (describe_instances_served i s1
                (compute_served_head _ _ Hs) Hi)).
  cbn [Dashboard.first].
  set (s2 := asked (describe_request id) s1).
  rewrite (bind_ok _ _ s2 s2 i eq_refl).
  apply String.eqb_neq in Hst. rewrite Hst.
  rewrite (bind_ok _ _ s2 s2 (EC2.State i, false) eq_refl).
  cbn [fst snd].
  assert (compute_served 1 s2 = true) as Hs2.
  { apply (compute_served_tail 1 s _ Hs). reflexivity. }
  rewrite (bind_ok _ _ _ _ _
             (describe_instance_status_served i s2
                (compute_served_head _ _ Hs2) Hi)).
  rewrite (bind_ok _ _ _ _ _ (logger_noted _ _ _)).
  unfold ret, status_of. rewrite status_field.
  destruct (String.eqb (EC2.State i) "running"); reflexivity.
Qed.

(** A status read of a stopped instance whose start is refused. *)
Lemma status_try_start_refused (i : EC2.Instance) (code message : string)
      (rest : list (option (string * string))) (s : Dashboard.Site) :
  EC2.outages (Dashboard.ec2 s)
  = None :: Some (code, message) :: None :: rest ->
  instance_of s id = Some i ->
  EC2.State i = "stopped" ->
  Dashboard.status_try id s
  = (Ok (status_of id "stopped" false i ("N/A", "N/A")),
     noted "info" ("Instance " ++ id ++ " status: stopped")
       (asked (checks_request id)
          (noted "error"
             ("Failed to auto-start instance " ++ id ++ ": "
                ++ Botocore.str (Botocore.mkClientError
                                   code message "StartInstances"))
             (asked (start_request id)
                (noted "info"
                   ("Instance " ++ id
                      ++ " is stopped. Attempting to start it automatically.")
                   (asked (describe_request id)
                      (noted "info"
                         ("Checking status for instance: " ++ id) s))))))).
Proof.
  intros Ho Hi Hst. unfold Dashboard.status_try.
  rewrite (bind_ok _ _ _ _ _ (logger_noted _ _ _)).
  set (s1 := noted "info" _ s).
  assert (hd None (EC2.outages (Dashboard.ec2 s1)) = None) as H1.
  { change (EC2.outages (Dashboard.ec2 s1))
      with (EC2.outages (Dashboard.ec2 s)). now rewrite Ho. }
  rewrite (bind_ok _ _ _ _ _ (describe_instances_served i s1 H1 Hi)).
  cbn [Dashboard.first].
  set (s2 := asked (describe_request id) s1).
  rewrite (bind_ok _ _ s2 s2 i eq_refl).
  rewrite Hst. cbn [String.eqb Ascii.eqb Bool.eqb].
  set (s3 := noted "info"
                   ("Instance " ++ id
                      ++ " is stopped. Attempting to start it automatically.")
                   s2).
  set (s4 := asked (start_request id) s3).
  set (s5 := noted "error"
                   ("Failed to auto-start instance " ++ id ++ ": "
                      ++ Botocore.str (Botocore.mkClientError
                                         code message "StartInstances"))
                   s4).
  assert (hd None (EC2.outages (Dashboard.ec2 s3)) = Some (code, message))
    as H3.
  { change (EC2.outages (Dashboard.ec2 s3))
      with (tl (EC2.outages (Dashboard.ec2 s))). now rewrite Ho. }
  match goal with
  | |- bind ?c ?k s2 = _ =>
      assert (c s2 = (Ok ("stopped", false), s5)) as Estart
  end.
  { rewrite (bind_ok _ _ _ _ _ (logger_noted _ _ _)). fold s3.
    rewrite (try_caught _ _ _ _ _ _
               (bind_raise _ _ _ _ _
                  (start_instances_refused code message s3 H3))
               eq_refl).
    rewrite (bind_ok _ _ _ _ _ (logger_noted _ _ _)). reflexivity. }
  rewrite (bind_ok _ _ _ _ _ Estart). cbn [fst snd].
  assert (hd None (EC2.outages (Dashboard.ec2 s5)) = None) as H5.
  { change (EC2.outages (Dashboard.ec2 s5))
      with (tl (tl (EC2.outages (Dashboard.ec2 s)))). now rewrite Ho. }
  assert (instance_of s5 id = Some i) as Hi5 by exact Hi.
  rewrite (bind_ok _ _ _ _ _
             (describe_instance_status_served i s5 H5 Hi5)).
  rewrite Hst. cbn [String.eqb Ascii.eqb Bool.eqb].
  rewrite (bind_ok _ _ _ _ _ (logger_noted _ _ _)).
  reflexivity.
Qed.

End StatusRead.

Section StatusContract.

Variable id : string.

Lemma get_instance_status_enabled (s : Dashboard.Site) :
  Py.truthy id = true ->
  Dashboard.get_instance_status true id s
  = try_except (Dashboard.status_try id) (Dashboard.status_except id) s.
Proof.
  intros Hid. unfold Dashboard.get_instance_status. now rewrite Hid.
Qed.

(** A read whose first request fails ends in the error dictionary. *)
Lemma get_instance_status_failed (s : Dashboard.Site) (code message : string) :
  Py.truthy id = true ->
  Dashboard.client (EC2.describe_instances [id]) s
  = (Raise (ClientError (Botocore.mkClientError code message
                                                "DescribeInstances")),
     asked (describe_request id) s) ->
  Dashboard.get_instance_status true id s
  = (Ok (error_status (compute_error id code message)),
     noted "error" ("Error checking instance " ++ id ++ ": "
                      ++ compute_error id code message)
       (asked (describe_request id)
          (noted "info" ("Checking status for instance: " ++ id) s))).
Proof.
  intros Hid E. rewrite get_instance_status_enabled by exact Hid.
  assert (Dashboard.status_try id s
          = (Raise (ClientError (Botocore.mkClientError
                                   code message "DescribeInstances")),
             asked (describe_request id)
                   (noted "info" ("Checking status for instance: " ++ id)
                          s))) as Et.
  { unfold Dashboard.status_try.
    rewrite (bind_ok _ _ _ _ _ (logger_noted _ _ _)).
    apply bind_raise.
    unfold Dashboard.client in *. unfold noted, Dashboard.logger.
    cbn [snd Dashboard.ec2 Dashboard.app].
    destruct (EC2.describe_instances [id] (Dashboard.ec2 s)) as [r e'].
    injection E as -> ->. reflexivity. }
  rewrite (try_caught _ _ _ _ _ _ Et eq_refl).
  cbn [Botocore.Code Botocore.Message].
  rewrite (bind_ok _ _ _ _ _ (logger_noted _ _ _)). reflexivity.
Qed.

End StatusContract.

(** X19: reading the status of a stopped instance starts it.  With the
    client built, an id configured and the three requests served, the read
    of an instance observed [stopped] sends a start for it between the two
    describes, leaves it [pending] in the compute service, and reports
    state and status [pending] with [auto_started] true. *)
Theorem status_read_starts_a_stopped_instance
        (id : string) (i : EC2.Instance) (s : Dashboard.Site) :
  Py.truthy id = true ->
  compute_served 3 s = true ->
  instance_of s id = Some i ->
  EC2.State i = "stopped" ->
  exists s',
    Dashboard.get_instance_status true id s
    = (Ok (status_of id "pending" true i ("N/A", "N/A")), s')
    /\ instance_state s' id = Some "pending"
    /\ compute_requests s'
       = (compute_requests s ++ [describe_request id; start_request id;
                                 checks_request id])%list
    /\ visible s' = visible s.
Proof.
  intros Hid Hs Hi Hst.
  rewrite get_instance_status_enabled by exact Hid.
  rewrite (try_ok _ _ _ _ _ (status_try_stopped id i s Hs Hi Hst)).
  eexists. split; [reflexivity|]. split; [|split].
  - unfold instance_state.
    change (EC2.lookup id (EC2.instances (Dashboard.ec2 ?x)))
      with (instance_of x id).
    match goal with
    | |- option_map _ (instance_of ?x id) = _ =>
        change (instance_of x id)
          with (instance_of
                  (booted id
                     (asked (start_request id)
                        (noted "info"
                           ("Instance " ++ id
                              ++ " is stopped. Attempting to start it automatically.")
                           (asked (describe_request id)
                              (noted "info"
                                 ("Checking status for instance: " ++ id)
                                 s))))) id)
    end.
    rewrite booted_instance.
    change (instance_of (asked (start_request id) _) id)
      with (instance_of s id).
    rewrite Hi. cbn [option_map]. rewrite Hst. reflexivity.
  - unfold compute_requests. cbn. now rewrite <- !app_assoc.
  - reflexivity.
Qed.

Lemma status_read_starts_a_stopped_instance_witness :
  exists s',
    Dashboard.get_instance_status
      true "i-1"
      (sample_site [sample_instance "i-1" "stopped"] []
                   (App.mkSession (Some true) (Some "alice")))
    = (Ok (status_of "i-1" "pending" true (sample_instance "i-1" "stopped")
                     ("N/A", "N/A")), s')
    /\ instance_state s' "i-1" = Some "pending".
Proof.
  destruct (status_read_starts_a_stopped_instance
              "i-1" (sample_instance "i-1" "stopped")
              (sample_site [sample_instance "i-1" "stopped"] []
                           (App.mkSession (Some true) (Some "alice")))
              eq_refl eq_refl eq_refl eq_refl) as [s' [E [S _]]].
  exists s'. split; [exact E|exact S].
Defined.

(** X20: when the start of a stopped instance is refused, the read does
    not fail: it logs the refusal, goes on to the status checks and reports
    the instance as [stopped] with [auto_started] false; the instance stays
    stopped. *)
Theorem status_read_survives_a_refused_start
        (id code message : string) (i : EC2.Instance)
        (rest : list (option (string * string))) (s : Dashboard.Site) :
  Py.truthy id = true ->
  EC2.outages (Dashboard.ec2 s)
  = None :: Some (code, message) :: None :: rest ->
  instance_of s id = Some i ->
  EC2.State i = "stopped" ->
  exists s',
    Dashboard.get_instance_status true id s
    = (Ok (status_of id "stopped" false i ("N/A", "N/A")), s')
    /\ instance_state s' id = Some "stopped"
    /\ In ("error",
           "Failed to auto-start instance " ++ id ++ ": "
             ++ Botocore.str (Botocore.mkClientError code message
                                                     "StartInstances"))
          (App.log (Dashboard.app s'))
    /\ compute_requests s'
       = (compute_requests s ++ [describe_request id; start_request id;
                                 checks_request id])%list.
Proof.
  intros Hid Ho Hi Hst.
  rewrite get_instance_status_enabled by exact Hid.
  rewrite (try_ok _ _ _ _ _
             (status_try_start_refused id i code message rest s Ho Hi Hst)).
  eexists. split; [reflexivity|]. split; [|split].
  - unfold instance_state.
    change (EC2.lookup id (EC2.instances (Dashboard.ec2 ?x)))
      with (instance_of x id).
    match goal with
    | |- option_map _ (instance_of ?x id) = _ =>
        change (instance_of x id) with (instance_of s id)
    end.
    rewrite Hi. cbn [option_map]. now rewrite Hst.
  - cbn. apply in_or_app. left. apply in_or_app. right. now left.
  - unfold compute_requests. cbn. now rewrite <- !app_assoc.
Qed.

Lemma status_read_survives_a_refused_start_witness :
  exists s',
    Dashboard.get_instance_status
      true "i-1"
      (sample_site [sample_instance "i-1" "stopped"]
                   [None; Some ("UnauthorizedOperation", "denied"); None]
                   (App.mkSession (Some true) (Some "alice")))
    = (Ok (status_of "i-1" "stopped" false (sample_instance "i-1" "stopped")
                     ("N/A", "N/A")), s')
    /\ instance_state s' "i-1" = Some "stopped".
Proof.
  destruct (status_read_survives_a_refused_start
              "i-1" "UnauthorizedOperation" "denied"
              (sample_instance "i-1" "stopped") []
              (sample_site [sample_instance "i-1" "stopped"]
                           [None; Some ("UnauthorizedOperation", "denied");
                            None]
                           (App.mkSession (Some true) (Some "alice")))
              eq_refl eq_refl eq_refl eq_refl) as [s' [E [S _]]].
  exists s'. split; [exact E|exact S].
Defined.

(** X21: reading the status of an instance that is not stopped changes
    nothing in the compute service: it sends the two describes and no
    start, and reports the state observed, also as the status, with
    [auto_started] false; the status checks are those of the instance when
    it is running and ["N/A"] otherwise. *)
Theorem status_read_of_an_instance_not_stopped
        (id : string) (i : EC2.Instance) (s : Dashboard.Site) :
  Py.truthy id = true ->
  compute_served 2 s = true ->
  instance_of s id = Some i ->
  EC2.State i <> "stopped" ->
  exists s',
    Dashboard.get_instance_status true id s
    = (Ok (status_of id (EC2.State i) false i
                     (if String.eqb (EC2.State i) "running"
                      then (EC2.SystemStatus i, EC2.InstanceStatus i)
                      else ("N/A", "N/A"))), s')
    /\ EC2.instances (Dashboard.ec2 s') = EC2.instances (Dashboard.ec2 s)
    /\ compute_requests s'
       = (compute_requests s ++ [describe_request id;
                                 checks_request id])%list
    /\ visible s' = visible s.
Proof.
  intros Hid Hs Hi Hst.
  rewrite get_instance_status_enabled by exact Hid.
  rewrite (try_ok _ _ _ _ _ (status_try_idle id i s Hs Hi Hst)).
  eexists. split; [reflexivity|]. split; [reflexivity|]. split.
  - unfold compute_requests. cbn. now rewrite <- !app_assoc.
  - reflexivity.
Qed.

Lemma status_read_of_an_instance_not_stopped_witness :
  exists s',
    Dashboard.get_instance_status
      true "i-1"
      (sample_site [sample_instance "i-1" "running"] []
                   (App.mkSession (Some true) (Some "alice")))
    = (Ok (status_of "i-1" "running" false (sample_instance "i-1" "running")
                     ("ok", "ok")), s')
    /\ compute_requests s'
       = [describe_request "i-1"; checks_request "i-1"].
Proof.
  destruct (status_read_of_an_instance_not_stopped
              "i-1" (sample_instance "i-1" "running")
              (sample_site [sample_instance "i-1" "running"] []
                           (App.mkSession (Some true) (Some "alice")))
              eq_refl eq_refl eq_refl) as [s' [E [_ [R _]]]].
  - discriminate.
  - exists s'. split; [exact E|exact R].
Defined.

Section StatusAlways.

Lemma yields_anything {S A : Type} (c : M S A) : yields c anything anything.
Proof. intros s. destruct (fst (c s)); exact I. Qed.

Lemma yields_returns {S A : Type} (c : M S A) (good : A -> Prop) (s : S) :
  yields c good nothing ->
  exists a s', c s = (Ok a, s') /\ good a.
Proof.
  intros Y. specialize (Y s). destruct (c s) as [[a|e] s']; cbn in Y.
  - eauto.
  - contradiction.
Qed.

Lemma status_try_reports (id : string) :
  yields (Dashboard.status_try id) reports anything.
Proof.
  unfold Dashboard.status_try.
  apply yields_bind with (mid := anything); [apply yields_anything|].
  intros _ _.
  apply yields_bind with (mid := anything); [apply yields_anything|].
  intros [|reservation others] _.
  - apply yields_ret. split; eexists; reflexivity.
  - apply yields_bind with (mid := anything); [apply yields_anything|].
    intros instance _.
    apply yields_bind with (mid := anything); [apply yields_anything|].
    intros started _.
    apply yields_bind with (mid := anything); [apply yields_anything|].
    intros statuses _.
    apply yields_bind with (mid := anything); [apply yields_anything|].
    intros _ _. apply yields_ret.
    destruct statuses; split; eexists; reflexivity.
Qed.

Lemma status_except_reports (id : string) (e : Exception) :
  exists h, Dashboard.status_except id e = Some h
            /\ yields h reports nothing.
Proof.
  assert (forall entry text,
             yields (S := Dashboard.Site)
                    (bind (Dashboard.logger "error" entry)
                          (fun _ => ret [("status", Dashboard.Str "error");
                                         ("state", Dashboard.Str "N/A");
                                         ("error", Dashboard.Str text)]))
                    reports nothing) as H.
  { intros entry text s. cbn. split; eexists; reflexivity. }
  destruct e; eexists; (split; [reflexivity|apply H]).
Qed.

Lemma get_instance_status_reports (ec2_client : bool) (id : string) :
  yields (Dashboard.get_instance_status ec2_client id) reports nothing.
Proof.
  unfold Dashboard.get_instance_status.
  destruct (negb ec2_client || negb (Py.truthy id)).
  - apply yields_ret. split; eexists; reflexivity.
  - eapply yields_try; [apply status_try_reports|].
    intros e _. destruct (status_except_reports id e) as [h [-> Y]].
    exact Y.
Qed.

Variable v : World * App.Session * list (string * string).

Let seen (s : Dashboard.Site) : Prop := visible s = v.

Lemma logger_seen (level message : string) :
  preserves seen (Dashboard.logger level message).
Proof. intros s H. exact H. Qed.

Lemma client_seen {A : Type} (c : M EC2.Service A) :
  preserves seen (Dashboard.client c).
Proof.
  intros s H. unfold Dashboard.client. now destruct (c (Dashboard.ec2 s)).
Qed.

Lemma status_try_seen (id : string) :
  preserves seen (Dashboard.status_try id).
Proof.
  unfold Dashboard.status_try.
  apply preserves_bind; [apply logger_seen|]. intros _.
  apply preserves_bind; [apply client_seen|].
  intros [|reservation others]; [apply preserves_ret|].
  apply preserves_bind.
  { destruct reservation; [apply preserves_raise|apply preserves_ret]. }
  intros instance. apply preserves_bind.
  { apply preserves_if; [|apply preserves_ret].
    apply preserves_bind; [apply logger_seen|]. intros _.
    apply preserves_try.
    - apply preserves_bind; [apply client_seen|]. intros response.
      apply preserves_bind; [apply logger_seen|]. intros _.
      apply preserves_ret.
    - intros e h E. destruct e; try discriminate. injection E as <-.
      apply preserves_bind; [apply logger_seen|]. intros _.
      apply preserves_ret. }
  intros started. apply preserves_bind; [apply client_seen|].
  intros statuses. apply preserves_bind; [apply logger_seen|]. intros _.
  apply preserves_ret.
Qed.

Lemma get_instance_status_seen (ec2_client : bool) (id : string) :
  preserves seen (Dashboard.get_instance_status ec2_client id).
Proof.
  unfold Dashboard.get_instance_status.
  apply preserves_if; [apply preserves_ret|].
  apply preserves_try; [apply status_try_seen|].
  intros e h E.
  assert (forall entry (d : Dashboard.Dict),
             preserves seen (bind (Dashboard.logger "error" entry)
                                  (fun _ => ret d))) as H.
  { intros entry d. apply preserves_bind; [apply logger_seen|].
    intros _. apply preserves_ret. }
  destruct e; injection E as <-; apply H.
Qed.

End StatusAlways.

(** X22: [get_instance_status] never raises, whatever the compute service
    answers or refuses and whether or not a client and an id are there: it
    always returns a dictionary with a ['status'] and a ['state'], and it
    touches neither the store, nor the session, nor the flashed
    messages. *)
Theorem status_read_never_fails
        (ec2_client : bool) (id : string) (s : Dashboard.Site) :
  exists d s',
    Dashboard.get_instance_status ec2_client id s = (Ok d, s')
    /\ reports d
    /\ visible s' = visible s.
Proof.
  destruct (yields_returns _ _ s (get_instance_status_reports ec2_client id))
    as [d [s' [E R]]].
  exists d, s'. split; [exact E|]. split; [exact R|].
  pose proof (get_instance_status_seen (visible s) ec2_client id s eq_refl)
    as V.
  rewrite E in V. exact V.
Qed.

(** X23: the errors of a status read.  Without a client or without an id
    nothing is asked and the status is [unknown]; an id the compute service
    does not know is reported as not found; a refusal of the first request
    is reported by its code: not found, access denied, or the service's own
    message.  In each case one request at most was sent and no start. *)
Theorem status_read_reports_errors
        (ec2_client : bool) (id : string) (s : Dashboard.Site) :
  (ec2_client = false \/ Py.truthy id = false ->
   Dashboard.get_instance_status ec2_client id s
   = (Ok [("status", Dashboard.Str "unknown");
          ("state", Dashboard.Str "N/A");
          ("error",
           Dashboard.Str
             "EC2 client not available or instance ID not configured")],
      s))
  /\ (ec2_client = true -> Py.truthy id = true ->
      (hd None (EC2.outages (Dashboard.ec2 s)) = None ->
       instance_of s id = None ->
       exists s',
         Dashboard.get_instance_status ec2_client id s
         = (Ok (error_status ("Instance " ++ id ++ " not found")), s')
         /\ compute_requests s'
            = (compute_requests s ++ [describe_request id])%list)
      /\ (forall code message,
             hd None (EC2.outages (Dashboard.ec2 s)) = Some (code, message) ->
             exists s',
               Dashboard.get_instance_status ec2_client id s
               = (Ok (error_status (compute_error id code message)), s')
               /\ compute_requests s'
                  = (compute_requests s ++ [describe_request id])%list)).
Proof.
  split.
  - intros H. unfold Dashboard.get_instance_status.
    assert (negb ec2_client || negb (Py.truthy id) = true) as ->.
    { destruct H as [->| ->]; [reflexivity|apply orb_true_r]. }
    reflexivity.
  - intros -> Hid. split.
    + intros Ho Hi.
      rewrite (get_instance_status_failed
                 id s "InvalidInstanceID.NotFound"
                 "The instance ID does not exist" Hid).
      * eexists. split; [reflexivity|reflexivity].
      * unfold Dashboard.client, EC2.describe_instances, asked,
          describe_request, EC2.receive.
        rewrite Ho. cbn [EC2.instances]. rewrite lookup_all_single.
        unfold instance_of in Hi. rewrite Hi. reflexivity.
    + intros code message Ho.
      rewrite (get_instance_status_failed id s code message Hid).
      * eexists. split; [reflexivity|reflexivity].
      * unfold Dashboard.client, EC2.describe_instances, asked,
          describe_request, EC2.receive.
        rewrite Ho. reflexivity.
Qed.

Lemma status_read_reports_errors_witness :
  exists s',
    Dashboard.get_instance_status
      true "i-1"
      (sample_site [sample_instance "i-1" "running"]
                   [Some ("UnauthorizedOperation", "denied")]
                   (App.mkSession (Some true) (Some "alice")))
    = (Ok (error_status
             "Access denied - insufficient permissions to describe instances"),
       s')
    /\ compute_requests s' = [describe_request "i-1"].
Proof.
  destruct (status_read_reports_errors
              true "i-1"
              (sample_site [sample_instance "i-1" "running"]
                           [Some ("UnauthorizedOperation", "denied")]
                           (App.mkSession (Some true) (Some "alice"))))
    as [_ H].
  destruct (H eq_refl eq_refl) as [_ H'].
  exact (H' "UnauthorizedOperation" "denied" eq_refl).
Defined.

(** X24: a stopped instance is started once.  When two status reads follow
    one another and the five requests are served, the first sends the start
    and the second, finding the instance [pending], sends none: it reports
    [pending] with [auto_started] false. *)
Theorem status_read_starts_only_once
        (id : string) (i : EC2.Instance) (s : Dashboard.Site) :
  Py.truthy id = true ->
  compute_served 5 s = true ->
  instance_of s id = Some i ->
  EC2.State i = "stopped" ->
  exists s1 s2,
    Dashboard.get_instance_status true id s
    = (Ok (status_of id "pending" true i ("N/A", "N/A")), s1)
    /\ Dashboard.get_instance_status true id s1
       = (Ok (status_of id "pending" false (EC2.with_state "pending" i)
                        ("N/A", "N/A")), s2)
    /\ compute_requests s2
       = (compute_requests s
            ++ [describe_request id; start_request id; checks_request id;
                describe_request id; checks_request id])%list.
Proof.
  intros Hid Hs Hi Hst.
  assert (forall n, n <= 5 -> compute_served n s = true) as Hle.
  { intros n Hn. unfold compute_served in *.
    rewrite forallb_forall in *. intros o Ho. apply Hs.
    rewrite <- (firstn_skipn n (firstn 5 _)).
    rewrite firstn_firstn, (Nat.min_l n 5) by exact Hn.
    apply in_or_app. now left. }
  rewrite !get_instance_status_enabled by exact Hid.
  rewrite (try_ok _ _ _ _ _
             (status_try_stopped id i s (Hle 3 ltac:(lia)) Hi Hst)).
  eexists. eexists. split; [reflexivity|].
  rewrite get_instance_status_enabled by exact Hid.
  match goal with
  | |- try_except _ _ ?x = _ /\ _ => set (s1 := x)
  end.
  assert (compute_served 2 s1 = true) as Hs1.
  { unfold compute_served in *.
    change (EC2.outages (Dashboard.ec2 s1))
      with (tl (tl (tl (EC2.outages (Dashboard.ec2 s))))).
    destruct (EC2.outages (Dashboard.ec2 s)) as [|a [|b [|c rest]]];
      try reflexivity.
    cbn [tl]. cbn [firstn forallb] in Hs.
    repeat (apply andb_prop in Hs; destruct Hs as [_ Hs]).
    exact Hs. }
  assert (instance_of s1 id = Some (EC2.with_state "pending" i)) as Hi1.
  { change (instance_of s1 id)
      with (instance_of
              (booted id
                 (asked (start_request id)
                    (noted "info"
                       ("Instance " ++ id
                          ++ " is stopped. Attempting to start it automatically.")
                       (asked (describe_request id)
                          (noted "info"
                             ("Checking status for instance: " ++ id)
                             s))))) id).
    rewrite booted_instance.
    change (instance_of (asked (start_request id) _) id)
      with (instance_of s id).
    rewrite Hi. cbn [option_map]. now rewrite Hst. }
  rewrite (try_ok _ _ _ _ _
             (status_try_idle id (EC2.with_state "pending" i) s1 Hs1 Hi1
                ltac:(discriminate))).
  split; [reflexivity|].
  unfold compute_requests. cbn. now rewrite <- !app_assoc.
Qed.

Lemma status_read_starts_only_once_witness :
  exists s1 s2,
    Dashboard.get_instance_status
      true "i-1"
      (sample_site [sample_instance "i-1" "stopped"] []
                   (App.mkSession (Some true) (Some "alice")))
    = (Ok (status_of "i-1" "pending" true (sample_instance "i-1" "stopped")
                     ("N/A", "N/A")), s1)
    /\ Dashboard.get_instance_status true "i-1" s1
       = (Ok (status_of "i-1" "pending" false
                        (EC2.with_state "pending"
                                        (sample_instance "i-1" "stopped"))
                        ("N/A", "N/A")), s2)
    /\ compute_requests s2
       = [describe_request "i-1"; start_request "i-1";
          checks_request "i-1"; describe_request "i-1";
          checks_request "i-1"].
Proof.
  apply (status_read_starts_only_once
           "i-1" (sample_instance "i-1" "stopped")
           (sample_site [sample_instance "i-1" "stopped"] []
                        (App.mkSession (Some true) (Some "alice"))));
    reflexivity.
Defined.

(* ===================================================================== *)
(** ** Beyond the contract: the session *)
(* ===================================================================== *)

(** A session that is logged in gets the dashboard. *)
Lemma index_logged_in (ec2_client : bool)
      (control_instance_id : option string) (s : Dashboard.Site) :
  App.logged_in (App.session (Dashboard.app s)) = Some true ->
  exists status s',
    Dashboard.index ec2_client control_instance_id s
    = (Ok (Dashboard.dashboard
             (App.username (App.session (Dashboard.app s)))
             status control_instance_id), s').
Proof.
  intros H. unfold Dashboard.index. rewrite H.
  destruct control_instance_id as [id|].
  - destruct (Py.truthy id) eqn:Hid.
    + destruct (yields_returns
                  _ _ s (get_instance_status_reports ec2_client id))
        as [d [s' [E _]]].
      unfold bind at 1. unfold bind at 1. rewrite E. unfold ret. eauto.
    + eexists. eexists. reflexivity.
  - eexists. eexists. reflexivity.
Qed.



(** X26: a successful login opens the dashboard and a logout closes it
    again.  After a login POST with the stored password (the two gets
    served) [index] answers with the dashboard for the submitted user name;
    the [logout] that follows empties the session, flashes
    ["You have been logged out"] and redirects to the login page, and so
    does [index] from then on. *)
Theorem login_opens_the_dashboard
        (pm : PasswordManager.self) (request : App.Request)
        (ec2_client : bool) (control_instance_id : option string)
        (s : Dashboard.Site) :
  let user := submitted_user request in
  let password := submitted_password request in
  App.method request = "POST" ->
  Py.truthy user = true -> Py.truthy password = true ->
  served 2 (App.world (Dashboard.app s)) = true ->
  stored_value (App.world (Dashboard.app s)) (key pm user) = Some password ->
  exists s1 status s2 s3,
    Dashboard.login (Some pm) request s = (Ok (App.redirect "index"), s1)
    /\ Dashboard.index ec2_client control_instance_id s1
       = (Ok (Dashboard.dashboard (Some user) status control_instance_id),
          s2)
    /\ Dashboard.logout s2 = (Ok (Dashboard.redirect "login"), s3)
    /\ App.session (Dashboard.app s3) = App.mkSession None None
    /\ App.flashes (Dashboard.app s3)
       = (App.flashes (Dashboard.app s2)
            ++ [("You have been logged out", "info")])%list
    /\ Dashboard.index ec2_client control_instance_id s3
       = (Ok (Dashboard.redirect "login"), s3).
Proof.
  intros user password Hm Hu Hp Hs Hv.
  pose proof (login_try_stored pm user password
                                (attempted user (Dashboard.app s))
                                Hu Hs Hv) as Ht.
  pose proof (login_try_returned pm user password _ _ _ Hu Ht)
    as [_ [_ [Hsess _]]].
  pose proof (login_after_try pm request (Dashboard.app s) Hm Hu Hp) as E1.
  fold user in E1. fold password in E1. rewrite Ht in E1.
  set (a1 := snd (App.login_try pm user password
                                (attempted user (Dashboard.app s)))) in *.
  set (s1 := Dashboard.mkSite a1 (Dashboard.ec2 s)).
  assert (App.logged_in (App.session (Dashboard.app s1)) = Some true) as Hl.
  { cbn. now rewrite Hsess. }
  destruct (index_logged_in ec2_client control_instance_id s1 Hl)
    as [status [s2 E2]].
  exists s1, status, s2. eexists.
  split; [|split; [|split; [|split; [|split]]]].
  - unfold Dashboard.login. rewrite E1. reflexivity.
  - rewrite E2. cbn [s1 Dashboard.app]. rewrite Hsess. reflexivity.
  - reflexivity.
  - reflexivity.
  - reflexivity.
  - reflexivity.
Qed.

Lemma login_opens_the_dashboard_witness :
  exists s1 status s2 s3,
    Dashboard.login (Some sample_manager) (login_post "alice" "secret")
                    (Dashboard.mkSite
                       (fresh_state
                          (sample_with [sample_record "alice" "secret"] []))
                       (EC2.mkService [] [] [] ""))
    = (Ok (App.redirect "index"), s1)
    /\ Dashboard.index true None s1
       = (Ok (Dashboard.dashboard (Some "alice") status None), s2)
    /\ Dashboard.logout s2 = (Ok (Dashboard.redirect "login"), s3)
    /\ App.session (Dashboard.app s3) = App.mkSession None None
    /\ App.flashes (Dashboard.app s3)
       = (App.flashes (Dashboard.app s2)
            ++ [("You have been logged out", "info")])%list
    /\ Dashboard.index true None s3
       = (Ok (Dashboard.redirect "login"), s3).
Proof.
  apply (login_opens_the_dashboard
           sample_manager (login_post "alice" "secret") true None
           (Dashboard.mkSite
              (fresh_state (sample_with [sample_record "alice" "secret"] []))
              (EC2.mkService [] [] [] "")));
    reflexivity.
Defined.
